(** * PhysicsPlatform (src/app/page.tsx): a shallow embedding and its properties

    The single-page quiz application is embedded as pure functions over an
    explicit application state.  React state hooks become record fields,
    event handlers become state transformers, and the side effects the
    handlers perform (toast notifications, confetti) are appended to an
    effect log carried by the state.

    Conventions:
    - integer-valued JavaScript numbers (identifiers, indices, counters) are
      [Z]; arithmetic that leaves the integers (the division in the accuracy
      figure) is carried out in IEEE-754 binary64 through [SpecFloat];
    - strings are byte strings (the UTF-8 encoding of the text);
      [toLowerCase] is modelled on the ASCII range;
    - [Date.now()] is an input ([now]) of the handlers that read the clock;
    - a handler that would throw a [TypeError] returns [None]; a state
      updater that throws does so while React renders and unmounts the
      application ([Outcome]). *)

From Stdlib Require Import ZArith List String Ascii Bool Lia SpecFloat DecimalString.
Import ListNotations.
Open Scope Z_scope.

(** ** JavaScript built-ins used by the source *)

(** [Array.prototype.slice(start, end)] for integer arguments: negative
    arguments count from the end, both bounds are clamped to the array. *)
Definition slice {A : Type} (l : list A) (start end_ : Z) : list A :=
  let len := Z.of_nat (List.length l) in
  let k := if start <? 0 then Z.max (len + start) 0 else Z.min start len in
  let final := if end_ <? 0 then Z.max (len + end_) 0 else Z.min end_ len in
  firstn (Z.to_nat (final - k)) (skipn (Z.to_nat k) l).

(** [array[i]]: [undefined] (here [None]) outside [0 .. length-1]. *)
Definition array_get {A : Type} (l : list A) (i : Z) : option A :=
  if i <? 0 then None else nth_error l (Z.to_nat i).

(** [String.prototype.toLowerCase] on the ASCII range.  Outside ASCII the
    built-in maps some characters too, but never onto one of the letters
    of "admin" followed directly by the next one (U+0130 becomes "i" and a
    combining dot), so the test in [handleLogin] is not affected. *)
Definition toLowerCase_char (c : ascii) : ascii :=
  let n := N_of_ascii c in
  if ((65 <=? n) && (n <=? 90))%N then ascii_of_N (n + 32) else c.

Fixpoint toLowerCase (s : string) : string :=
  match s with
  | EmptyString => EmptyString
  | String c s' => String (toLowerCase_char c) (toLowerCase s')
  end.

(** [String.prototype.includes(searchString)]: is [sub] a contiguous
    substring of [s]? *)
Fixpoint includes (s sub : string) : bool :=
  if String.prefix sub s then true
  else match s with
       | EmptyString => false
       | String _ s' => includes s' sub
       end.

(** Template-literal interpolation of an array length (a non-negative
    integer below 2^32, printed digit by digit). *)
Definition decimal (n : nat) : string := NilEmpty.string_of_uint (Nat.to_uint n).

(** *** Numbers: IEEE-754 binary64 *)

Definition number : Type := spec_float.
Definition prec : Z := 53.
Definition emax : Z := 1024.

Definition number_of_Z (n : Z) : number := binary_normalize prec emax n 0 false.
Definition number_div (x y : number) : number := SFdiv prec emax x y.
Definition number_mul (x y : number) : number := SFmul prec emax x y.
Definition number_gt (x y : number) : bool := SFltb y x.

(** [Math.round]: the integer closest to the argument, ties towards
    positive infinity; arguments in [[-0.5, 0.5)] keep their sign as a
    zero; integral, infinite and NaN arguments are returned as they are. *)
Definition Math_round (x : number) : number :=
  match x with
  | S754_finite s m e =>
      if 0 <=? e then x
      else
        let d := 2 ^ (- e) in
        let sm := if s then Z.neg m else Z.pos m in
        let n := (2 * sm + d) / (2 * d) in
        if n =? 0 then S754_zero s else number_of_Z n
  | _ => x
  end.

(** *** [JSON.parse] *)

(** Parsed JSON values.  Numbers keep their lexeme and strings the text
    between the quotes as written (escape sequences are validated, not
    decoded): nothing in the application inspects them. *)
Unset Elimination Schemes.
Inductive Json : Type :=
| JNull
| JBool (b : bool)
| JNumber (lexeme : string)
| JString (raw : string)
| JArray (items : list Json)
| JObject (members : list (string * Json)).
Set Elimination Schemes.

Definition is_ws (c : ascii) : bool :=
  let n := N_of_ascii c in
  ((n =? 9) || (n =? 10) || (n =? 13) || (n =? 32))%N.

Definition is_digit (c : ascii) : bool :=
  let n := N_of_ascii c in ((48 <=? n) && (n <=? 57))%N.

Definition is_hex (c : ascii) : bool :=
  let n := N_of_ascii c in
  (((48 <=? n) && (n <=? 57)) || ((65 <=? n) && (n <=? 70)) || ((97 <=? n) && (n <=? 102)))%N.

Definition is_simple_escape (c : ascii) : bool :=
  let n := N_of_ascii c in
  ((n =? 34) || (n =? 92) || (n =? 47) || (n =? 98) || (n =? 102) || (n =? 110)
   || (n =? 114) || (n =? 116))%N.

Fixpoint skip_ws (s : string) : string :=
  match s with
  | String c s' => if is_ws c then skip_ws s' else s
  | EmptyString => s
  end.

Fixpoint strip_prefix (p s : string) : option string :=
  match p, s with
  | EmptyString, _ => Some s
  | String a p', String b s' => if Ascii.eqb a b then strip_prefix p' s' else None
  | String _ _, EmptyString => None
  end.

(** Longest run of decimal digits at the head of [s], and what follows. *)
Fixpoint take_digits (s : string) : string * string :=
  match s with
  | String c s' =>
      if is_digit c
      then let '(ds, rest) := take_digits s' in (String c ds, rest)
      else (EmptyString, s)
  | EmptyString => (EmptyString, s)
  end.

Definition nonempty (s : string) : bool :=
  match s with EmptyString => false | String _ _ => true end.

(** [int]: a single [0], or a non-zero digit followed by digits. *)
Definition parse_int (s : string) : option (string * string) :=
  match s with
  | String c s' =>
      if (N_of_ascii c =? 48)%N then Some (String c EmptyString, s')
      else if is_digit c
           then let '(ds, rest) := take_digits s' in Some (String c ds, rest)
           else None
  | EmptyString => None
  end.

Definition parse_frac (s : string) : option (string * string) :=
  match s with
  | String "." s' =>
      let '(ds, rest) := take_digits s' in
      if nonempty ds then Some (String "." ds, rest) else None
  | _ => Some (EmptyString, s)
  end.

Definition parse_exp (s : string) : option (string * string) :=
  match s with
  | String c s' =>
      if ((N_of_ascii c =? 101) || (N_of_ascii c =? 69))%N then
        let '(sign, s'') :=
          match s' with
          | String "+" r => ("+"%string, r)
          | String "-" r => ("-"%string, r)
          | _ => (EmptyString, s')
          end in
        let '(ds, rest) := take_digits s'' in
        if nonempty ds then Some (String c (sign ++ ds), rest)%string else None
      else Some (EmptyString, s)
  | EmptyString => Some (EmptyString, s)
  end.

Definition parse_number (s : string) : option (string * string) :=
  let '(sign, s1) :=
    match s with
    | String "-" r => ("-"%string, r)
    | _ => (EmptyString, s)
    end in
  match parse_int s1 with
  | None => None
  | Some (i, s2) =>
      match parse_frac s2 with
      | None => None
      | Some (f, s3) =>
          match parse_exp s3 with
          | None => None
          | Some (e, s4) => Some ((sign ++ i ++ f ++ e)%string, s4)
          end
      end
  end.

(** The characters of a string literal after its opening quote, up to the
    closing quote: no control characters, and a backslash only before one
    of the escape letters or [u] and four hexadecimal digits. *)
Fixpoint parse_string_body (s : string) : option (string * string) :=
  match s with
  | EmptyString => None
  | String c s' =>
      if (N_of_ascii c =? 34)%N then Some (EmptyString, s')
      else if (N_of_ascii c =? 92)%N then
        match s' with
        | String e s'' =>
            if is_simple_escape e then
              match parse_string_body s'' with
              | Some (body, rest) => Some (String c (String e body), rest)
              | None => None
              end
            else if (N_of_ascii e =? 117)%N then
              match s'' with
              | String h1 (String h2 (String h3 (String h4 s5))) =>
                  if is_hex h1 && is_hex h2 && is_hex h3 && is_hex h4 then
                    match parse_string_body s5 with
                    | Some (body, rest) =>
                        Some (String c (String e (String h1 (String h2
                                (String h3 (String h4 body))))), rest)
                    | None => None
                    end
                  else None
              | _ => None
              end
            else None
        | EmptyString => None
        end
      else if (N_of_ascii c <? 32)%N then None
      else
        match parse_string_body s' with
        | Some (body, rest) => Some (String c body, rest)
        | None => None
        end
  end.

(** Recursive descent over the JSON grammar.  [parse_value] reads one value
    (leading white space skipped), [parse_elements] the elements of a
    non-empty array after its bracket, [parse_members] the members of a
    non-empty object after its brace.  Every call consumes a character
    before it recurses twice, so [2 * length + 2] units of fuel are enough
    for any input. *)
Fixpoint parse_value (fuel : nat) (s : string) : option (Json * string) :=
  match fuel with
  | O => None
  | S fuel' =>
      match skip_ws s with
      | EmptyString => None
      | String c r =>
          let n := N_of_ascii c in
          if (n =? 91)%N then
            match skip_ws r with
            | String "]" r' => Some (JArray [], r')
            | _ =>
                match parse_elements fuel' r with
                | Some (items, r') => Some (JArray items, r')
                | None => None
                end
            end
          else if (n =? 123)%N then
            match skip_ws r with
            | String "}" r' => Some (JObject [], r')
            | _ =>
                match parse_members fuel' r with
                | Some (members, r') => Some (JObject members, r')
                | None => None
                end
            end
          else if (n =? 34)%N then
            match parse_string_body r with
            | Some (body, r') => Some (JString body, r')
            | None => None
            end
          else if (n =? 116)%N then
            match strip_prefix "rue" r with
            | Some r' => Some (JBool true, r')
            | None => None
            end
          else if (n =? 102)%N then
            match strip_prefix "alse" r with
            | Some r' => Some (JBool false, r')
            | None => None
            end
          else if (n =? 110)%N then
            match strip_prefix "ull" r with
            | Some r' => Some (JNull, r')
            | None => None
            end
          else
            match parse_number (String c r) with
            | Some (lexeme, r') => Some (JNumber lexeme, r')
            | None => None
            end
      end
  end

with parse_elements (fuel : nat) (s : string) : option (list Json * string) :=
  match fuel with
  | O => None
  | S fuel' =>
      match parse_value fuel' s with
      | None => None
      | Some (v, r) =>
          match skip_ws r with
          | String "]" r' => Some ([v], r')
          | String "," r' =>
              match parse_elements fuel' r' with
              | Some (vs, r'') => Some (v :: vs, r'')
              | None => None
              end
          | _ => None
          end
      end
  end

with parse_members (fuel : nat) (s : string) : option (list (string * Json) * string) :=
  match fuel with
  | O => None
  | S fuel' =>
      match skip_ws s with
      | String c r =>
          if negb (N_of_ascii c =? 34)%N then None
          else
            match parse_string_body r with
            | None => None
            | Some (key, r1) =>
                match skip_ws r1 with
                | String ":" r2 =>
                    match parse_value fuel' r2 with
                    | None => None
                    | Some (v, r3) =>
                        match skip_ws r3 with
                        | String "}" r4 => Some ([(key, v)], r4)
                        | String "," r4 =>
                            match parse_members fuel' r4 with
                            | Some (ms, r5) => Some ((key, v) :: ms, r5)
                            | None => None
                            end
                        | _ => None
                        end
                    end
                | _ => None
                end
            end
      | EmptyString => None
      end
  end.

(** [JSON.parse(text)]: one value surrounded by optional white space;
    [None] stands for the [SyntaxError] it throws. *)
Definition JSON_parse (text : string) : option Json :=
  match parse_value (2 * String.length text + 2) text with
  | Some (v, rest) =>
      match skip_ws rest with
      | EmptyString => Some v
      | String _ _ => None
      end
  | None => None
  end.

Definition Array_isArray (v : Json) : bool :=
  match v with JArray _ => true | _ => false end.

(** ** Type definitions (page.tsx, lines 17-56) *)

Inductive Difficulty : Type := easy | medium | hard.
Inductive Mode : Type := practice | exam.
Inductive Page : Type :=
| auth | dashboard | quiz_setup | taking_quiz | quiz_results | leaderboard
| bookmarks | admin_questions | admin_motivation | admin_users | playground
| about.
Inductive SubscriptionStatus : Type := FREE | ACTIVE | EXPIRED.
Inductive MotivationType : Type := QUOTE | IMAGE.
Inductive Role : Type := USER | ADMIN.

Module Question.
Record t : Type := mk {
  id : Z;
  topic : string;
  subtopic : string;
  difficulty : Difficulty;
  questionText : string;
  options : list string;
  correctAnswerIndex : Z;
  explanation : string;
  imageUrl : option string
}.
End Question.

Module Stats.
Record t : Type := mk {
  totalAttempted : Z;
  totalCorrect : Z;
  currentStreak : Z
}.
End Stats.

Module HistoryEntry.
Record t : Type := mk {
  id : Z;
  date : string;
  score : Z;
  total : Z;
  mode : Mode
}.
End HistoryEntry.

Module User.
Record t : Type := mk {
  id : Z;
  name : string;
  email : string;
  role : Role;
  subscriptionStatus : SubscriptionStatus;
  subscriptionEndDate : option string;
  stats : Stats.t;
  history : list HistoryEntry.t
}.
End User.

(** [Omit<User, 'history' | 'stats'>], the rows of the admin user table. *)
Module Account.
Record t : Type := mk {
  id : Z;
  name : string;
  email : string;
  role : Role;
  subscriptionStatus : SubscriptionStatus;
  subscriptionEndDate : option string
}.
End Account.

Module Motivation.
Record t : Type := mk {
  id : Z;
  type : MotivationType;
  content : string;
  author : option string
}.
End Motivation.

(** The object [startQuiz] stores with [setCurrentQuiz]. *)
Module Quiz.
Record t : Type := mk {
  questions : list Question.t;
  answers : list Z;
  currentIndex : Z;
  startTime : Z;
  mode : Mode
}.
Definition set_currentIndex (i : Z) (q : t) : t :=
  mk (questions q) (answers q) i (startTime q) (mode q).
End Quiz.

(** The [config] argument of [startQuiz]. *)
Module Config.
Record t : Type := mk {
  numQuestions : Z;
  mode : Mode
}.
End Config.

(** An entry of the question repository: a typed question, or an item
    that [handleJsonImport] stored exactly as parsed. *)
Inductive QuestionEntry : Type :=
| Typed (q : Question.t)
| Imported (v : Json).

(** ** Mock data (page.tsx, lines 58-77) *)

Open Scope string_scope.

Definition initialQuestions : list Question.t :=
  [ Question.mk 1 "Mechanics" "Kinematics" easy
      "The first equation of motion is $$v = u + at$$. What does it represent?"
      ["Final velocity after time $t$"; "Displacement $s$";
       "Final velocity squared"; "Constant acceleration"]
      0
      "This equation relates final velocity $v$ to initial velocity $u$, acceleration $a$, and time $t$."
      None;
    Question.mk 2 "Mechanics" "Dynamics" medium
      "Newton's second law is $F = ma$. If mass is 2 kg and acceleration is 5 m/s², what is the force?"
      ["10 N"; "7 N"; "2.5 N"; "0 N"]
      0
      "Force $F = 2 \text{ kg} \times 5 \text{ m/s}^2 = 10$ Newtons."
      None;
    Question.mk 3 "Electromagnetism" "Circuits" easy
      "Ohm's law is $V = IR$. For R = 10 Ω and I = 2 A, what is V?"
      ["20 V"; "5 V"; "12 V"; "8 V"]
      0
      "Voltage $V = 10 \Omega \times 2 \text{ A} = 20$ Volts."
      None ].

Definition initialMotivationItems : list Motivation.t :=
  [ Motivation.mk 1 QUOTE
      "The important thing is not to stop questioning. Curiosity has its own reason for existing."
      (Some "Albert Einstein");
    Motivation.mk 2 QUOTE
      "Physics is the law of the world, and we are all its subjects."
      (Some "Anonymous");
    Motivation.mk 3 IMAGE
      "https://images.unsplash.com/photo-1614726365952-780c14c35b0b?q=80&w=2070&auto=format&fit=crop"
      None ].

Definition initialUsers : list Account.t :=
  [ Account.mk 101 "Alice" "alice@example.com" USER ACTIVE (Some "2024-12-31");
    Account.mk 102 "Bob" "bob@example.com" USER FREE None;
    Account.mk 103 "Charlie" "charlie@example.com" USER EXPIRED (Some "2024-01-15") ].

Close Scope string_scope.

(** ** Application state *)

(** Side effects of the handlers, in the order they are performed. *)
Inductive Effect : Type :=
| toast_success (message : string)
| toast_error (message : string)
| toast_plain (message : string)
| confetti.

(** The hooks of [PhysicsPlatform] (lines 82-90), the two hooks of the
    mounted [TakingQuizView] (lines 409-410), and the effect log. *)
Record State : Type := mkState {
  page : Page;
  user : option User.t;
  allUsers : list Account.t;
  questions : list QuestionEntry;
  motivationItems : list Motivation.t;
  bookmarked : list Z;
  currentQuiz : option Quiz.t;
  theme : string;
  isClient : bool;
  selectedOption : option Z;
  showFeedback : bool;
  effects : list Effect
}.

Definition initialState : State :=
  mkState auth None initialUsers (map Typed initialQuestions)
    initialMotivationItems [] None "light" false None false [].

Definition setPage (p : Page) (st : State) : State :=
  mkState p (user st) (allUsers st) (questions st) (motivationItems st)
    (bookmarked st) (currentQuiz st) (theme st) (isClient st)
    (selectedOption st) (showFeedback st) (effects st).

Definition setUser (u : option User.t) (st : State) : State :=
  mkState (page st) u (allUsers st) (questions st) (motivationItems st)
    (bookmarked st) (currentQuiz st) (theme st) (isClient st)
    (selectedOption st) (showFeedback st) (effects st).

Definition setQuestions (f : list QuestionEntry -> list QuestionEntry)
  (st : State) : State :=
  mkState (page st) (user st) (allUsers st) (f (questions st))
    (motivationItems st) (bookmarked st) (currentQuiz st) (theme st)
    (isClient st) (selectedOption st) (showFeedback st) (effects st).

Definition setTheme (t : string) (st : State) : State :=
  mkState (page st) (user st) (allUsers st) (questions st) (motivationItems st)
    (bookmarked st) (currentQuiz st) t (isClient st)
    (selectedOption st) (showFeedback st) (effects st).

Definition setIsClient (b : bool) (st : State) : State :=
  mkState (page st) (user st) (allUsers st) (questions st) (motivationItems st)
    (bookmarked st) (currentQuiz st) (theme st) b
    (selectedOption st) (showFeedback st) (effects st).

Definition setCurrentQuiz (q : option Quiz.t) (st : State) : State :=
  mkState (page st) (user st) (allUsers st) (questions st) (motivationItems st)
    (bookmarked st) q (theme st) (isClient st)
    (selectedOption st) (showFeedback st) (effects st).

Definition setSelectedOption (o : option Z) (st : State) : State :=
  mkState (page st) (user st) (allUsers st) (questions st) (motivationItems st)
    (bookmarked st) (currentQuiz st) (theme st) (isClient st)
    o (showFeedback st) (effects st).

Definition setShowFeedback (b : bool) (st : State) : State :=
  mkState (page st) (user st) (allUsers st) (questions st) (motivationItems st)
    (bookmarked st) (currentQuiz st) (theme st) (isClient st)
    (selectedOption st) b (effects st).

Definition perform (e : Effect) (st : State) : State :=
  mkState (page st) (user st) (allUsers st) (questions st) (motivationItems st)
    (bookmarked st) (currentQuiz st) (theme st) (isClient st)
    (selectedOption st) (showFeedback st) (effects st ++ [e]).

(** ** Handlers of [PhysicsPlatform] *)

Definition fireConfetti (st : State) : State := perform confetti st.

(** Lines 120-135. *)
Definition handleLogin (email : string) (now : Z) (st : State) : State :=
  let role := if includes (toLowerCase email) "admin" then ADMIN else USER in
  let newUser :=
    User.mk now
      (match role with ADMIN => "Admin User" | USER => "Demo Student" end)
      email role ACTIVE (Some "2024-12-31"%string)
      (Stats.mk 50 35 5) [] in
  perform (toast_success ("Welcome, " ++ User.name newUser ++ "!"))
    (setPage dashboard (setUser (Some newUser) st)).

(** Lines 137-141. *)
Definition handleLogout (st : State) : State :=
  perform (toast_plain "You have been logged out.")
    (setPage auth (setUser None st)).

(** Lines 143-153.  The source slices the module constant
    [initialQuestions]; the sliced array is the parameter [pool] here, so
    that statements can range over every pool.  [startQuiz initialQuestions]
    is the function of the source. *)
Definition startQuiz (pool : list Question.t) (config : Config.t) (now : Z)
  (st : State) : State :=
  let selectedQuestions := slice pool 0 (Config.numQuestions config) in
  setPage taking_quiz
    (setCurrentQuiz
       (Some (Quiz.mk selectedQuestions [] 0 now (Config.mode config))) st).

(** Lines 170-182.  Both the [SyntaxError] of [JSON.parse] and the error
    thrown for a non-array end in the [catch] block. *)
Definition handleJsonImport (jsonString : string) (st : State) : State :=
  match JSON_parse jsonString with
  | Some (JArray newQuestions) =>
      perform
        (toast_success
           (decimal (List.length newQuestions) ++ " questions imported successfully!"))
        (setQuestions (fun prev => (prev ++ map Imported newQuestions)%list) st)
  | _ => perform (toast_error "Invalid JSON format. Please check the file.") st
  end.

(** What [renderPage] returns. *)
Inductive Element : Type :=
| AuthView | DashboardView | QuizSetupView | TakingQuizView
| AdminQuestionsView | AdminUsersView | PlaygroundPlaceholder | AboutUsView
| null.

(** Lines 184-199: the element to show, and the state after the [setPage]
    calls made while rendering. *)
Definition renderPage (st : State) : State * Element :=
  match user st with
  | None => (st, AuthView)
  | Some _ =>
      match page st with
      | dashboard => (st, DashboardView)
      | quiz_setup => (st, QuizSetupView)
      | taking_quiz =>
          match currentQuiz st with
          | None => (setPage quiz_setup st, null)
          | Some _ => (st, TakingQuizView)
          end
      | admin_questions => (st, AdminQuestionsView)
      | admin_users => (st, AdminUsersView)
      | playground => (st, PlaygroundPlaceholder)
      | about => (st, AboutUsView)
      | _ => (setPage dashboard st, null)
      end
  end.

(** ** [DashboardView] (line 357) *)

Definition accuracy (user : User.t) : number :=
  let stats := User.stats user in
  if number_gt (number_of_Z (Stats.totalAttempted stats)) (number_of_Z 0)
  then Math_round
         (number_mul
            (number_div (number_of_Z (Stats.totalCorrect stats))
                        (number_of_Z (Stats.totalAttempted stats)))
            (number_of_Z 100))
  else number_of_Z 0.

(** ** [TakingQuizView] (lines 408-452) *)

(** The hooks of a freshly mounted view (lines 409-410). *)
Definition mountTakingQuizView (st : State) : State :=
  setShowFeedback false (setSelectedOption None st).

(** Line 411: [quiz.questions[quiz.currentIndex]]. *)
Definition currentQuestion (st : State) : option Question.t :=
  match currentQuiz st with
  | Some quiz => array_get (Quiz.questions quiz) (Quiz.currentIndex quiz)
  | None => None
  end.

(** Lines 413-422.  [None] is the [TypeError] of reading
    [correctAnswerIndex] off an undefined question. *)
Definition handleAnswer (index : Z) (st : State) : option State :=
  if showFeedback st then Some st
  else
    match currentQuestion st with
    | None => None
    | Some q =>
        let st' := setShowFeedback true (setSelectedOption (Some index) st) in
        if index =? Question.correctAnswerIndex q
        then Some (perform (toast_success "Correct!") st')
        else Some (perform (toast_error "Incorrect!") st')
    end.

(** Lines 424-433; [onComplete] is [fireConfetti], [setQuiz] is
    [setCurrentQuiz]. *)
Definition handleNext (st : State) : option State :=
  match currentQuiz st with
  | None => None
  | Some quiz =>
      if Quiz.currentIndex quiz <? Z.of_nat (List.length (Quiz.questions quiz)) - 1
      then Some (setShowFeedback false
                   (setSelectedOption None
                      (setCurrentQuiz
                         (Some (Quiz.set_currentIndex (Quiz.currentIndex quiz + 1) quiz))
                         st)))
      else Some (setPage dashboard (fireConfetti st))
  end.



(** The view is on screen when a user is logged in, the page is
    [taking-quiz], a quiz is stored and its current question exists
    (line 436 throws while rendering otherwise). *)
Definition onScreen (st : State) : bool :=
  match user st, page st, currentQuestion st with
  | Some _, taking_quiz, Some _ => true
  | _, _, _ => false
  end.

(** Clicks on the buttons of the view while it is the view of the page.
    The [Next] button carries [disabled={!showFeedback}] (line 450): a
    click on it reaches [handleNext] only while feedback is shown.
    [dispatch] delivers to the view that [renderPage] shows; a view that
    has left the page but is still in its exit animation takes clicks as
    well, which [deliver] below adds. *)
Inductive Event : Type :=
| clickOption (index : Z)
| clickNext.

Definition dispatch (ev : Event) (st : State) : option State :=
  if onScreen st then
    match ev with
    | clickOption index => handleAnswer index st
    | clickNext => if showFeedback st then handleNext st else Some st
    end
  else Some st.

Fixpoint run (evs : list Event) (st : State) : option State :=
  match evs with
  | [] => Some st
  | ev :: evs' =>
      match dispatch ev st with
      | Some st' => run evs' st'
      | None => None
      end
  end.

(** The session [startQuiz] opens, once its view is mounted. *)
Definition startSession (pool : list Question.t) (config : Config.t) (now : Z)
  (st : State) : State :=
  mountTakingQuizView (startQuiz pool config now st).

(** Number of times the completion callback fired. *)
Definition completions (st : State) : nat :=
  List.length (filter (fun e => match e with confetti => true | _ => false end)
                 (effects st)).

(** *** The view while it leaves the page (lines 216-225) *)

(** [AnimatePresence mode="wait"] keeps the view of the page that was
    left mounted for the 0.2 s of its exit animation and shows the next
    view only afterwards.  A [TakingQuizView] in that state keeps the
    props of its last render and its own two hooks, and its buttons still
    take clicks.  [exitingQuiz] is the [quiz] prop of such a view, [None]
    when no quiz view is leaving. *)
Record QuizScreen : Type := mkQuizScreen {
  hostState : State;
  exitingQuiz : option Quiz.t
}.

(** Lines 413-422 and 424-433 for a view whose [quiz] prop is [quiz]. *)
Definition handleAnswerWith (quiz : Quiz.t) (index : Z) (st : State)
  : option State :=
  if showFeedback st then Some st
  else
    match array_get (Quiz.questions quiz) (Quiz.currentIndex quiz) with
    | None => None
    | Some q =>
        let st' := setShowFeedback true (setSelectedOption (Some index) st) in
        if index =? Question.correctAnswerIndex q
        then Some (perform (toast_success "Correct!") st')
        else Some (perform (toast_error "Incorrect!") st')
    end.

Definition handleNextWith (quiz : Quiz.t) (st : State) : State :=
  if Quiz.currentIndex quiz <? Z.of_nat (List.length (Quiz.questions quiz)) - 1
  then setShowFeedback false
         (setSelectedOption None
            (setCurrentQuiz
               (Some (Quiz.set_currentIndex (Quiz.currentIndex quiz + 1) quiz))
               st))
  else setPage dashboard (fireConfetti st).

(** What happens on the screen of a session: a click on a button of the
    quiz view, shown or leaving, or the end of the exit animation, which
    unmounts the leaving view. *)
Inductive ScreenEvent : Type :=
| viewClick (ev : Event)
| exitEnds.

(** A click goes to the view of the page while that is the quiz view; a
    click that makes it leave the page (the completing [Next]) starts its
    exit with the props it was rendered with.  While the view is leaving,
    clicks reach its handlers with those props and the [Next] button is
    still governed by [showFeedback] alone.  With no quiz view mounted a
    click has nothing to land on. *)
Definition deliver (e : ScreenEvent) (s : QuizScreen) : option QuizScreen :=
  let st := hostState s in
  match e with
  | exitEnds => Some (mkQuizScreen st None)
  | viewClick ev =>
      if onScreen st then
        match dispatch ev st with
        | Some st' =>
            Some (mkQuizScreen st'
                    (match page st' with
                     | taking_quiz => None
                     | _ => currentQuiz st
                     end))
        | None => None
        end
      else
        match exitingQuiz s with
        | Some quiz =>
            match ev with
            | clickOption index =>
                match handleAnswerWith quiz index st with
                | Some st' => Some (mkQuizScreen st' (Some quiz))
                | None => None
                end
            | clickNext =>
                if showFeedback st
                then Some (mkQuizScreen (handleNextWith quiz st) (Some quiz))
                else Some s
            end
        | None => Some s
        end
  end.

Fixpoint runScreen (evs : list ScreenEvent) (s : QuizScreen) : option QuizScreen :=
  match evs with
  | [] => Some s
  | e :: evs' =>
      match deliver e s with
      | Some s' => runScreen evs' s'
      | None => None
      end
  end.

(** The screen of the session [startQuiz] opens, once the setup view has
    left and the quiz view is mounted. *)
Definition openSession (pool : list Question.t) (config : Config.t) (now : Z)
  (st : State) : QuizScreen :=
  mkQuizScreen (startSession pool config now st) None.

(** No click of the run lands on a view that is leaving. *)
Fixpoint exitUndisturbed (evs : list ScreenEvent) (s : QuizScreen) : bool :=
  match evs with
  | [] => true
  | e :: evs' =>
      match e, onScreen (hostState s), exitingQuiz s with
      | viewClick _, false, Some _ => false
      | _, _, _ =>
          match deliver e s with
          | Some s' => exitUndisturbed evs' s'
          | None => true
          end
      end
  end.



(** ** Vocabulary of the statements *)

(** [w] is the word "admin" in some mix of upper and lower case. *)
Definition admin_any_case (w : string) : Prop :=
  exists c1 c2 c3 c4 c5 : ascii,
    w = String c1 (String c2 (String c3 (String c4 (String c5 EmptyString)))) /\
    (c1 = "a" \/ c1 = "A")%char /\ (c2 = "d" \/ c2 = "D")%char /\
    (c3 = "m" \/ c3 = "M")%char /\ (c4 = "i" \/ c4 = "I")%char /\
    (c5 = "n" \/ c5 = "N")%char.

(** [email] contains "admin" as a substring, ignoring case. *)
Definition contains_admin (email : string) : Prop :=
  exists pre w post, email = (pre ++ w ++ post)%string /\ admin_any_case w.

(** Position and length of the stored session ([0] without a session). *)
Definition sessionIndex (st : State) : Z :=
  match currentQuiz st with
  | Some quiz => Quiz.currentIndex quiz
  | None => 0
  end.

Definition sessionLength (st : State) : Z :=
  match currentQuiz st with
  | Some quiz => Z.of_nat (List.length (Quiz.questions quiz))
  | None => 0
  end.

(** A session is completed once [handleNext] has sent the host to the
    dashboard; until then the page is [taking-quiz]. *)
Definition completed (st : State) : Prop := page st = dashboard.

(** Two states that differ at most in their page. *)
Definition same_but_page (st st' : State) : Prop :=
  user st' = user st /\ allUsers st' = allUsers st /\
  questions st' = questions st /\ motivationItems st' = motivationItems st /\
  bookmarked st' = bookmarked st /\ currentQuiz st' = currentQuiz st /\
  theme st' = theme st /\ isClient st' = isClient st /\
  selectedOption st' = selectedOption st /\ showFeedback st' = showFeedback st /\
  effects st' = effects st.

(** A logged-in state used to instantiate statements: the component has
    mounted ([isClient] is set) and a student has logged in. *)
Definition demoState : State :=
  handleLogin "student@example.com" 1700000000000 (setIsClient true initialState).

(** The session over the questions [qs] is in a legal position: a user is
    logged in, the stored quiz holds [qs] and its index points at one of
    them; either the quiz page is shown and the completion callback fired
    [c0] times so far, or the session is completed, the callback fired
    once more and the index rests on the last question. *)
Definition session_inv (qs : list Question.t) (c0 : nat) (st : State) : Prop :=
  user st <> None /\
  (exists quiz, currentQuiz st = Some quiz /\ Quiz.questions quiz = qs /\
                0 <= Quiz.currentIndex quiz <= Z.of_nat (List.length qs) - 1) /\
  (page st = taking_quiz /\ completions st = c0 \/
   page st = dashboard /\ completions st = S c0 /\
   sessionIndex st = Z.of_nat (List.length qs) - 1).

(** Answering the current question (with its first option) and pressing
    [Next], [n] times over. *)
Fixpoint answerAndAdvance (n : nat) : list Event :=
  match n with
  | O => []
  | S n' => clickOption 0 :: clickNext :: answerAndAdvance n'
  end.

(** The screen of a session over the questions [qs] is in a legal
    position: a user is logged in, the stored quiz holds [qs] and its
    index points at one of them; either the quiz page is shown, no view
    is leaving and the completion callback fired [c0] times so far, or
    the session is completed, the callback fired at least once more, the
    index rests on the last question, and the view that may still be
    leaving was rendered with [qs] at the last question. *)
Definition screen_inv (qs : list Question.t) (c0 : nat) (s : QuizScreen) : Prop :=
  let st := hostState s in
  user st <> None /\
  (exists quiz, currentQuiz st = Some quiz /\ Quiz.questions quiz = qs /\
                0 <= Quiz.currentIndex quiz <= Z.of_nat (List.length qs) - 1) /\
  (page st = taking_quiz /\ completions st = c0 /\ exitingQuiz s = None \/
   page st = dashboard /\ (S c0 <= completions st)%nat /\
   sessionIndex st = Z.of_nat (List.length qs) - 1 /\
   (exitingQuiz s = None \/
    exists quiz, exitingQuiz s = Some quiz /\ Quiz.questions quiz = qs /\
                 Quiz.currentIndex quiz = Z.of_nat (List.length qs) - 1)).

(** A user whose statistics are the two counts. *)
Definition userWithStats (attempted correct : Z) : User.t :=
  User.mk 0 "" "" USER FREE None (Stats.mk attempted correct 0) [].

(** [round(n / d)] over the rationals, ties upwards, for [d > 0]. *)
Definition round_half_up (n d : Z) : Z := (2 * n + d) / (2 * d).

(** The accuracy figure in the words of the specification:
    [round(100 * correct / attempted)] when [attempted > 0], else 0. *)
Definition accuracy_spec (attempted correct : Z) : Z :=
  if 0 <? attempted then round_half_up (100 * correct) attempted else 0.

(** [located N D m l]: the rational [N / D] lies in [[m, m + 1)], at the
    position [l] with respect to the midpoint (on [m], below, on or above
    [m + 1/2]).  This is the meaning of the [location] that [SpecFloat]
    threads through its rounding functions. *)
Definition located (N D m : Z) (l : location) : Prop :=
  match l with
  | loc_Exact => N = m * D
  | loc_Inexact Lt => m * D < N /\ 2 * N < (2 * m + 1) * D
  | loc_Inexact Eq => 2 * N = (2 * m + 1) * D
  | loc_Inexact Gt => (2 * m + 1) * D < 2 * N /\ N < (m + 1) * D
  end.

(** ** The remaining handlers of [PhysicsPlatform] *)

Definition setAllUsers (f : list Account.t -> list Account.t) (st : State) : State :=
  mkState (page st) (user st) (f (allUsers st)) (questions st)
    (motivationItems st) (bookmarked st) (currentQuiz st) (theme st)
    (isClient st) (selectedOption st) (showFeedback st) (effects st).

(** [{ ...question, id }]. *)
Definition withId (id : Z) (q : Question.t) : Question.t :=
  Question.mk id (Question.topic q) (Question.subtopic q) (Question.difficulty q)
    (Question.questionText q) (Question.options q) (Question.correctAnswerIndex q)
    (Question.explanation q) (Question.imageUrl q).

(** Lines 155-158. *)
Definition addQuestion (question : Question.t) (now : Z) (st : State) : State :=
  perform (toast_success "Question added successfully!")
    (setQuestions (fun prev => prev ++ [Typed (withId now question)]) st).

(** *** Reading [q.id] off an imported item *)

Definition digit_value (c : ascii) : Z := Z.of_N (N_of_ascii c) - 48.

Fixpoint digits_value (acc : Z) (s : string) : Z :=
  match s with
  | EmptyString => acc
  | String c s' => digits_value (10 * acc + digit_value c) s'
  end.

(** The binary64 number nearest to [(-1)^neg * M * 10^E]. *)
Definition decimal_to_number (neg : bool) (M E : Z) : number :=
  match M with
  | Z.pos m =>
      if 0 <=? E
      then binary_normalize prec emax
             ((if neg then Z.neg m else Z.pos m) * 10 ^ E) 0 false
      else SFdiv prec emax (S754_finite neg m 0)
             (S754_finite false (Z.to_pos (10 ^ (- E))) 0)
  | _ => S754_zero neg
  end.

(** The value [JSON.parse] gives to a number lexeme. *)
Definition JSON_number_value (lexeme : string) : number :=
  let '(neg, s1) :=
    match lexeme with
    | String "-" r => (true, r)
    | _ => (false, lexeme)
    end in
  let '(int_part, s2) := take_digits s1 in
  let '(frac_part, s3) :=
    match s2 with
    | String "." r => take_digits r
    | _ => (EmptyString, s2)
    end in
  let exponent :=
    match s3 with
    | String _ (String "+" r) => digits_value 0 r
    | String _ (String "-" r) => - digits_value 0 r
    | String _ r => digits_value 0 r
    | EmptyString => 0
    end in
  decimal_to_number neg (digits_value 0 (int_part ++ frac_part))
    (exponent - Z.of_nat (String.length frac_part)).

Definition hex_value (c : ascii) : N :=
  let n := N_of_ascii c in
  if (n <=? 57)%N then (n - 48)%N
  else if (n <=? 70)%N then (n - 55)%N else (n - 87)%N.

Definition escape_value (c : ascii) : N :=
  let n := N_of_ascii c in
  if (n =? 98)%N then 8%N
  else if (n =? 102)%N then 12%N
  else if (n =? 110)%N then 10%N
  else if (n =? 114)%N then 13%N
  else if (n =? 116)%N then 9%N
  else n.

Definition is_continuation (n : N) : bool := ((128 <=? n) && (n <=? 191))%N.

(** The UTF-16 code units a validated string body stands for.  The text
    is held as UTF-8 bytes: an escape gives its code unit, a well-formed
    sequence of two or three bytes the code unit it encodes, one of four
    bytes the surrogate pair of its code point.  A byte that starts no
    well-formed sequence is in no text; it stands for itself. *)
Fixpoint decode_units (s : string) : list N :=
  match s with
  | EmptyString => []
  | String c s' =>
      let n := N_of_ascii c in
      if (n =? 92)%N then
        match s' with
        | String e s'' =>
            if (N_of_ascii e =? 117)%N then
              match s'' with
              | String h1 (String h2 (String h3 (String h4 s5))) =>
                  (4096 * hex_value h1 + 256 * hex_value h2
                   + 16 * hex_value h3 + hex_value h4)%N :: decode_units s5
              | _ => []
              end
            else escape_value e :: decode_units s''
        | EmptyString => []
        end
      else if (n <? 128)%N then n :: decode_units s'
      else
        match s' with
        | String c1 s1 =>
            let n1 := N_of_ascii c1 in
            if ((194 <=? n) && (n <=? 223))%N && is_continuation n1
            then ((n - 192) * 64 + (n1 - 128))%N :: decode_units s1
            else
              match s1 with
              | String c2 s2 =>
                  let n2 := N_of_ascii c2 in
                  if ((224 <=? n) && (n <=? 239))%N
                     && is_continuation n1 && is_continuation n2
                  then ((n - 224) * 4096 + (n1 - 128) * 64 + (n2 - 128))%N
                       :: decode_units s2
                  else
                    match s2 with
                    | String c3 s3 =>
                        let n3 := N_of_ascii c3 in
                        if ((240 <=? n) && (n <=? 244))%N
                           && is_continuation n1 && is_continuation n2
                           && is_continuation n3
                        then
                          let cp := ((n - 240) * 262144 + (n1 - 128) * 4096
                                     + (n2 - 128) * 64 + (n3 - 128))%N in
                          (55296 + (cp - 65536) / 1024)%N
                          :: (56320 + (cp - 65536) mod 1024)%N
                          :: decode_units s3
                        else n :: decode_units s'
                    | EmptyString => n :: decode_units s'
                    end
              | EmptyString => n :: decode_units s'
              end
        | EmptyString => [n]
        end
  end.

Definition key_is_id (raw : string) : bool :=
  match decode_units raw with
  | [i; d] => ((i =? 105) && (d =? 100))%N
  | _ => false
  end.

(** The member named [id] of an object; of several, the last one
    counts. *)
Fixpoint member_id (members : list (string * Json)) : option Json :=
  match members with
  | [] => None
  | (key, v) :: rest =>
      match member_id rest with
      | Some v' => Some v'
      | None => if key_is_id key then Some v else None
      end
  end.

(** What [q.id] can be, as far as [===] tells values apart.  A
    JavaScript number is [id_integer] where the model keeps it as an
    integer (the id of a typed question, the clock) and [id_number] where
    [JSON.parse] read it.  An object or an array is a reference, identical
    to itself only; as an id it is named by the row of the repository that
    holds it. *)
Inductive IdValue : Type :=
| id_undefined
| id_null
| id_boolean (b : bool)
| id_integer (n : Z)
| id_number (x : number)
| id_string (units : list N)
| id_reference (row : nat).

(** [q.id] for the entry [q] in row [row]: [None] is the [TypeError] of
    reading a property off [null]; numbers, strings, booleans and arrays
    have no property [id]. *)
Definition rowId (row : nat) (q : QuestionEntry) : option IdValue :=
  match q with
  | Typed question => Some (id_integer (Question.id question))
  | Imported JNull => None
  | Imported (JObject members) =>
      match member_id members with
      | None => Some id_undefined
      | Some JNull => Some id_null
      | Some (JBool b) => Some (id_boolean b)
      | Some (JNumber lexeme) => Some (id_number (JSON_number_value lexeme))
      | Some (JString raw) => Some (id_string (decode_units raw))
      | Some (JArray _) | Some (JObject _) => Some (id_reference row)
      end
  | Imported _ => Some id_undefined
  end.

Fixpoint units_eqb (u v : list N) : bool :=
  match u, v with
  | [], [] => true
  | a :: u', b :: v' => (a =? b)%N && units_eqb u' v'
  | _, _ => false
  end.

(** [x === y]. *)
Definition strict_equal (x y : IdValue) : bool :=
  match x, y with
  | id_undefined, id_undefined => true
  | id_null, id_null => true
  | id_boolean a, id_boolean b => Bool.eqb a b
  | id_integer a, id_integer b => a =? b
  | id_integer a, id_number b => SFeqb (number_of_Z a) b
  | id_number a, id_integer b => SFeqb a (number_of_Z b)
  | id_number a, id_number b => SFeqb a b
  | id_string u, id_string v => units_eqb u v
  | id_reference r, id_reference r' => Nat.eqb r r'
  | _, _ => false
  end.

(** [prev.filter(q => q.id !== id)], from row [row] on. *)
Fixpoint filter_rows (row : nat) (id : IdValue) (prev : list QuestionEntry)
  : option (list QuestionEntry) :=
  match prev with
  | [] => Some []
  | q :: rest =>
      match rowId row q with
      | None => None
      | Some v =>
          match filter_rows (S row) id rest with
          | None => None
          | Some rest' => Some (if strict_equal v id then rest' else q :: rest')
          end
      end
  end.

(** What a handler leaves: the application, rendered again; or, when an
    updater threw, nothing but the notifications requested so far.  React
    runs the updater inside a [try] when the handler calls the setter, so
    the handler goes on; the error comes back while rendering and
    unmounts the component. *)
Inductive Outcome : Type :=
| rendered (st : State)
| unmounted (requested : list Effect).

(** Lines 160-163. *)
Definition deleteQuestion (id : IdValue) (st : State) : Outcome :=
  match filter_rows 0 id (questions st) with
  | Some kept =>
      rendered (perform (toast_error "Question deleted!")
                  (setQuestions (fun _ => kept) st))
  | None => unmounted (effects st ++ [toast_error "Question deleted!"])
  end.

(** Line 470: the delete button of the row, [deleteQuestion(q.id)].  A
    row that is not there, or that could not be rendered, has no
    button. *)
Definition deleteButton (row : nat) (st : State) : Outcome :=
  match nth_error (questions st) row with
  | Some q =>
      match rowId row q with
      | Some id => deleteQuestion id st
      | None => rendered st
      end
  | None => rendered st
  end.

(** Template-literal interpolation of a safe integer (at most 2^53 in
    absolute value): its decimal digits.  Larger numbers are printed by
    JavaScript with the shortest digits that identify the double, padded
    with zeros, and from 10^21 on in exponent notation; the statements
    that read the text are restricted to safe integers. *)
Definition decimalZ (n : Z) : string := NilEmpty.string_of_int (Z.to_int n).

Definition withSubscription (status : SubscriptionStatus) (date : option string)
  (u : Account.t) : Account.t :=
  Account.mk (Account.id u) (Account.name u) (Account.email u) (Account.role u)
    status date.

(** Lines 165-168. *)
Definition updateUserSubscription (userId : Z) (status : SubscriptionStatus)
  (date : option string) (st : State) : State :=
  perform (toast_success ("Updated subscription for user " ++ decimalZ userId))
    (setAllUsers
       (map (fun u => if Account.id u =? userId
                      then withSubscription status date u else u))
       st).

(** *** The browser around the component *)

(** The application state together with the two pieces of the browser
    the component touches: the [theme] key of [localStorage] and the
    [dark] class of the document element. *)
Record Browser : Type := mkBrowser {
  appState : State;
  storedTheme : option string;
  darkClass : bool
}.

Definition onApp (f : State -> State) (b : Browser) : Browser :=
  mkBrowser (f (appState b)) (storedTheme b) (darkClass b).

(** Lines 108-114. *)
Definition toggleTheme (b : Browser) : Browser :=
  let newTheme :=
    if String.eqb (theme (appState b)) "light" then "dark"%string else "light"%string in
  mkBrowser
    (perform (toast_success ("Switched to " ++ newTheme ++ " mode!"))
       (setTheme newTheme (appState b)))
    (Some newTheme)
    (String.eqb newTheme "dark").

(** Lines 93-95. *)
Definition clientEffect (b : Browser) : Browser := onApp (setIsClient true) b.

(** Lines 97-105; an empty saved string is falsy. *)
Definition themeEffect (b : Browser) : Browser :=
  if isClient (appState b) then
    match storedTheme b with
    | Some savedTheme =>
        if String.eqb savedTheme EmptyString then b
        else mkBrowser (setTheme savedTheme (appState b)) (storedTheme b)
               (String.eqb savedTheme "dark")
    | None => b
    end
  else b.

(** Loading the page: the component starts from its initial state, the
    storage is what the last visit left, the document carries the
    classes of the served page ([dark] or not); then the two effects run,
    the second once more after [isClient] has changed. *)
Definition loadPage (saved : option string) (servedDark : bool) : Browser :=
  themeEffect (clientEffect (themeEffect (mkBrowser initialState saved servedDark))).

(** *** The sidebar (lines 236-279) *)

Definition navItems : list Page :=
  [dashboard; quiz_setup; leaderboard; bookmarks; playground; about].

Definition adminNavItems : list Page :=
  [admin_questions; admin_motivation; admin_users].

Definition sidebarItems (userRole : Role) : list Page :=
  match userRole with
  | ADMIN => navItems ++ adminNavItems
  | USER => navItems
  end.

Definition Page_eqb (p q : Page) : bool :=
  match p, q with
  | auth, auth | dashboard, dashboard | quiz_setup, quiz_setup
  | taking_quiz, taking_quiz | quiz_results, quiz_results
  | leaderboard, leaderboard | bookmarks, bookmarks
  | admin_questions, admin_questions | admin_motivation, admin_motivation
  | admin_users, admin_users | playground, playground | about, about => true
  | _, _ => false
  end.

(** *** The whole interface *)

(** What the user can click, with the data typed in. *)
Inductive UIEvent : Type :=
| loginClick (email : string) (now : Z)
| logoutClick
| navClick (item : Page)
| themeClick
| startQuizClick (now : Z)
| quizClick (ev : Event)
| importClick (jsonString : string)
| deleteClick (row : nat)
| subscriptionChange (userId : Z) (status : SubscriptionStatus)
    (date : option string).

(** The handler a click reaches.  A control that is not on screen
    receives no click: the login button shows only without a user
    (lines 205-207), the sidebar and the header only with one, the items
    of the sidebar depend on the role (line 261), and the other controls
    belong to the view that [renderPage] shows; nothing is shown before
    [isClient] is set (lines 201-203).  [None] is a handler that threw,
    or an update that unmounted the application. *)
Definition handle (ev : UIEvent) (b : Browser) : option Browser :=
  let st := appState b in
  if negb (isClient st) then Some b
  else
    match user st with
    | None =>
        match ev with
        | loginClick email now => Some (onApp (handleLogin email now) b)
        | _ => Some b
        end
    | Some u =>
        match ev with
        | loginClick _ _ => Some b
        | logoutClick => Some (onApp handleLogout b)
        | navClick item =>
            if existsb (Page_eqb item) (sidebarItems (User.role u))
            then Some (onApp (setPage item) b) else Some b
        | themeClick => Some (toggleTheme b)
        | startQuizClick now =>
            match page st with
            | quiz_setup =>
                Some (onApp (startSession initialQuestions
                               (Config.mk 3 practice) now) b)
            | _ => Some b
            end
        | quizClick ev' =>
            match dispatch ev' st with
            | Some st' => Some (mkBrowser st' (storedTheme b) (darkClass b))
            | None => None
            end
        | importClick jsonString =>
            match page st with
            | admin_questions => Some (onApp (handleJsonImport jsonString) b)
            | _ => Some b
            end
        | deleteClick row =>
            match page st with
            | admin_questions =>
                match deleteButton row st with
                | rendered st' => Some (mkBrowser st' (storedTheme b) (darkClass b))
                | unmounted _ => None
                end
            | _ => Some b
            end
        | subscriptionChange userId status date =>
            match page st with
            | admin_users =>
                Some (onApp (updateUserSubscription userId status date) b)
            | _ => Some b
            end
        end
    end.

(** A click, followed by the rendering it triggers: [renderPage] may
    redirect, and the redirect is rendered again. *)
Definition click (ev : UIEvent) (b : Browser) : option Browser :=
  match handle ev b with
  | Some b' =>
      Some (onApp (fun st => fst (renderPage (fst (renderPage st)))) b')
  | None => None
  end.

Fixpoint clicks (evs : list UIEvent) (b : Browser) : option Browser :=
  match evs with
  | [] => Some b
  | ev :: evs' =>
      match click ev b with
      | Some b' => clicks evs' b'
      | None => None
      end
  end.

(** The email of a login click, if it is one. *)
Definition loginEmail (ev : UIEvent) : option string :=
  match ev with
  | loginClick email _ => Some email
  | _ => None
  end.

(** ** Vocabulary of the further statements *)

(** The notification [handleAnswer] emits for answer [a] to question [q]. *)
Definition feedbackToast (q : Question.t) (a : Z) : Effect :=
  if a =? Question.correctAnswerIndex q
  then toast_success "Correct!" else toast_error "Incorrect!".

(** Selecting the given options in turn, pressing [Next] after each. *)
Fixpoint answerAll (answers : list Z) : list Event :=
  match answers with
  | [] => []
  | a :: rest => clickOption a :: clickNext :: answerAll rest
  end.

(** The entries an import of [jsonString] adds to the repository. *)
Definition importedItems (jsonString : string) : list QuestionEntry :=
  match JSON_parse jsonString with
  | Some (JArray items) => map Imported items
  | _ => []
  end.

(** A run of the interface in which nobody logs in with an email that
    contains "admin". *)
Definition withoutAdminLogin (evs : list UIEvent) : Prop :=
  forall ev email, In ev evs -> loginEmail ev = Some email -> ~ contains_admin email.

Definition isAdminView (e : Element) : bool :=
  match e with
  | AdminQuestionsView | AdminUsersView => true
  | _ => false
  end.

(** What a click on the quiz view may change: the page, the position in
    the stored quiz, the two hooks of the view and the effect log. *)
Definition quiz_frame (st st' : State) : Prop :=
  user st' = user st /\ allUsers st' = allUsers st /\
  questions st' = questions st /\ motivationItems st' = motivationItems st /\
  bookmarked st' = bookmarked st /\ theme st' = theme st /\
  isClient st' = isClient st /\
  match currentQuiz st, currentQuiz st' with
  | Some quiz, Some quiz' =>
      Quiz.questions quiz' = Quiz.questions quiz /\
      Quiz.answers quiz' = Quiz.answers quiz /\
      Quiz.startTime quiz' = Quiz.startTime quiz /\
      Quiz.mode quiz' = Quiz.mode quiz
  | None, None => True
  | _, _ => False
  end.

(** The typed questions of a repository, in order. *)
Definition typedQuestions (entries : list QuestionEntry) : list Question.t :=
  flat_map (fun e => match e with Typed q => [q] | Imported _ => [] end) entries.

(** [q.id !== id] for an entry [q] of the repository and an integer
    [id]: [None] is the [TypeError] of reading a property off [null]; a
    missing [id], or one that is not a number, differs from every
    number. *)
Definition id_differs (id : Z) (q : QuestionEntry) : option bool :=
  match q with
  | Typed question => Some (negb (Question.id question =? id))
  | Imported JNull => None
  | Imported (JObject members) =>
      match member_id members with
      | Some (JNumber lexeme) =>
          Some (negb (SFeqb (JSON_number_value lexeme) (number_of_Z id)))
      | _ => Some true
      end
  | Imported _ => Some true
  end.

(** The filter of [deleteQuestion] for an integer [id], where the rows
    do not matter. *)
Fixpoint filter_by_id (id : Z) (prev : list QuestionEntry)
  : option (list QuestionEntry) :=
  match prev with
  | [] => Some []
  | q :: rest =>
      match id_differs id q with
      | None => None
      | Some keep =>
          match filter_by_id id rest with
          | None => None
          | Some rest' => Some (if keep then q :: rest' else rest')
          end
      end
  end.

(** No entry of the repository would be removed by [deleteQuestion id],
    and none makes it throw. *)
Definition idUnused (id : Z) (entries : list QuestionEntry) : Prop :=
  Forall (fun e => id_differs id e = Some true) entries.

(** Importing the texts one after the other. *)
Definition importAll (jsonStrings : list string) (st : State) : State :=
  fold_left (fun s jsonString => handleJsonImport jsonString s) jsonStrings st.

(** A question used to instantiate statements. *)
Definition sampleQuestion : Question.t :=
  Question.mk 0 "Optics" "Lenses" hard "What does a converging lens do?"
    ["It focuses light"%string; "It scatters light"%string] 0 "Parallel rays meet at the focus."
    None.

(** An administrator at work on an admin page, to instantiate
    statements: the component has mounted, "admin@example.com" has logged
    in and selected the page in the sidebar. *)
Definition adminOn (p : Page) : State :=
  setPage p
    (handleLogin "admin@example.com" 1700000000000 (setIsClient true initialState)).

(** A repository with every kind of id, to instantiate statements: a
    typed question with id 1, then imported rows whose ids are the number
    1.0, the string "1", [true], missing, [null] and two separate empty
    arrays, and a row that is the number 5. *)
Definition mixedRows : list QuestionEntry :=
  [ Typed (withId 1 sampleQuestion);
    Imported (JObject [("id"%string, JNumber "1.0"%string)]);
    Imported (JObject [("id"%string, JString "1"%string)]);
    Imported (JObject [("id"%string, JBool true)]);
    Imported (JObject []);
    Imported (JObject [("id"%string, JNull)]);
    Imported (JObject [("id"%string, JArray [])]);
    Imported (JObject [("id"%string, JArray [])]);
    Imported (JNumber "5"%string) ].

Definition mixedState : State :=
  setQuestions (fun _ => mixedRows) (adminOn admin_questions).

(** The repository an outcome shows. *)
Definition questionsAfter (o : Outcome) : option (list QuestionEntry) :=
  match o with
  | rendered st => Some (questions st)
  | unmounted _ => None
  end.

(** [l] without the rows listed. *)
Definition dropRows (rows : list nat) (l : list QuestionEntry)
  : list QuestionEntry :=
  map snd
    (filter (fun p => negb (existsb (Nat.eqb (fst p)) rows))
       (combine (seq 0 (List.length l)) l)).

(** The string with the given bytes. *)
Definition bytes (l : list N) : string :=
  fold_right (fun n s => String (ascii_of_N n) s) EmptyString l.

(** [n] clicks on the theme button. *)
Fixpoint toggleThemes (n : nat) (b : Browser) : Browser :=
  match n with
  | O => b
  | S n' => toggleTheme (toggleThemes n' b)
  end.

(** Nobody with the ADMIN role is logged in and no admin page is
    selected. *)
Definition noAdminAccess (st : State) : Prop :=
  (forall u, user st = Some u -> User.role u = USER) /\
  page st <> admin_questions /\ page st <> admin_users /\
  page st <> admin_motivation.
(** * Properties *)

(** ** Arrays *)

Lemma slice_first (A : Type) (l : list A) (count : nat) :
  slice l 0 (Z.of_nat count) = firstn count l.
Proof.
  unfold slice.
  assert (H0 : (0 <? 0) = false) by reflexivity. rewrite H0.
  destruct (Z.ltb_spec (Z.of_nat count) 0) as [Hneg | _]; [lia |].
  rewrite (Z.min_l 0) by lia. rewrite Z.sub_0_r. simpl skipn.
  destruct (Nat.le_gt_cases count (List.length l)) as [Hle | Hgt].
  - rewrite Z.min_l by lia. now rewrite Nat2Z.id.
  - rewrite Z.min_r by lia. rewrite Nat2Z.id.
    rewrite firstn_all. symmetry. apply firstn_all2. lia.
Qed.

Lemma array_get_in_range (A : Type) (l : list A) (i : Z) :
  0 <= i < Z.of_nat (List.length l) -> exists x, array_get l i = Some x.
Proof.
  intros [Hlo Hhi]. unfold array_get.
  destruct (Z.ltb_spec i 0) as [Hneg | _]; [lia |].
  destruct (nth_error l (Z.to_nat i)) as [x |] eqn:Hnth; [now exists x |].
  apply nth_error_None in Hnth. lia.
Qed.

Lemma array_get_defined (A : Type) (l : list A) (i : Z) (x : A) :
  array_get l i = Some x -> 0 <= i < Z.of_nat (List.length l).
Proof.
  unfold array_get. destruct (Z.ltb_spec i 0) as [Hneg | Hpos]; [discriminate |].
  intros Hnth. split; [exact Hpos |].
  assert (Hlt : (Z.to_nat i < List.length l)%nat)
    by (apply nth_error_Some; congruence).
  lia.
Qed.

(** ** Strings *)

Lemma prefix_app (p r : string) : String.prefix p (p ++ r) = true.
Proof.
  induction p as [| c p IH]; simpl.
  - now destruct r.
  - destruct (ascii_dec c c) as [_ | Hne]; [exact IH | congruence].
Qed.

Lemma prefix_split (p s : string) :
  String.prefix p s = true -> exists r, s = (p ++ r)%string.
Proof.
  revert s. induction p as [| c p IH]; intros s H.
  - now exists s.
  - destruct s as [| d s]; simpl in H; [discriminate |].
    destruct (ascii_dec c d) as [-> | _]; [| discriminate].
    destruct (IH s H) as [r ->]. now exists r.
Qed.

Lemma includes_unfold (s sub : string) :
  includes s sub =
  if String.prefix sub s then true
  else match s with
       | EmptyString => false
       | String _ s' => includes s' sub
       end.
Proof. destruct s; reflexivity. Qed.

Lemma includes_spec (s sub : string) :
  includes s sub = true <-> exists pre post, s = (pre ++ sub ++ post)%string.
Proof.
  split.
  - induction s as [| c s IH]; rewrite includes_unfold;
      match goal with |- context [String.prefix sub ?t] =>
        destruct (String.prefix sub t) eqn:Hp end;
      try discriminate.
    + intros _. destruct (prefix_split _ _ Hp) as [r Hr].
      exists EmptyString, r. exact Hr.
    + intros _. destruct (prefix_split _ _ Hp) as [r Hr].
      exists EmptyString, r. exact Hr.
    + intros H. destruct (IH H) as (pre & post & ->).
      now exists (String c pre), post.
  - intros (pre & post & ->). induction pre as [| c pre IH].
    + rewrite includes_unfold. simpl append. now rewrite prefix_app.
    + change (String c pre ++ sub ++ post)%string
        with (String c (pre ++ sub ++ post)%string).
      rewrite includes_unfold, IH.
      now destruct (String.prefix sub (String c (pre ++ sub ++ post))).
Qed.

Lemma toLowerCase_app (s t : string) :
  toLowerCase (s ++ t) = (toLowerCase s ++ toLowerCase t)%string.
Proof. induction s as [| c s IH]; simpl; [reflexivity | now rewrite IH]. Qed.

Lemma toLowerCase_split (s a b : string) :
  toLowerCase s = (a ++ b)%string ->
  exists s1 s2, s = (s1 ++ s2)%string /\ toLowerCase s1 = a /\ toLowerCase s2 = b.
Proof.
  revert s. induction a as [| c a IH]; intros s H.
  - exists EmptyString, s. now repeat split.
  - destruct s as [| d s]; simpl in H; [discriminate |].
    injection H as Hc Hs. destruct (IH s Hs) as (s1 & s2 & -> & H1 & H2).
    exists (String d s1), s2. simpl. now rewrite Hc, H1.
Qed.

(** The pre-images of a lower-case letter under [toLowerCase_char]. *)
Lemma toLowerCase_char_letter (c low : ascii) :
  (97 <= N_of_ascii low <= 122)%N ->
  toLowerCase_char c = low <->
  c = low \/ N_of_ascii c = (N_of_ascii low - 32)%N.
Proof.
  intros Hlow. unfold toLowerCase_char.
  assert (Hc : (N_of_ascii c < 256)%N) by apply N_ascii_bounded.
  destruct ((65 <=? N_of_ascii c) && (N_of_ascii c <=? 90))%N eqn:Hup.
  - apply andb_true_iff in Hup. destruct Hup as [H1 H2].
    apply N.leb_le in H1, H2. split.
    + intros <-. right. rewrite N_ascii_embedding by lia. lia.
    + intros [-> | Hn]; [lia |].
      rewrite <- (ascii_N_embedding low). f_equal. lia.
  - split.
    + now left.
    + intros [-> | Hn]; [reflexivity |].
      apply andb_false_iff in Hup. destruct Hup as [H | H];
        apply N.leb_gt in H; lia.
Qed.

Lemma toLowerCase_char_cases (c low up : ascii) :
  (97 <= N_of_ascii low <= 122)%N ->
  N_of_ascii up = (N_of_ascii low - 32)%N ->
  toLowerCase_char c = low <-> c = low \/ c = up.
Proof.
  intros Hlow Hup. rewrite (toLowerCase_char_letter c low Hlow). split.
  - intros [-> | Hn]; [now left | right].
    rewrite <- (ascii_N_embedding c), <- (ascii_N_embedding up). f_equal. lia.
  - intros [-> | ->]; [now left | now right].
Qed.

Lemma toLowerCase_admin (w : string) :
  toLowerCase w = "admin"%string <-> admin_any_case w.
Proof.
  split.
  - intros H.
    destruct w as [| c1 [| c2 [| c3 [| c4 [| c5 [| c6 w]]]]]]; try discriminate H.
    simpl in H. injection H as H1 H2 H3 H4 H5.
    exists c1, c2, c3, c4, c5. split; [reflexivity |].
    apply (toLowerCase_char_cases _ "a" "A")%char in H1; [| simpl; lia | reflexivity].
    apply (toLowerCase_char_cases _ "d" "D")%char in H2; [| simpl; lia | reflexivity].
    apply (toLowerCase_char_cases _ "m" "M")%char in H3; [| simpl; lia | reflexivity].
    apply (toLowerCase_char_cases _ "i" "I")%char in H4; [| simpl; lia | reflexivity].
    apply (toLowerCase_char_cases _ "n" "N")%char in H5; [| simpl; lia | reflexivity].
    now repeat split.
  - intros (c1 & c2 & c3 & c4 & c5 & -> & H1 & H2 & H3 & H4 & H5).
    destruct H1 as [-> | ->], H2 as [-> | ->], H3 as [-> | ->],
      H4 as [-> | ->], H5 as [-> | ->]; reflexivity.
Qed.

Lemma includes_admin (email : string) :
  includes (toLowerCase email) "admin" = true <-> contains_admin email.
Proof.
  rewrite includes_spec. split.
  - intros (pre & post & H).
    apply toLowerCase_split in H. destruct H as (s1 & s2 & -> & _ & H).
    apply toLowerCase_split in H. destruct H as (w & s3 & -> & Hw & _).
    exists s1, w, s3. split; [reflexivity | now apply toLowerCase_admin].
  - intros (pre & w & post & -> & Hw).
    exists (toLowerCase pre), (toLowerCase post).
    rewrite !toLowerCase_app. apply toLowerCase_admin in Hw. now rewrite Hw.
Qed.

(** ** Starting a session *)

(** C1. For every pool, requested count and mode, [startQuiz] stores a
    session whose questions are the first [count] entries of the pool in
    their original order, whose current index is 0 and whose mode is the
    requested one, and shows the quiz page; a pool of three questions
    with count 3 gives exactly these three questions in order, as does the
    built-in pool of the application. *)
Theorem C1_startQuiz_first_count :
  (forall (pool : list Question.t) (count : nat) (mode : Mode) (now : Z)
          (st : State),
      let st' := startQuiz pool (Config.mk (Z.of_nat count) mode) now st in
      currentQuiz st' = Some (Quiz.mk (firstn count pool) [] 0 now mode) /\
      sessionIndex st' = 0 /\
      page st' = taking_quiz /\
      currentQuiz (startSession pool (Config.mk (Z.of_nat count) mode) now st)
      = currentQuiz st')
  /\ (forall (q1 q2 q3 : Question.t) (mode : Mode) (now : Z) (st : State),
         currentQuiz (startQuiz [q1; q2; q3] (Config.mk 3 mode) now st)
         = Some (Quiz.mk [q1; q2; q3] [] 0 now mode))
  /\ (forall (now : Z) (st : State),
         currentQuiz (startQuiz initialQuestions (Config.mk 3 practice) now st)
         = Some (Quiz.mk initialQuestions [] 0 now practice)).
Proof.
  split; [| split].
  - intros pool count mode now st st'. subst st'.
    unfold startSession, startQuiz, sessionIndex. cbn.
    rewrite slice_first. repeat split; reflexivity.
  - intros q1 q2 q3 mode now st. reflexivity.
  - intros now st. reflexivity.
Qed.

(** A negative [numQuestions] is not a count: [slice] then measures from
    the end of the pool. *)
Example startQuiz_negative_numQuestions (now : Z) (st : State) :
  currentQuiz (startQuiz initialQuestions (Config.mk (-1) practice) now st)
  = Some (Quiz.mk (firstn 2 initialQuestions) [] 0 now practice).
Proof. reflexivity. Qed.

(** ** Logging in *)

(** C8. The user created by [handleLogin] has role ADMIN exactly when the
    email contains "admin" in any mix of upper and lower case, and role
    USER otherwise. *)
Theorem C8_login_role (email : string) (now : Z) (st : State) :
  exists u : User.t,
    user (handleLogin email now st) = Some u /\
    (User.role u = ADMIN <-> contains_admin email) /\
    (User.role u = USER <-> ~ contains_admin email).
Proof.
  unfold handleLogin. cbn.
  destruct (includes (toLowerCase email) "admin") eqn:Hinc;
    eexists; (split; [reflexivity |]); cbn.
  - apply includes_admin in Hinc. split; split; try tauto; try discriminate.
  - assert (Hno : ~ contains_admin email).
    { intros Hc. apply includes_admin in Hc. congruence. }
    split; split; try tauto; try discriminate.
Qed.

(** C10. Whatever the email, the user created by [handleLogin] has an
    ACTIVE subscription ending on 2024-12-31, 50 attempted and 35 correct
    answers, a streak of 5 and an empty history; only the name and the role
    vary with the email, and correct answers never exceed attempted ones. *)
Theorem C10_login_user_constants (email : string) (now : Z) (st : State) :
  exists u : User.t,
    user (handleLogin email now st) = Some u /\
    User.subscriptionStatus u = ACTIVE /\
    User.subscriptionEndDate u = Some "2024-12-31"%string /\
    Stats.totalAttempted (User.stats u) = 50 /\
    Stats.totalCorrect (User.stats u) = 35 /\
    Stats.currentStreak (User.stats u) = 5 /\
    User.history u = [] /\
    Stats.totalCorrect (User.stats u) <= Stats.totalAttempted (User.stats u) /\
    User.email u = email /\
    User.id u = now /\
    (User.role u = ADMIN /\ User.name u = "Admin User"%string \/
     User.role u = USER /\ User.name u = "Demo Student"%string).
Proof.
  unfold handleLogin. cbn.
  destruct (includes (toLowerCase email) "admin");
    eexists; (split; [reflexivity |]); cbn;
    repeat split; try reflexivity; try lia; auto.
Qed.

(** ** Rendering *)

(** C9. When the page is [taking-quiz], a user is logged in and no session
    is stored, [renderPage] renders nothing, moves the host to the
    quiz-setup page, performs no effect (no error is surfaced) and leaves
    every other piece of state as it was; the next rendering shows the
    setup view. *)
Theorem C9_missing_session_redirects (st : State) (u : User.t) :
  user st = Some u ->
  page st = taking_quiz ->
  currentQuiz st = None ->
  let st' := fst (renderPage st) in
  snd (renderPage st) = null /\
  page st' = quiz_setup /\
  same_but_page st st' /\
  renderPage st' = (st', QuizSetupView).
Proof.
  intros Hu Hp Hq. unfold renderPage. rewrite Hu, Hp, Hq. cbn.
  rewrite Hu. repeat split; reflexivity.
Qed.

Lemma C9_missing_session_redirects_witness :
  let st := setPage taking_quiz demoState in
  let st' := fst (renderPage st) in
  snd (renderPage st) = null /\
  page st' = quiz_setup /\
  same_but_page st st' /\
  renderPage st' = (st', QuizSetupView).
Proof.
  intros st.
  refine (C9_missing_session_redirects st
            (User.mk 1700000000000 "Demo Student" "student@example.com" USER
               ACTIVE (Some "2024-12-31"%string) (Stats.mk 50 35 5) []) _ _ _);
    reflexivity.
Defined.

(** ** Importing questions *)

(** C3. [handleJsonImport] on any string: when the text parses to an
    array, its items are appended to the repository in order and a success
    notification reports how many there were; in every other case (the
    text does not parse, or parses to something that is not an array) an
    error notification is shown and the repository is left as it was.
    Nothing but the repository and the notifications changes.  Importing
    the text [[]] adds nothing and reports success with count 0. *)
Theorem C3_json_import :
  (forall (jsonString : string) (st : State),
      let st' := handleJsonImport jsonString st in
      match JSON_parse jsonString with
      | Some (JArray items) =>
          questions st' = questions st ++ map Imported items /\
          effects st' = effects st ++
            [toast_success
               (decimal (List.length items) ++ " questions imported successfully!")]
      | _ =>
          questions st' = questions st /\
          effects st' = effects st ++
            [toast_error "Invalid JSON format. Please check the file."]
      end /\
      page st' = page st /\ user st' = user st /\
      currentQuiz st' = currentQuiz st /\ allUsers st' = allUsers st)
  /\ (forall st : State,
         let st' := handleJsonImport "[]" st in
         questions st' = questions st /\
         effects st' = effects st ++
           [toast_success "0 questions imported successfully!"]).
Proof.
  split.
  - intros jsonString st st'. subst st'. unfold handleJsonImport.
    destruct (JSON_parse jsonString) as [[| | | | items |] |];
      cbn; repeat split; reflexivity.
  - intros st st'. subst st'. unfold handleJsonImport.
    assert (Hparse : JSON_parse "[]" = Some (JArray [])) by reflexivity.
    rewrite Hparse. cbn. split; [apply app_nil_r | reflexivity].
Qed.

Example import_of_an_object_is_rejected (st : State) :
  handleJsonImport "{}" st
  = perform (toast_error "Invalid JSON format. Please check the file.") st.
Proof. reflexivity. Qed.

Example import_of_malformed_text_is_rejected (st : State) :
  handleJsonImport "[1, 2" st
  = perform (toast_error "Invalid JSON format. Please check the file.") st.
Proof. reflexivity. Qed.

Example import_of_two_items (st : State) :
  effects (handleJsonImport "[{}, 7]" st)
  = effects st ++ [toast_success "2 questions imported successfully!"] /\
  questions (handleJsonImport "[{}, 7]" st)
  = questions st ++ [Imported (JObject []); Imported (JNumber "7")].
Proof. split; reflexivity. Qed.

(** ** The quiz view *)

Lemma completions_perform (e : Effect) (st : State) :
  completions (perform e st) =
  (completions st + match e with confetti => 1 | _ => 0 end)%nat.
Proof.
  unfold completions, perform. cbn [effects].
  rewrite filter_app, length_app. now destruct e.
Qed.

Lemma handleAnswer_feedback (index : Z) (st : State) :
  showFeedback st = true -> handleAnswer index st = Some st.
Proof. intros H. unfold handleAnswer. now rewrite H. Qed.

Lemma handleAnswer_awaiting (index : Z) (st : State) (q : Question.t) :
  showFeedback st = false ->
  currentQuestion st = Some q ->
  handleAnswer index st =
  Some (perform (if index =? Question.correctAnswerIndex q
                 then toast_success "Correct!" else toast_error "Incorrect!")
          (setShowFeedback true (setSelectedOption (Some index) st))).
Proof.
  intros Hf Hq. unfold handleAnswer. rewrite Hf, Hq.
  now destruct (index =? Question.correctAnswerIndex q).
Qed.

Lemma onScreen_true (st : State) :
  onScreen st = true <->
  user st <> None /\ page st = taking_quiz /\ currentQuestion st <> None.
Proof.
  unfold onScreen. split.
  - destruct (user st), (page st), (currentQuestion st); try discriminate.
    intros _. repeat split; discriminate.
  - intros (Hu & Hp & Hq). rewrite Hp.
    destruct (user st); [| congruence].
    destruct (currentQuestion st); [reflexivity | congruence].
Qed.

Lemma effects_grow_neq (st : State) (e : Effect) : effects st ++ [e] <> effects st.
Proof.
  intros H. apply (f_equal (@List.length Effect)) in H.
  rewrite length_app in H. simpl in H. lia.
Qed.

(** C5. While feedback is shown, selecting an option (any option, any
    number of times) changes nothing: [handleAnswer] returns the state it
    was given, so the recorded selection, the feedback flag, the rest of
    the state and the notifications already emitted all stay as they are. *)
Theorem C5_reselect_is_noop (st : State) (index : Z) :
  showFeedback st = true ->
  handleAnswer index st = Some st /\
  dispatch (clickOption index) st = Some st /\
  forall indices : list Z, run (map clickOption indices) st = Some st.
Proof.
  intros Hf.
  assert (Hd : forall i, dispatch (clickOption i) st = Some st).
  { intros i. unfold dispatch. destruct (onScreen st); [| reflexivity].
    now apply handleAnswer_feedback. }
  split; [now apply handleAnswer_feedback | split; [apply Hd |]].
  intros indices. induction indices as [| i indices IH]; [reflexivity |].
  cbn [map run]. now rewrite Hd.
Qed.

Lemma C5_reselect_is_noop_witness :
  let st := setShowFeedback true (setSelectedOption (Some 1)
              (startSession initialQuestions (Config.mk 3 practice) 0 demoState)) in
  showFeedback st = true /\
  handleAnswer 2 st = Some st /\
  dispatch (clickOption 2) st = Some st /\
  forall indices : list Z, run (map clickOption indices) st = Some st.
Proof.
  intros st. split; [reflexivity |].
  apply (C5_reselect_is_noop st 2). reflexivity.
Defined.

(** A second selection on the same question adds nothing to the first. *)
Lemma handleAnswer_twice (i j : Z) (st : State) :
  match handleAnswer i st with
  | Some st' => handleAnswer j st' = Some st'
  | None => True
  end.
Proof.
  unfold handleAnswer at 1. destruct (showFeedback st) eqn:Hf.
  - now apply handleAnswer_feedback.
  - destruct (currentQuestion st) as [q |]; [| exact I].
    destruct (i =? Question.correctAnswerIndex q);
      now apply handleAnswer_feedback.
Qed.



(** ** Sessions *)

Lemma session_inv_question (qs : list Question.t) (c0 : nat) (st : State) :
  session_inv qs c0 st -> exists q, currentQuestion st = Some q.
Proof.
  intros (_ & (quiz & Hq & Hqs & Hidx) & _).
  unfold currentQuestion. rewrite Hq, Hqs.
  apply array_get_in_range. lia.
Qed.

Lemma session_inv_onScreen (qs : list Question.t) (c0 : nat) (st : State) :
  session_inv qs c0 st -> page st = taking_quiz -> onScreen st = true.
Proof.
  intros Hinv Hp. apply onScreen_true.
  destruct (session_inv_question _ _ _ Hinv) as [q Hq].
  destruct Hinv as (Hu & _ & _). repeat split; congruence.
Qed.

Lemma dispatch_off_screen (ev : Event) (st : State) :
  page st <> taking_quiz -> dispatch ev st = Some st.
Proof.
  intros Hp. unfold dispatch.
  destruct (onScreen st) eqn:Hon; [| reflexivity].
  apply onScreen_true in Hon. tauto.
Qed.

(** One click from a legal position: the click is handled, the position
    stays legal, the index does not decrease, and the completion callback
    fires only for [Next] pressed on the feedback of the last question. *)
Lemma session_step (qs : list Question.t) (c0 : nat) (st : State) (ev : Event) :
  session_inv qs c0 st ->
  exists st',
    dispatch ev st = Some st' /\ session_inv qs c0 st' /\
    sessionIndex st <= sessionIndex st' /\
    (completions st' = completions st /\ page st' = page st \/
     completions st' = S (completions st) /\
     page st = taking_quiz /\ page st' = dashboard /\
     ev = clickNext /\ showFeedback st = true /\
     sessionIndex st = Z.of_nat (List.length qs) - 1).
Proof.
  intros Hinv.
  destruct (session_inv_question _ _ _ Hinv) as [q Hcq].
  pose proof Hinv as (Hu & (quiz & Hq & Hqs & Hidx) & [[Hp Hc] | (Hp & Hc & Hi)]).
  - pose proof (session_inv_onScreen _ _ _ Hinv Hp) as Hon.
    unfold dispatch. rewrite Hon. destruct ev as [index |].
    + destruct (showFeedback st) eqn:Hf.
      * rewrite (handleAnswer_feedback _ _ Hf). exists st.
        split; [reflexivity | split; [exact Hinv | split; [lia | now left]]].
      * rewrite (handleAnswer_awaiting _ _ q Hf Hcq). eexists.
        split; [reflexivity |].
        assert (Hcompl : forall e, e <> confetti ->
                  completions (perform e (setShowFeedback true
                     (setSelectedOption (Some index) st))) = completions st).
        { intros e He. rewrite completions_perform.
          destruct e; try congruence; unfold completions; cbn; lia. }
        split; [| split].
        -- split; [exact Hu | split].
           ++ exists quiz. now repeat split.
           ++ left. split; [exact Hp |]. rewrite Hcompl; [exact Hc |].
              now destruct (index =? Question.correctAnswerIndex q).
        -- unfold sessionIndex. cbn. lia.
        -- left. split; [| reflexivity]. apply Hcompl.
           now destruct (index =? Question.correctAnswerIndex q).
    + destruct (showFeedback st) eqn:Hf.
      * unfold handleNext. rewrite Hq, Hqs.
        destruct (Z.ltb_spec (Quiz.currentIndex quiz)
                    (Z.of_nat (List.length qs) - 1)) as [Hlt | Hge].
        -- eexists. split; [reflexivity |]. split; [| split].
           ++ split; [exact Hu | split].
              ** eexists. split; [reflexivity |]. cbn. split; [exact Hqs | lia].
              ** left. split; [exact Hp | exact Hc].
           ++ unfold sessionIndex. rewrite Hq. cbn. lia.
           ++ left. split; reflexivity.
        -- assert (Hlast : Quiz.currentIndex quiz = Z.of_nat (List.length qs) - 1)
             by lia.
           assert (Hcompl : completions (setPage dashboard (fireConfetti st))
                            = S (completions st)).
           { change (completions (setPage dashboard (fireConfetti st)))
               with (completions (perform confetti st)).
             rewrite completions_perform. lia. }
           eexists. split; [reflexivity |]. split; [| split].
           ++ split; [exact Hu | split].
              ** exists quiz. now repeat split.
              ** right. split; [reflexivity |]. split; [congruence |].
                 unfold sessionIndex. cbn. now rewrite Hq.
           ++ unfold sessionIndex. cbn. lia.
           ++ right. repeat split; try assumption; try reflexivity.
              unfold sessionIndex. now rewrite Hq.
      * exists st.
        split; [reflexivity | split; [exact Hinv | split; [lia | now left]]].
  - rewrite dispatch_off_screen by congruence. exists st.
    split; [reflexivity | split; [exact Hinv | split; [lia | now left]]].
Qed.

Lemma session_run (qs : list Question.t) (c0 : nat) (evs : list Event) :
  forall st : State,
    session_inv qs c0 st ->
    exists st',
      run evs st = Some st' /\ session_inv qs c0 st' /\
      sessionIndex st <= sessionIndex st'.
Proof.
  induction evs as [| ev evs IH]; intros st Hinv.
  - exists st. split; [reflexivity | split; [exact Hinv | lia]].
  - destruct (session_step qs c0 st ev Hinv) as (st1 & Hd & Hinv1 & Hle & _).
    destruct (IH st1 Hinv1) as (st' & Hr & Hinv' & Hle').
    exists st'. cbn [run]. rewrite Hd.
    split; [exact Hr | split; [exact Hinv' | lia]].
Qed.

Lemma session_start (pool : list Question.t) (config : Config.t) (now : Z)
  (st0 : State) :
  user st0 <> None ->
  slice pool 0 (Config.numQuestions config) <> [] ->
  session_inv (slice pool 0 (Config.numQuestions config)) (completions st0)
    (startSession pool config now st0).
Proof.
  intros Hu Hne. unfold session_inv. split; [exact Hu | split].
  - eexists. split; [reflexivity |]. cbn. split; [reflexivity |].
    destruct (slice pool 0 (Config.numQuestions config)); [congruence |].
    cbn [List.length]. lia.
  - left. split; reflexivity.
Qed.

Lemma select_shows_feedback (qs : list Question.t) (c0 : nat) (st : State)
  (index : Z) :
  session_inv qs c0 st ->
  page st = taking_quiz ->
  exists st1,
    dispatch (clickOption index) st = Some st1 /\ session_inv qs c0 st1 /\
    showFeedback st1 = true /\ page st1 = taking_quiz /\
    sessionIndex st1 = sessionIndex st.
Proof.
  intros Hinv Hp.
  destruct (session_step qs c0 st (clickOption index) Hinv)
    as (st1 & Hd & Hinv1 & _ & Hc).
  exists st1. split; [exact Hd | split; [exact Hinv1 |]].
  destruct Hc as [[_ Hp1] | (_ & _ & _ & Habs & _)]; [| discriminate Habs].
  unfold dispatch in Hd. rewrite (session_inv_onScreen _ _ _ Hinv Hp) in Hd.
  destruct (showFeedback st) eqn:Hf.
  - rewrite (handleAnswer_feedback _ _ Hf) in Hd. injection Hd as <-.
    now repeat split.
  - destruct (session_inv_question _ _ _ Hinv) as [q Hq].
    rewrite (handleAnswer_awaiting _ _ q Hf Hq) in Hd. injection Hd as <-.
    repeat split; congruence.
Qed.

Lemma next_on_feedback (qs : list Question.t) (c0 : nat) (st : State) :
  session_inv qs c0 st ->
  page st = taking_quiz ->
  showFeedback st = true ->
  exists st2,
    dispatch clickNext st = Some st2 /\ session_inv qs c0 st2 /\
    (sessionIndex st < Z.of_nat (List.length qs) - 1 /\
     page st2 = taking_quiz /\ sessionIndex st2 = sessionIndex st + 1 /\
     showFeedback st2 = false /\ selectedOption st2 = None \/
     sessionIndex st = Z.of_nat (List.length qs) - 1 /\
     page st2 = dashboard /\ completions st2 = S c0).
Proof.
  intros Hinv Hp Hf.
  destruct (session_step qs c0 st clickNext Hinv) as (st2 & Hd & Hinv2 & _ & _).
  exists st2. split; [exact Hd | split; [exact Hinv2 |]].
  pose proof (session_inv_onScreen _ _ _ Hinv Hp) as Hon.
  destruct Hinv as (_ & (quiz & Hq & Hqs & Hidx) & [[_ Hc] | (Hp' & _)]);
    [| congruence].
  unfold dispatch in Hd. rewrite Hon in Hd.
  rewrite Hf in Hd. unfold handleNext in Hd. rewrite Hq, Hqs in Hd.
  destruct (Z.ltb_spec (Quiz.currentIndex quiz) (Z.of_nat (List.length qs) - 1))
    as [Hlt | Hge]; injection Hd as <-; unfold sessionIndex; cbn; rewrite ?Hq; cbn.
  - left. repeat split; try reflexivity; try exact Hp; lia.
  - right. split; [lia | split; [reflexivity |]].
    change (completions (perform confetti st) = S c0).
    rewrite completions_perform. lia.
Qed.

(** From any legal position that is not completed, answering and
    advancing through the remaining questions completes the session. *)
Lemma session_finish (qs : list Question.t) (c0 : nat) (k : nat) :
  forall st : State,
    session_inv qs c0 st ->
    page st = taking_quiz ->
    Z.of_nat (List.length qs) - 1 - sessionIndex st = Z.of_nat k ->
    exists st',
      run (answerAndAdvance (S k)) st = Some st' /\
      page st' = dashboard /\ completions st' = S c0.
Proof.
  induction k as [| k IH]; intros st Hinv Hp Hk;
    destruct (select_shows_feedback qs c0 st 0 Hinv Hp)
      as (st1 & Hd1 & Hinv1 & Hf1 & Hp1 & Hi1);
    destruct (next_on_feedback qs c0 st1 Hinv1 Hp1 Hf1)
      as (st2 & Hd2 & Hinv2 & Hcases);
    cbn [answerAndAdvance run]; rewrite Hd1, Hd2.
  - destruct Hcases as [(Hlt & _) | (_ & Hp2 & Hc2)]; [lia |].
    exists st2. now repeat split.
  - destruct Hcases as [(_ & Hp2 & Hi2 & _) | (Hlast & _)]; [| lia].
    apply IH; [exact Hinv2 | exact Hp2 | lia].
Qed.

(** ** Sessions on the screen, the leaving view included *)

(** The handlers of a view rendered with the stored quiz are those of
    the view of the page. *)
Lemma handleAnswerWith_current (quiz : Quiz.t) (index : Z) (st : State) :
  currentQuiz st = Some quiz ->
  handleAnswerWith quiz index st = handleAnswer index st.
Proof.
  intros Hq. unfold handleAnswerWith, handleAnswer, currentQuestion.
  now rewrite Hq.
Qed.

Lemma handleNextWith_current (quiz : Quiz.t) (st : State) :
  currentQuiz st = Some quiz ->
  Some (handleNextWith quiz st) = handleNext st.
Proof.
  intros Hq. unfold handleNextWith, handleNext. rewrite Hq.
  now destruct (_ <? _).
Qed.

(** On a view that is leaving with its feedback on screen, as it is
    after the completing [Next], a click on an option changes nothing
    and a click on [Next] runs [handleNext] once more. *)
Lemma deliver_leaving (s : QuizScreen) (quiz : Quiz.t) :
  onScreen (hostState s) = false ->
  exitingQuiz s = Some quiz ->
  showFeedback (hostState s) = true ->
  (forall index : Z, deliver (viewClick (clickOption index)) s = Some s) /\
  deliver (viewClick clickNext) s
  = Some (mkQuizScreen (handleNextWith quiz (hostState s)) (Some quiz)) /\
  deliver exitEnds s = Some (mkQuizScreen (hostState s) None).
Proof.
  intros Hoff Hex Hf. destruct s as [st ex]. cbn [hostState exitingQuiz] in *.
  subst ex. unfold deliver. cbn [hostState exitingQuiz]. rewrite Hoff.
  split; [| split; [now rewrite Hf | reflexivity]].
  intros index. unfold handleAnswerWith. now rewrite Hf.
Qed.

Lemma deliver_shown (ev : Event) (s : QuizScreen) (st' : State) :
  onScreen (hostState s) = true ->
  dispatch ev (hostState s) = Some st' ->
  deliver (viewClick ev) s
  = Some (mkQuizScreen st'
            (match page st' with
             | taking_quiz => None
             | _ => currentQuiz (hostState s)
             end)).
Proof. intros Hon Hd. unfold deliver. now rewrite Hon, Hd. Qed.

Lemma screen_inv_session (qs : list Question.t) (c0 : nat) (s : QuizScreen) :
  screen_inv qs c0 s -> page (hostState s) = taking_quiz ->
  session_inv qs c0 (hostState s) /\ exitingQuiz s = None.
Proof.
  intros (Hu & Hquiz & [(Hp & Hc & Hex) | (Hp & _)]) Hpage; [| congruence].
  split; [| exact Hex]. split; [exact Hu | split; [exact Hquiz |]].
  left. now split.
Qed.

Lemma screen_inv_length (qs : list Question.t) (c0 : nat) (s : QuizScreen) :
  screen_inv qs c0 s ->
  sessionLength (hostState s) = Z.of_nat (List.length qs) /\
  0 <= sessionIndex (hostState s) <= Z.of_nat (List.length qs) - 1.
Proof.
  intros (_ & (quiz & Hq & Hqs & Hidx) & _).
  unfold sessionLength, sessionIndex. rewrite Hq, Hqs. now split.
Qed.

(** One event from a legal position: it is handled, the position stays
    legal, the index does not decrease, and the completion callback
    fires only for [Next] pressed on the feedback of the last question;
    unless the event is a click on a leaving view, the callback has
    afterwards fired at most once. *)
Lemma screen_step (qs : list Question.t) (c0 : nat) (s : QuizScreen)
  (e : ScreenEvent) :
  screen_inv qs c0 s ->
  exists s',
    deliver e s = Some s' /\ screen_inv qs c0 s' /\
    sessionIndex (hostState s) <= sessionIndex (hostState s') /\
    (completions (hostState s') = completions (hostState s) /\
     page (hostState s') = page (hostState s) \/
     completions (hostState s') = S (completions (hostState s)) /\
     page (hostState s') = dashboard /\
     e = viewClick clickNext /\ showFeedback (hostState s) = true /\
     sessionIndex (hostState s) = Z.of_nat (List.length qs) - 1) /\
    (onScreen (hostState s) = true \/ exitingQuiz s = None \/ e = exitEnds ->
     (completions (hostState s) <= S c0)%nat ->
     (completions (hostState s') <= S c0)%nat).
Proof.
  intros Hinv. destruct s as [st ex].
  pose proof Hinv as (Hu & (quiz & Hq & Hqs & Hidx) & Hphase).
  cbn [hostState exitingQuiz] in *.
  destruct e as [ev |].
  - destruct Hphase as [(Hp & Hc & Hex) | (Hp & Hc & Hi & Hex)].
    + (* the view is shown *)
      destruct (screen_inv_session _ _ _ Hinv Hp) as [Hsess _].
      cbn [hostState] in Hsess.
      pose proof (session_inv_onScreen _ _ _ Hsess Hp) as Hon.
      destruct (session_step qs c0 st ev Hsess)
        as (st' & Hd & Hsess' & Hle & Hcases).
      rewrite (deliver_shown ev (mkQuizScreen st ex) st' Hon Hd).
      eexists. split; [reflexivity |]. unfold screen_inv; cbn [hostState exitingQuiz].
      destruct Hsess' as (Hu' & Hquiz' & Hphase').
      split; [| split; [exact Hle | split]].
      * split; [exact Hu' | split; [exact Hquiz' |]].
        destruct Hphase' as [(Hp' & Hc') | (Hp' & Hc' & Hi')].
        -- left. rewrite Hp'. now repeat split.
        -- right. split; [exact Hp' |]. split; [lia |]. split; [exact Hi' |].
           rewrite Hp'. right.
           destruct Hcases as [(_ & Hsame) | (_ & _ & _ & _ & _ & Hlast)];
             [congruence |].
           exists quiz. split; [exact Hq |]. split; [exact Hqs |].
           unfold sessionIndex in Hlast. now rewrite Hq in Hlast.
      * destruct Hcases as [Hsame | (Hc' & _ & Hp' & Hev & Hf & Hlast)];
          [now left |].
        right. subst ev. now repeat split.
      * intros _ _.
        destruct Hphase' as [(_ & Hc') | (_ & Hc' & _)]; lia.
    + (* the session is completed *)
      assert (Hoff : onScreen st = false).
      { destruct (onScreen st) eqn:Hon; [| reflexivity].
        apply onScreen_true in Hon. destruct Hon as (_ & Hp' & _). congruence. }
      unfold deliver. unfold screen_inv; cbn [hostState exitingQuiz]. rewrite Hoff.
      destruct Hex as [-> | (quiz' & -> & Hqs' & Hidx')].
      * exists (mkQuizScreen st None). split; [reflexivity |].
        cbn [hostState exitingQuiz].
        split; [exact Hinv |]. split; [lia |]. split; [now left |]. tauto.
      * assert (Hlen : (0 < List.length qs)%nat) by lia.
        destruct ev as [index |].
        -- unfold handleAnswerWith. destruct (showFeedback st) eqn:Hf.
           ++ eexists. split; [reflexivity |]. unfold screen_inv; cbn [hostState exitingQuiz].
              split; [| split; [lia | split; [now left |]]].
              ** split; [exact Hu | split; [now exists quiz |]].
                 right. split; [exact Hp |]. split; [exact Hc |].
                 split; [exact Hi |]. right. now exists quiz'.
              ** intros [Hon | [Hnone | Hev]]; congruence.
           ++ rewrite Hqs', Hidx'.
              destruct (array_get_in_range _ qs (Z.of_nat (List.length qs) - 1))
                as [q Hget]; [lia |].
              rewrite Hget.
              assert (Hcompl : forall e, e <> confetti ->
                        completions (perform e (setShowFeedback true
                           (setSelectedOption (Some index) st))) = completions st).
              { intros e He. rewrite completions_perform.
                destruct e; try congruence; unfold completions; cbn; lia. }
              set (t := if index =? Question.correctAnswerIndex q
                        then toast_success "Correct!" else toast_error "Incorrect!").
              assert (Ht : t <> confetti)
                by (unfold t; now destruct (index =? Question.correctAnswerIndex q)).
              exists (mkQuizScreen
                        (perform t (setShowFeedback true
                                      (setSelectedOption (Some index) st)))
                        (Some quiz')).
              split; [unfold t; now destruct (index =? Question.correctAnswerIndex q) |].
              unfold screen_inv; cbn [hostState exitingQuiz].
              split; [| split; [unfold sessionIndex; cbn; lia | split]].
              ** split; [exact Hu | split; [now exists quiz |]].
                 right. split; [exact Hp |]. rewrite (Hcompl t Ht).
                 split; [exact Hc |]. split; [exact Hi |]. right. now exists quiz'.
              ** left. split; [apply (Hcompl t Ht) | reflexivity].
              ** intros [Hon | [Hnone | Hev]]; congruence.
        -- destruct (showFeedback st) eqn:Hf.
           ++ unfold handleNextWith. rewrite Hqs', Hidx'.
              rewrite (proj2 (Z.ltb_ge _ _)) by lia.
              assert (Hcompl : completions (setPage dashboard (fireConfetti st))
                               = S (completions st)).
              { change (completions (setPage dashboard (fireConfetti st)))
                  with (completions (perform confetti st)).
                rewrite completions_perform. lia. }
              eexists. split; [reflexivity |]. unfold screen_inv; cbn [hostState exitingQuiz].
              split; [| split; [unfold sessionIndex; cbn; lia | split]].
              ** split; [exact Hu | split; [now exists quiz |]].
                 right. split; [reflexivity |]. rewrite Hcompl.
                 split; [lia |]. split; [exact Hi |]. right. now exists quiz'.
              ** right. rewrite Hcompl. now repeat split.
              ** intros [Hon | [Hnone | Hev]]; congruence.
           ++ eexists. split; [reflexivity |]. cbn [hostState exitingQuiz].
              split; [exact Hinv |]. split; [lia | split; [now left |]].
              intros [Hon | [Hnone | Hev]]; congruence.
  - (* the exit animation ends *)
    exists (mkQuizScreen st None). split; [reflexivity |].
    unfold screen_inv; cbn [hostState exitingQuiz].
    split; [| split; [lia | split; [now left | tauto]]].
    split; [exact Hu | split; [now exists quiz |]].
    destruct Hphase as [(Hp & Hc & _) | (Hp & Hc & Hi & _)];
      [left | right]; repeat split; try assumption. now left.
Qed.

Lemma screen_run (qs : list Question.t) (c0 : nat) (evs : list ScreenEvent) :
  forall s : QuizScreen,
    screen_inv qs c0 s ->
    exists s',
      runScreen evs s = Some s' /\ screen_inv qs c0 s' /\
      sessionIndex (hostState s) <= sessionIndex (hostState s') /\
      (exitUndisturbed evs s = true ->
       (completions (hostState s) <= S c0)%nat ->
       (completions (hostState s') <= S c0)%nat).
Proof.
  induction evs as [| e evs IH]; intros s Hinv.
  - exists s. split; [reflexivity | split; [exact Hinv | split; [lia | tauto]]].
  - destruct (screen_step qs c0 s e Hinv) as (s1 & Hd & Hinv1 & Hle & _ & Hquiet).
    destruct (IH s1 Hinv1) as (s' & Hr & Hinv' & Hle' & Hquiet').
    exists s'. cbn [runScreen]. rewrite Hd.
    split; [exact Hr | split; [exact Hinv' | split; [lia |]]].
    intros Hun Hc. cbn [exitUndisturbed] in Hun. rewrite Hd in Hun.
    apply Hquiet'.
    + destruct e, (onScreen (hostState s)), (exitingQuiz s);
        try discriminate Hun; exact Hun.
    + apply Hquiet; [| exact Hc].
      destruct e, (onScreen (hostState s)), (exitingQuiz s);
        try discriminate Hun; tauto.
Qed.

Lemma screen_start (pool : list Question.t) (config : Config.t) (now : Z)
  (st0 : State) :
  user st0 <> None ->
  slice pool 0 (Config.numQuestions config) <> [] ->
  screen_inv (slice pool 0 (Config.numQuestions config)) (completions st0)
    (openSession pool config now st0).
Proof.
  intros Hu Hne.
  destruct (session_start pool config now st0 Hu Hne) as (Hu' & Hquiz & _).
  split; [exact Hu' | split; [exact Hquiz |]].
  left. now repeat split.
Qed.

(** From any legal position on the quiz page, answering and advancing
    through the remaining questions completes the session, with one
    firing of the callback and no click on a leaving view. *)
Lemma screen_finish (qs : list Question.t) (c0 : nat) (k : nat) :
  forall s : QuizScreen,
    screen_inv qs c0 s ->
    page (hostState s) = taking_quiz ->
    Z.of_nat (List.length qs) - 1 - sessionIndex (hostState s) = Z.of_nat k ->
    exists s',
      runScreen (map viewClick (answerAndAdvance (S k))) s = Some s' /\
      page (hostState s') = dashboard /\
      completions (hostState s') = S c0 /\
      exitUndisturbed (map viewClick (answerAndAdvance (S k))) s = true.
Proof.
  induction k as [| k IH]; intros s Hinv Hp Hk;
    destruct (screen_inv_session _ _ _ Hinv Hp) as [Hsess _];
    pose proof (session_inv_onScreen _ _ _ Hsess Hp) as Hon;
    destruct (select_shows_feedback qs c0 _ 0 Hsess Hp)
      as (st1 & Hd1 & Hsess1 & Hf1 & Hp1 & Hi1);
    pose proof (deliver_shown _ s st1 Hon Hd1) as Hs1;
    rewrite Hp1 in Hs1;
    pose proof (session_inv_onScreen _ _ _ Hsess1 Hp1) as Hon1;
    destruct (next_on_feedback qs c0 st1 Hsess1 Hp1 Hf1)
      as (st2 & Hd2 & Hsess2 & Hcases);
    pose proof (deliver_shown _ (mkQuizScreen st1 None) st2 Hon1 Hd2) as Hs2;
    cbn [hostState] in Hs2;
    cbn [answerAndAdvance map runScreen exitUndisturbed];
    rewrite Hon, Hs1; cbn [hostState exitingQuiz]; rewrite Hon1, Hs2.
  - destruct Hcases as [(Hlt & _) | (_ & Hp2 & Hc2)]; [lia |].
    eexists. split; [reflexivity |]. cbn [hostState].
    split; [exact Hp2 | split; [exact Hc2 |]].
    now destruct (exitingQuiz s).
  - destruct Hcases as [(_ & Hp2 & Hi2 & _) | (Hlast & _)]; [| lia].
    rewrite Hp2.
    assert (Hinv2 : screen_inv qs c0 (mkQuizScreen st2 None)).
    { destruct Hsess2 as (Hu2 & Hquiz2 & Hphase2).
      split; [exact Hu2 | split; [exact Hquiz2 |]].
      left. destruct Hphase2 as [(_ & Hc2) | (Hp2' & _)]; [| congruence].
      now repeat split. }
    destruct (IH (mkQuizScreen st2 None) Hinv2 Hp2) as (s' & Hr & Hp' & Hc' & Hun');
      [cbn [hostState]; lia |].
    exists s'. split; [exact Hr | split; [exact Hp' | split; [exact Hc' |]]].
    destruct (exitingQuiz s); exact Hun'.
Qed.

Lemma session_inv_length (qs : list Question.t) (c0 : nat) (st : State) :
  session_inv qs c0 st ->
  sessionLength st = Z.of_nat (List.length qs) /\
  0 <= sessionIndex st <= Z.of_nat (List.length qs) - 1.
Proof.
  intros (_ & (quiz & Hq & Hqs & Hidx) & _).
  unfold sessionLength, sessionIndex. rewrite Hq, Hqs. now split.
Qed.

(** C2 (amended to sessions with at least one question, and without
    the promise of a single completion when the leaving view is clicked).
    A session started by a logged-in user over a non-empty selection
    begins at index 0 on the quiz page.  Whatever clicks follow, on the
    view while it is shown or while it leaves the page, they are all
    handled and afterwards: the number of questions is unchanged; the
    index lies between 0 and length - 1; the completion callback has not
    fired while the session is not completed and has fired once it is;
    if no click landed on the leaving view it has fired exactly once;
    one more event never decreases the index, and it fires the callback
    only if it is [Next] pressed on the feedback of the last question,
    which leaves the session completed; pressing [Next] there on the
    shown view does complete it, with the first firing; and completion
    can always still be reached, with one firing. *)
Theorem C2_nonempty_session_index_and_completion
  (pool : list Question.t) (config : Config.t) (now : Z) (st0 : State) :
  user st0 <> None ->
  slice pool 0 (Config.numQuestions config) <> [] ->
  let s0 := openSession pool config now st0 in
  sessionIndex (hostState s0) = 0 /\ page (hostState s0) = taking_quiz /\
  forall evs : list ScreenEvent,
  exists s : QuizScreen,
    runScreen evs s0 = Some s /\
    sessionLength (hostState s) = sessionLength (hostState s0) /\
    0 <= sessionIndex (hostState s) <= sessionLength (hostState s) - 1 /\
    (page (hostState s) = taking_quiz /\
     completions (hostState s) = completions st0 \/
     completed (hostState s) /\
     (S (completions st0) <= completions (hostState s))%nat) /\
    (exitUndisturbed evs s0 = true ->
     (completions (hostState s) <= S (completions st0))%nat) /\
    (forall e : ScreenEvent, exists s' : QuizScreen,
        deliver e s = Some s' /\
        sessionIndex (hostState s) <= sessionIndex (hostState s') /\
        (completions (hostState s') = completions (hostState s) /\
         page (hostState s') = page (hostState s) \/
         completions (hostState s') = S (completions (hostState s)) /\
         completed (hostState s') /\
         e = viewClick clickNext /\ showFeedback (hostState s) = true /\
         sessionIndex (hostState s) = sessionLength (hostState s) - 1)) /\
    (page (hostState s) = taking_quiz -> showFeedback (hostState s) = true ->
     sessionIndex (hostState s) = sessionLength (hostState s) - 1 ->
     exists s' : QuizScreen,
       deliver (viewClick clickNext) s = Some s' /\ completed (hostState s') /\
       completions (hostState s') = S (completions st0)) /\
    (page (hostState s) = taking_quiz ->
     exists (evs' : list ScreenEvent) (s' : QuizScreen),
       runScreen evs' s = Some s' /\ completed (hostState s') /\
       completions (hostState s') = S (completions st0)).
Proof.
  intros Hu Hne s0.
  pose proof (screen_start pool config now st0 Hu Hne) as Hinv0.
  fold s0 in Hinv0.
  set (qs := slice pool 0 (Config.numQuestions config)) in *.
  set (c0 := completions st0) in *.
  split; [reflexivity | split; [reflexivity |]].
  intros evs.
  destruct (screen_run qs c0 evs s0 Hinv0) as (s & Hrun & Hinv & _ & Hquiet).
  destruct (screen_inv_length _ _ _ Hinv0) as [Hlen0 _].
  destruct (screen_inv_length _ _ _ Hinv) as [Hlen Hidx].
  exists s. split; [exact Hrun |]. split; [congruence |].
  split; [rewrite Hlen; exact Hidx |].
  split; [| split; [| split; [| split]]].
  - destruct Hinv as (_ & _ & [(Hp & Hc & _) | (Hp & Hc & _)]); [left | right];
      now split.
  - intros Hun. apply Hquiet; [exact Hun |].
    destruct Hinv0 as (_ & _ & [(_ & Hc0 & _) | (Hp0 & _)]);
      [rewrite Hc0; lia | discriminate Hp0].
  - intros e.
    destruct (screen_step qs c0 s e Hinv) as (s' & Hd & _ & Hle & Hc & _).
    exists s'. split; [exact Hd | split; [exact Hle |]].
    destruct Hc as [Hsame | (Hc & Hp' & Hev & Hf & Hi)]; [now left |].
    right. rewrite Hlen. now repeat split.
  - intros Hp Hf Hlast.
    destruct (screen_inv_session _ _ _ Hinv Hp) as [Hsess _].
    pose proof (session_inv_onScreen _ _ _ Hsess Hp) as Hon.
    destruct (next_on_feedback qs c0 _ Hsess Hp Hf)
      as (st' & Hd & _ & [(Hlt & _) | (_ & Hp' & Hc')]); [lia |].
    eexists. split; [exact (deliver_shown _ s st' Hon Hd) |].
    now split.
  - intros Hp.
    destruct (screen_finish qs c0
                (Z.to_nat (Z.of_nat (List.length qs) - 1
                           - sessionIndex (hostState s)))
                s Hinv Hp) as (s' & Hr & Hp' & Hc' & _); [lia |].
    eexists; exists s'. split; [exact Hr | now split].
Qed.

Lemma C2_nonempty_session_index_and_completion_witness :
  user demoState <> None /\
  slice initialQuestions 0 3 <> [] /\
  let s0 := openSession initialQuestions (Config.mk 3 practice) 0 demoState in
  sessionIndex (hostState s0) = 0 /\ page (hostState s0) = taking_quiz /\
  forall evs : list ScreenEvent,
  exists s : QuizScreen,
    runScreen evs s0 = Some s /\
    0 <= sessionIndex (hostState s) <= sessionLength (hostState s) - 1.
Proof.
  split; [discriminate | split; [discriminate |]].
  destruct (C2_nonempty_session_index_and_completion
              initialQuestions (Config.mk 3 practice) 0 demoState)
    as (H0 & Hp & Hall); [discriminate | discriminate |].
  split; [exact H0 | split; [exact Hp |]].
  intros evs. destruct (Hall evs) as (s & Hr & _ & Hidx & _).
  exists s. now split.
Defined.

(** C2 as stated fails twice.  [startQuiz] accepts a count of 0, and the
    session it stores sits at index 0, above length - 1 = -1, without
    being completed; its view cannot render, so no click ever completes
    it.  And completion is not reached exactly once: in the session over
    the three questions of the pool, [Next] pressed once more on the view
    that is leaving the page after the last question fires the
    completion callback a second time. *)
Lemma C2_counterexample_empty_session_and_second_completion :
  (let s0 := startSession initialQuestions (Config.mk 0 practice) 0 demoState in
   ~ completed s0 /\
   sessionLength s0 = 0 /\
   sessionIndex s0 = 0 /\
   ~ (sessionIndex s0 <= sessionLength s0 - 1) /\
   run (answerAndAdvance 3) s0 = Some s0) /\
  (let s0 := openSession initialQuestions (Config.mk 3 practice) 0 demoState in
   exists s1 s2 : QuizScreen,
     runScreen (map viewClick (answerAndAdvance 3)) s0 = Some s1 /\
     completed (hostState s1) /\
     completions (hostState s1) = 1%nat /\
     deliver (viewClick clickNext) s1 = Some s2 /\
     completed (hostState s2) /\
     completions (hostState s2) = 2%nat).
Proof.
  split.
  - cbv zeta. repeat split; try reflexivity.
    + unfold completed. discriminate.
    + cbn. lia.
  - cbv zeta.
    destruct (runScreen (map viewClick (answerAndAdvance 3))
                (openSession initialQuestions (Config.mk 3 practice) 0 demoState))
      as [s1 |] eqn:H1; [| vm_compute in H1; discriminate H1].
    destruct (deliver (viewClick clickNext) s1) as [s2 |] eqn:H2;
      [| revert H2; vm_compute in H1; injection H1 as <-; vm_compute;
         discriminate].
    exists s1, s2. split; [reflexivity |].
    vm_compute in H1. injection H1 as <-.
    vm_compute in H2. injection H2 as <-.
    repeat split.
Qed.

(** ** Guards of the quiz flow *)

Lemma handleNext_changes (st st' : State) :
  showFeedback st = true -> handleNext st = Some st' -> st' <> st.
Proof.
  intros Hf Hn Heq. subst st'. unfold handleNext in Hn.
  destruct (currentQuiz st) as [quiz |]; [| discriminate].
  destruct (_ <? _).
  - injection Hn as Hn. apply (f_equal showFeedback) in Hn. cbn in Hn. congruence.
  - injection Hn as Hn. apply (f_equal effects) in Hn. cbn in Hn.
    now apply effects_grow_neq in Hn.
Qed.

Lemma handleAnswer_changes (index : Z) (st st' : State) :
  showFeedback st = false -> handleAnswer index st = Some st' -> st' <> st.
Proof.
  intros Hf Ha Heq. subst st'. unfold handleAnswer in Ha. rewrite Hf in Ha.
  destruct (currentQuestion st) as [q |]; [| discriminate].
  destruct (index =? Question.correctAnswerIndex q);
    injection Ha as Ha; apply (f_equal showFeedback) in Ha; cbn in Ha;
    congruence.
Qed.

(** C6 (amended: there are two guards).  While the view is on screen, a
    click on [Next] before any option has been selected is rejected: it
    is a silent no-op that leaves the state as it was.  The quiz flow
    rejects a click in exactly two situations: [Next] while the question
    awaits its answer, and an option while feedback is shown. *)
Theorem C6_guards_of_the_quiz_flow (st : State) :
  onScreen st = true ->
  (showFeedback st = false -> dispatch clickNext st = Some st) /\
  (forall ev : Event,
      dispatch ev st = Some st <->
      (ev = clickNext /\ showFeedback st = false) \/
      (exists index : Z, ev = clickOption index /\ showFeedback st = true)).
Proof.
  intros Hon. split.
  - intros Hf. unfold dispatch. now rewrite Hon, Hf.
  - intros ev. unfold dispatch. rewrite Hon. split.
    + destruct ev as [index |]; destruct (showFeedback st) eqn:Hf; intros Hd.
      * right. now exists index.
      * exfalso. now apply (handleAnswer_changes index st st Hf Hd).
      * exfalso. now apply (handleNext_changes st st Hf Hd).
      * now left.
    + intros [[-> Hf] | (index & -> & Hf)].
      * now rewrite Hf.
      * now apply handleAnswer_feedback.
Qed.

Lemma C6_guards_of_the_quiz_flow_witness :
  let st := startSession initialQuestions (Config.mk 3 practice) 0 demoState in
  onScreen st = true /\ showFeedback st = false /\
  dispatch clickNext st = Some st.
Proof.
  intros st. split; [reflexivity | split; [reflexivity |]].
  exact (proj1 (C6_guards_of_the_quiz_flow st eq_refl) eq_refl).
Defined.

(** The rejection of [Next] is not the only guard: with feedback on
    screen a click on an option is rejected as well. *)
Lemma C6_counterexample_second_guard :
  ~ (forall (st : State) (ev : Event),
        onScreen st = true ->
        dispatch ev st = Some st ->
        ev = clickNext /\ showFeedback st = false).
Proof.
  intros H.
  pose (st := setShowFeedback true (setSelectedOption (Some 1)
                (startSession initialQuestions (Config.mk 3 practice) 0 demoState))).
  assert (Hon : onScreen st = true) by (vm_compute; reflexivity).
  assert (Hd : dispatch (clickOption 1) st = Some st).
  { unfold dispatch. rewrite Hon. now apply handleAnswer_feedback. }
  destruct (H st (clickOption 1) Hon Hd) as [Hev _]. discriminate Hev.
Qed.

(** ** Binary64 arithmetic

    Bounds on the rounding error of [SpecFloat]'s division and
    multiplication, for operands with full 53-digit mantissas. *)

Lemma digits2_pos_size (p : positive) : digits2_pos p = Pos.size p.
Proof. induction p; simpl; congruence. Qed.

Lemma Zdigits2_bounds (z : Z) :
  0 < z -> 0 < Zdigits2 z /\ 2 ^ (Zdigits2 z - 1) <= z < 2 ^ Zdigits2 z.
Proof.
  destruct z as [| p | p]; try lia. intros _. cbn [Zdigits2].
  rewrite digits2_pos_size.
  pose proof (Pos.size_gt p) as Hgt. pose proof (Pos.size_le p) as Hle.
  apply Pos2Z.pos_lt_pos in Hgt. apply Pos2Z.pos_le_pos in Hle.
  rewrite Pos2Z.inj_pow in Hgt, Hle. rewrite (Pos2Z.inj_xO p) in Hle.
  split; [lia |]. split; [| exact Hgt].
  assert (Hpow : 2 ^ Z.pos (Pos.size p) = 2 * 2 ^ (Z.pos (Pos.size p) - 1))
    by (rewrite <- Z.pow_succ_r by lia; f_equal; lia).
  lia.
Qed.

Lemma Zdigits2_unique (z d : Z) :
  2 ^ (d - 1) <= z < 2 ^ d -> 0 < d -> Zdigits2 z = d.
Proof.
  intros [Hlo Hhi] Hd.
  assert (Hz : 0 < z) by (pose proof (Z.pow_pos_nonneg 2 (d - 1)); lia).
  destruct (Zdigits2_bounds z Hz) as (Hpos & Hlo' & Hhi').
  destruct (Z.lt_trichotomy (Zdigits2 z) d) as [Hlt | [Heq | Hgt]]; [| exact Heq |].
  - assert (2 ^ Zdigits2 z <= 2 ^ (d - 1)) by (apply Z.pow_le_mono_r; lia). lia.
  - assert (2 ^ d <= 2 ^ (Zdigits2 z - 1)) by (apply Z.pow_le_mono_r; lia). lia.
Qed.

Lemma loc_of_shr_record_of_loc (m : Z) (l : location) :
  loc_of_shr_record (shr_record_of_loc m l) = l /\
  shr_m (shr_record_of_loc m l) = m.
Proof. destruct l as [| []]; split; reflexivity. Qed.

Lemma shr_1_located (N D : Z) (mrs : shr_record) :
  0 <= shr_m mrs -> 0 < D ->
  located N D (shr_m mrs) (loc_of_shr_record mrs) ->
  shr_m (shr_1 mrs) = shr_m mrs / 2 /\
  located N (2 * D) (shr_m (shr_1 mrs)) (loc_of_shr_record (shr_1 mrs)).
Proof.
  destruct mrs as [m r s]. cbn [shr_m]. intros Hm HD Hloc.
  assert (Hhalf : exists h b, m = 2 * h + b /\ 0 <= h /\ (b = 0 \/ b = 1) /\
            shr_1 (Build_shr_record m r s) =
            Build_shr_record h (if b =? 0 then false else true) (r || s)).
  { destruct m as [| [p | p |] | p]; try lia.
    - exists 0, 0. repeat split; try lia; reflexivity.
    - exists (Z.pos p), 1. rewrite Pos2Z.inj_xI. repeat split; try lia; reflexivity.
    - exists (Z.pos p), 0. rewrite Pos2Z.inj_xO. repeat split; try lia; reflexivity.
    - exists 0, 1. repeat split; try lia; reflexivity. }
  destruct Hhalf as (h & b & -> & Hh & Hb & ->). cbn [shr_m].
  split.
  - apply (Z.div_unique _ 2 h b); lia.
  - destruct Hb as [-> | ->], r, s;
      cbv [located loc_of_shr_record shr_m orb Z.eqb] in *; nia.
Qed.

Lemma iter_shr_1_located (p : positive) :
  forall (N D : Z) (mrs : shr_record),
    0 <= shr_m mrs -> 0 < D ->
    located N D (shr_m mrs) (loc_of_shr_record mrs) ->
    shr_m (iter_pos shr_1 p mrs) = shr_m mrs / 2 ^ Z.pos p /\
    located N (2 ^ Z.pos p * D) (shr_m (iter_pos shr_1 p mrs))
      (loc_of_shr_record (iter_pos shr_1 p mrs)).
Proof.
  induction p as [p IH | p IH |]; intros N D mrs Hm HD Hloc; cbn [iter_pos].
  - destruct (shr_1_located N D mrs Hm HD Hloc) as [Hm1 Hl1].
    assert (H1 : 0 <= shr_m (shr_1 mrs)) by (rewrite Hm1; apply Z.div_pos; lia).
    destruct (IH N (2 * D) _ H1 ltac:(lia) Hl1) as [Hm2 Hl2].
    assert (Hp : 0 < 2 ^ Z.pos p) by (apply Z.pow_pos_nonneg; lia).
    assert (H2 : 0 <= shr_m (iter_pos shr_1 p (shr_1 mrs)))
      by (rewrite Hm2; apply Z.div_pos; lia).
    destruct (IH N (2 ^ Z.pos p * (2 * D)) _ H2 ltac:(nia) Hl2) as [Hm3 Hl3].
    assert (Hpow : 2 ^ Z.pos p~1 = 2 * 2 ^ Z.pos p * 2 ^ Z.pos p).
    { rewrite (Pos2Z.inj_xI p).
      replace (2 * Z.pos p + 1) with (1 + Z.pos p + Z.pos p) by lia.
      rewrite !Z.pow_add_r by lia. reflexivity. }
    rewrite Hpow. split.
    + rewrite Hm3, Hm2, Hm1. rewrite !Z.div_div by lia. f_equal. ring.
    + replace (2 * 2 ^ Z.pos p * 2 ^ Z.pos p * D)
        with (2 ^ Z.pos p * (2 ^ Z.pos p * (2 * D))) by ring.
      exact Hl3.
  - assert (Hp : 0 < 2 ^ Z.pos p) by (apply Z.pow_pos_nonneg; lia).
    destruct (IH N D mrs Hm HD Hloc) as [Hm2 Hl2].
    assert (H2 : 0 <= shr_m (iter_pos shr_1 p mrs))
      by (rewrite Hm2; apply Z.div_pos; lia).
    destruct (IH N (2 ^ Z.pos p * D) _ H2 ltac:(nia) Hl2) as [Hm3 Hl3].
    assert (Hpow : 2 ^ Z.pos p~0 = 2 ^ Z.pos p * 2 ^ Z.pos p).
    { rewrite (Pos2Z.inj_xO p).
      replace (2 * Z.pos p) with (Z.pos p + Z.pos p) by lia.
      rewrite !Z.pow_add_r by lia. reflexivity. }
    rewrite Hpow. split.
    + rewrite Hm3, Hm2. rewrite !Z.div_div by lia. f_equal.
    + replace (2 ^ Z.pos p * 2 ^ Z.pos p * D)
        with (2 ^ Z.pos p * (2 ^ Z.pos p * D)) by ring.
      exact Hl3.
  - change (2 ^ 1) with 2. now apply shr_1_located.
Qed.

Lemma round_nearest_even_located (N D m : Z) (l : location) :
  0 < D -> located N D m l ->
  (round_nearest_even m l = m \/ round_nearest_even m l = m + 1) /\
  - D <= 2 * (round_nearest_even m l * D - N) <= D.
Proof.
  intros HD Hloc. destruct l as [| []]; cbn [round_nearest_even located] in *.
  - split; [now left | lia].
  - destruct (Z.even m); split; try (now left); try (now right); lia.
  - split; [now left | lia].
  - split; [now right | lia].
Qed.

Lemma fexp_normal (e : Z) : -1021 <= e -> fexp prec emax e = e - 53.
Proof. intros He. unfold fexp, emin, prec, emax. lia. Qed.

Lemma pow2_pos (n : Z) : 0 <= n -> 0 < 2 ^ n.
Proof. intros Hn. apply Z.pow_pos_nonneg; lia. Qed.

Lemma digits_at_least_53 (mx : Z) : 2 ^ 52 <= mx -> 53 <= Zdigits2 mx.
Proof.
  intros Hmx. destruct (Zdigits2_bounds mx ltac:(lia)) as (Hd & _ & Hhi).
  destruct (Z.le_gt_cases 53 (Zdigits2 mx)) as [H | H]; [exact H |].
  assert (2 ^ Zdigits2 mx <= 2 ^ 52) by (apply Z.pow_le_mono_r; lia). lia.
Qed.

Lemma shr_fexp_located (N D mx ex : Z) (lx : location) :
  0 < D -> 2 ^ 52 <= mx -> -1074 <= ex -> located N D mx lx ->
  exists mrs : shr_record,
    shr_fexp prec emax mx ex lx = (mrs, ex + (Zdigits2 mx - 53)) /\
    shr_m mrs = mx / 2 ^ (Zdigits2 mx - 53) /\
    located N (2 ^ (Zdigits2 mx - 53) * D) (shr_m mrs) (loc_of_shr_record mrs) /\
    2 ^ 52 <= shr_m mrs < 2 ^ 53 /\
    (Zdigits2 mx = 53 -> mrs = shr_record_of_loc mx lx).
Proof.
  intros HD Hmx Hex Hloc.
  pose proof (digits_at_least_53 mx Hmx) as Hd53.
  destruct (Zdigits2_bounds mx ltac:(lia)) as (_ & Hlo & Hhi).
  set (d := Zdigits2 mx) in *.
  assert (Hbounds : 2 ^ 52 <= mx / 2 ^ (d - 53) < 2 ^ 53).
  { pose proof (pow2_pos (d - 53) ltac:(lia)) as Hp.
    assert (Hlo' : 2 ^ (d - 53) * 2 ^ 52 <= mx).
    { rewrite <- Z.pow_add_r by lia. replace (d - 53 + 52) with (d - 1) by lia.
      exact Hlo. }
    assert (Hhi' : mx < 2 ^ (d - 53) * 2 ^ 53).
    { rewrite <- Z.pow_add_r by lia. replace (d - 53 + 53) with d by lia.
      exact Hhi. }
    split; [apply Z.div_le_lower_bound | apply Z.div_lt_upper_bound]; lia. }
  unfold shr_fexp. fold d. rewrite fexp_normal by lia.
  replace (d + ex - 53 - ex) with (d - 53) by lia.
  destruct (loc_of_shr_record_of_loc mx lx) as [Hl Hm].
  destruct (d - 53) as [| p | p] eqn:Hn; [| | lia].
  - exists (shr_record_of_loc mx lx). cbn [shr]. rewrite Hl, Hm.
    change (2 ^ 0) with 1 in *. rewrite Z.div_1_r in *. rewrite Z.mul_1_l.
    repeat split; try assumption; try lia. f_equal. lia.
  - exists (iter_pos shr_1 p (shr_record_of_loc mx lx)). cbn [shr].
    destruct (iter_shr_1_located p N D (shr_record_of_loc mx lx)) as [Hm' Hl'];
      [rewrite Hm; lia | exact HD | now rewrite Hl, Hm |].
    rewrite Hm in Hm'. rewrite Hm'.
    repeat split; try assumption; try lia.
    now rewrite <- Hm'.
Qed.

Lemma binary_round_aux_bounded (sx : bool) (N D mx ex : Z) (lx : location) :
  0 < D -> 2 ^ 52 <= mx -> -1074 <= ex -> ex + Zdigits2 mx - 53 < 971 ->
  located N D mx lx ->
  exists (m : positive) (k : Z),
    binary_round_aux prec emax sx mx ex lx = S754_finite sx m (ex + k) /\
    2 ^ 52 <= Z.pos m < 2 ^ 53 /\
    Zdigits2 mx - 53 <= k <= Zdigits2 mx - 52 /\
    - (2 ^ k * D) <= 2 * (Z.pos m * 2 ^ k * D - N) <= 2 ^ k * D /\
    (lx = loc_Exact -> Zdigits2 mx = 53 -> Z.pos m = mx /\ k = 0).
Proof.
  intros HD Hmx Hex Hover Hloc.
  pose proof (digits_at_least_53 mx Hmx) as Hd53.
  set (n := Zdigits2 mx - 53) in *.
  destruct (shr_fexp_located N D mx ex lx HD Hmx Hex Hloc)
    as (mrs & Hshr & Hms & Hlocs & Hmsb & Hexact). fold n in Hshr, Hms, Hlocs.
  pose proof (pow2_pos n ltac:(lia)) as Hpn.
  destruct (round_nearest_even_located N (2 ^ n * D) _ _ ltac:(nia) Hlocs)
    as [Hm1 Herr].
  set (m1 := round_nearest_even (shr_m mrs) (loc_of_shr_record mrs)) in *.
  assert (Hm1b : 2 ^ 52 <= m1 <= 2 ^ 53) by lia.
  destruct (shr_fexp_located m1 1 m1 (ex + n) loc_Exact)
    as (mrs2 & Hshr2 & Hms2 & _ & Hms2b & _);
    [lia | lia | lia | cbn; lia |].
  unfold binary_round_aux. rewrite Hshr. fold m1. rewrite Hshr2.
  assert (Hd1 : Zdigits2 m1 = 53 /\ shr_m mrs2 = m1 \/
                Zdigits2 m1 = 54 /\ m1 = 2 ^ 53 /\ shr_m mrs2 = 2 ^ 52).
  { destruct (Z.eq_dec m1 (2 ^ 53)) as [Heq | Hne].
    - right. assert (Hd : Zdigits2 m1 = 54)
        by (apply Zdigits2_unique; [rewrite Heq; cbn; lia | lia]).
      rewrite Hms2, Hd, Heq. repeat split; reflexivity.
    - left. assert (Hd : Zdigits2 m1 = 53)
        by (apply Zdigits2_unique; [cbn; cbn in Hm1b; lia | lia]).
      rewrite Hms2, Hd. change (2 ^ (53 - 53)) with 1. rewrite Z.div_1_r.
      now split. }
  destruct (shr_m mrs2) as [| m |] eqn:Hm2; [lia | | lia].
  exists m.
  destruct Hd1 as [[Hd Hsame] | (Hd & Hfull & Hhalf)]; rewrite Hd.
  - exists n. replace (ex + n + (53 - 53)) with (ex + n) by lia.
    assert (Hle : (ex + n <=? emax - prec) = true)
      by (apply Z.leb_le; unfold emax, prec; lia).
    rewrite Hle. rewrite <- Hsame in Herr.
    split; [reflexivity |]. split; [lia |]. split; [lia |]. split; [lia |].
    intros -> Hd'. unfold m1 in Hsame. rewrite (Hexact Hd') in Hsame.
    cbn in Hsame. lia.
  - exists (n + 1). replace (ex + n + (54 - 53)) with (ex + (n + 1)) by lia.
    assert (Hle : (ex + (n + 1) <=? emax - prec) = true)
      by (apply Z.leb_le; unfold emax, prec; lia).
    rewrite Hle.
    assert (Hpow : 2 ^ (n + 1) = 2 * 2 ^ n)
      by (rewrite Z.pow_add_r by lia; change (2 ^ 1) with 2; ring).
    rewrite Hpow. rewrite Hfull in Herr. rewrite Hhalf.
    change (2 ^ 53) with (2 * 2 ^ 52) in Herr.
    split; [reflexivity |]. split; [lia |]. split; [lia |]. split; [nia |].
    intros -> Hd'. exfalso. unfold m1 in Hfull. rewrite (Hexact Hd') in Hfull.
    cbn in Hfull. destruct (Zdigits2_bounds mx ltac:(lia)) as (_ & _ & Hhi).
    rewrite Hd' in Hhi. lia.
Qed.

Lemma Zdigits2_between (z lo hi : Z) :
  0 <= lo -> 2 ^ lo <= z < 2 ^ hi -> lo + 1 <= Zdigits2 z <= hi.
Proof.
  intros Hlo [Hz1 Hz2].
  pose proof (pow2_pos lo Hlo) as Hp.
  destruct (Zdigits2_bounds z ltac:(lia)) as (Hd & Hd1 & Hd2).
  split.
  - destruct (Z.le_gt_cases (lo + 1) (Zdigits2 z)) as [H | H]; [exact H |].
    assert (2 ^ Zdigits2 z <= 2 ^ lo) by (apply Z.pow_le_mono_r; lia). lia.
  - destruct (Z.le_gt_cases (Zdigits2 z) hi) as [H | H]; [exact H |].
    assert (2 ^ hi <= 2 ^ (Zdigits2 z - 1)) by (apply Z.pow_le_mono_r; lia). lia.
Qed.

Lemma iter_xO_pow (k p : positive) :
  Z.pos (Pos.iter xO p k) = Z.pos p * 2 ^ Z.pos k.
Proof.
  induction k as [| k IH] using Pos.peano_ind.
  - cbn [Pos.iter]. rewrite Pos2Z.inj_xO. change (2 ^ 1) with 2. lia.
  - rewrite Pos.iter_succ, Pos2Z.inj_xO, IH, Pos2Z.inj_succ.
    rewrite Z.pow_succ_r by lia. ring.
Qed.

(** The binary64 image of a positive integer below [2^53] is exact: its
    mantissa is the integer shifted to 53 digits. *)
Lemma number_of_Z_exact (n : Z) :
  0 < n < 2 ^ 53 ->
  exists m : positive,
    number_of_Z n = S754_finite false m (Zdigits2 n - 53) /\
    2 ^ 52 <= Z.pos m < 2 ^ 53 /\
    Z.pos m = n * 2 ^ (53 - Zdigits2 n) /\
    1 <= Zdigits2 n <= 53.
Proof.
  intros [Hn Hn53].
  destruct (Zdigits2_bounds n Hn) as (Hd & Hlo & Hhi).
  pose proof (Zdigits2_between n 0 53 ltac:(lia) ltac:(cbn; lia)) as Hd53.
  destruct n as [| p | p]; try lia.
  unfold number_of_Z, binary_normalize, binary_round.
  change (Z.pos (digits2_pos p)) with (Zdigits2 (Z.pos p)).
  set (d := Zdigits2 (Z.pos p)) in *.
  rewrite fexp_normal by lia. replace (d + 0 - 53) with (d - 53) by lia.
  assert (Hscaled : 2 ^ 52 <= Z.pos p * 2 ^ (53 - d) < 2 ^ 53).
  { pose proof (pow2_pos (53 - d) ltac:(lia)) as Hp.
    assert (H52 : 2 ^ (d - 1) * 2 ^ (53 - d) = 2 ^ 52)
      by (rewrite <- Z.pow_add_r by lia; f_equal; lia).
    assert (H53 : 2 ^ d * 2 ^ (53 - d) = 2 ^ 53)
      by (rewrite <- Z.pow_add_r by lia; f_equal; lia).
    nia. }
  assert (Halign : exists mz : positive,
            shl_align p 0 (d - 53) = (mz, d - 53) /\
            Z.pos mz = Z.pos p * 2 ^ (53 - d)).
  { unfold shl_align. rewrite Z.sub_0_r.
    destruct (d - 53) as [| q | q] eqn:Hq; [| lia |].
    - exists p. replace (53 - d) with 0 by lia. split; [reflexivity | cbn; lia].
    - exists (Pos.iter xO p q). split; [reflexivity |].
      rewrite iter_xO_pow. f_equal. f_equal. lia. }
  destruct Halign as (mz & -> & Hmz).
  assert (Hdz : Zdigits2 (Z.pos mz) = 53) by (apply Zdigits2_unique; lia).
  destruct (binary_round_aux_bounded false (Z.pos mz) 1 (Z.pos mz) (d - 53) loc_Exact)
    as (m & k & Hbra & Hm & _ & _ & Hexact);
    [lia | lia | lia | lia | cbn; lia |].
  destruct (Hexact eq_refl Hdz) as [Hmm Hk].
  exists m. rewrite Hbra, Hk, Z.add_0_r.
  repeat split; lia.
Qed.

Lemma new_location_located (d q r : Z) :
  0 < d -> 0 <= r < d -> located (q * d + r) d q (new_location d r).
Proof.
  intros Hd Hr. unfold new_location.
  destruct (Z.even d) eqn:Heven.
  - unfold new_location_even. destruct (Z.eqb_spec r 0) as [-> | Hr0].
    + unfold located. lia.
    + destruct (Z.compare_spec (2 * r) d); unfold located; lia.
  - unfold new_location_odd. destruct (Z.eqb_spec r 0) as [-> | Hr0].
    + unfold located. lia.
    + assert (Hodd : Z.odd d = true) by (rewrite <- Z.negb_even, Heven; reflexivity).
      apply Z.odd_spec in Hodd. destruct Hodd as [h Hh].
      destruct (Z.compare_spec (2 * r + 1) d); unfold located; lia.
Qed.

Lemma number_div_bounded (m1 m2 : positive) (e1 e2 : Z) :
  2 ^ 52 <= Z.pos m1 < 2 ^ 53 -> 2 ^ 52 <= Z.pos m2 < 2 ^ 53 ->
  -52 <= e1 <= 0 -> -52 <= e2 <= 0 ->
  exists (m : positive) (k : Z),
    number_div (S754_finite false m1 e1) (S754_finite false m2 e2) =
    S754_finite false m (e1 - e2 - 53 + k) /\
    2 ^ 52 <= Z.pos m < 2 ^ 53 /\ 0 <= k <= 2 /\
    - (2 ^ k * Z.pos m2) <=
      2 * (Z.pos m * 2 ^ k * Z.pos m2 - Z.pos m1 * 2 ^ 53) <= 2 ^ k * Z.pos m2.
Proof.
  intros Hm1 Hm2 He1 He2.
  assert (Hd1 : Zdigits2 (Z.pos m1) = 53) by (apply Zdigits2_unique; lia).
  assert (Hd2 : Zdigits2 (Z.pos m2) = 53) by (apply Zdigits2_unique; lia).
  unfold number_div, SFdiv, SFdiv_core_binary. rewrite Hd1, Hd2.
  rewrite fexp_normal by lia.
  replace (Z.min (53 + e1 - (53 + e2) - 53) (e1 - e2)) with (e1 - e2 - 53) by lia.
  replace (e1 - e2 - (e1 - e2 - 53)) with 53 by lia.
  cbv beta iota zeta. rewrite Z.shiftl_mul_pow2 by lia.
  pose proof (Z_div_mod (Z.pos m1 * 2 ^ 53) (Z.pos m2) ltac:(lia)) as Hdm.
  destruct (Z.div_eucl (Z.pos m1 * 2 ^ 53) (Z.pos m2)) as [q r].
  destruct Hdm as [Hq Hr].
  assert (Hqb : 2 ^ 52 <= q < 2 ^ 54).
  { change (2 ^ 54) with (2 * 2 ^ 53). change (2 ^ 53) with (2 * 2 ^ 52) in *.
    nia. }
  pose proof (Zdigits2_between q 52 54 ltac:(lia) Hqb) as Hdq.
  destruct (binary_round_aux_bounded false (Z.pos m1 * 2 ^ 53) (Z.pos m2) q
              (e1 - e2 - 53) (new_location (Z.pos m2) r))
    as (m & k & Hbra & Hm & Hk & Herr & _); [lia | lia | lia | lia | |].
  { rewrite Hq. replace (Z.pos m2 * q + r) with (q * Z.pos m2 + r) by ring.
    apply new_location_located; lia. }
  exists m, k. cbn [xorb]. rewrite Hbra.
  repeat split; lia.
Qed.

Lemma number_mul_bounded (m1 m2 : positive) (e1 e2 : Z) :
  2 ^ 52 <= Z.pos m1 < 2 ^ 53 -> 2 ^ 52 <= Z.pos m2 < 2 ^ 53 ->
  -200 <= e1 <= 0 -> -200 <= e2 <= 0 ->
  exists (m : positive) (k : Z),
    number_mul (S754_finite false m1 e1) (S754_finite false m2 e2) =
    S754_finite false m (e1 + e2 + k) /\
    2 ^ 52 <= Z.pos m < 2 ^ 53 /\ 52 <= k <= 54 /\
    - 2 ^ k <= 2 * (Z.pos m * 2 ^ k - Z.pos m1 * Z.pos m2) <= 2 ^ k.
Proof.
  intros Hm1 Hm2 He1 He2.
  unfold number_mul, SFmul. cbn [xorb].
  assert (Hp : 2 ^ 104 <= Z.pos (m1 * m2) < 2 ^ 106).
  { rewrite Pos2Z.inj_mul.
    change (2 ^ 104) with (2 ^ 52 * 2 ^ 52). change (2 ^ 106) with (2 ^ 53 * 2 ^ 53).
    nia. }
  pose proof (Zdigits2_between _ 104 106 ltac:(lia) Hp) as Hd.
  destruct (binary_round_aux_bounded false (Z.pos (m1 * m2)) 1 (Z.pos (m1 * m2))
              (e1 + e2) loc_Exact)
    as (m & k & Hbra & Hm & Hk & Herr & _);
    [lia | cbn in Hp |- *; lia | lia | lia | unfold located; lia |].
  exists m, k. rewrite Hbra. rewrite Pos2Z.inj_mul in Herr.
  repeat split; lia.
Qed.

(** The arithmetic behind the accuracy figure: [m] approximates
    [c / a] and [m3] approximates [100 * m] to half a unit in the last
    place, [n] is [m3] rounded to an integer; then [n] is within one half
    of [100 * c / a]. *)
Lemma accuracy_arithmetic (a c m m3 n A C K K3 T : Z) :
  1 <= a -> 1 <= c < 2 ^ 44 ->
  0 < A -> 0 < C -> 0 < K -> 0 < K3 <= 2 ^ 53 -> 0 < T ->
  T * K * K3 * A = C * 2 ^ 99 ->
  2 ^ 52 <= m -> 2 ^ 52 <= m3 ->
  - (K * (a * A)) <= 2 * (m * K * (a * A) - c * C * 2 ^ 53) <= K * (a * A) ->
  - K3 <= 2 * (m3 * K3 - m * (100 * 2 ^ 46)) <= K3 ->
  n = (2 * m3 + T) / (2 * T) ->
  - a <= 2 * (n * a - 100 * c) <= a.
Proof.
  intros Ha Hc HA HC HK HK3 HT Hprod Hm Hm3 Hdiv Hmul Hn.
  assert (HaA : 0 < a * A) by (apply Z.mul_pos_pos; lia).
  assert (HX : 0 < K * (a * A)) by (apply Z.mul_pos_pos; lia).
  remember (K * (a * A)) as X eqn:EX.
  assert (HQ : 0 < C * 2 ^ 99) by lia.
  assert (Hround : 2 * T * n <= 2 * m3 + T < 2 * T * n + 2 * T).
  { rewrite Hn. pose proof (Z.mul_div_le (2 * m3 + T) (2 * T) ltac:(lia)).
    pose proof (Z.mul_succ_div_gt (2 * m3 + T) (2 * T) ltac:(lia)). lia. }
  (* the products that occur, as atoms *)
  assert (HmX : 2 ^ 52 * X <= m * X) by (apply Z.mul_le_mono_nonneg_r; lia).
  assert (HcC : c * C <= (2 ^ 44 - 1) * C) by (apply Z.mul_le_mono_nonneg_r; lia).
  assert (HK3X : K3 * X <= 2 ^ 53 * X) by (apply Z.mul_le_mono_nonneg_r; lia).
  assert (HK3X0 : 0 < K3 * X) by (apply Z.mul_pos_pos; lia).
  replace (m * K * (a * A)) with (m * X) in Hdiv by (rewrite EX; ring).
  assert (Hmul1 : - K3 * X <= 2 * (m3 * K3 - m * (100 * 2 ^ 46)) * X)
    by (apply Z.mul_le_mono_nonneg_r; lia).
  assert (Hmul2 : 2 * (m3 * K3 - m * (100 * 2 ^ 46)) * X <= K3 * X)
    by (apply Z.mul_le_mono_nonneg_r; lia).
  assert (Hup : 2 * T * n * (K3 * X) <= (2 * m3 + T) * (K3 * X))
    by (apply Z.mul_le_mono_nonneg_r; lia).
  assert (Hlo : (2 * m3 + T) * (K3 * X) <= (2 * T * n + 2 * T - 1) * (K3 * X))
    by (apply Z.mul_le_mono_nonneg_r; lia).
  assert (HTY : T * (K3 * X) = a * (C * 2 ^ 99))
    by (rewrite EX, <- Hprod; ring).
  (* everything in terms of [P1 = m3 * K3 * X], [P2 = m * X], [cC = c * C],
     [aC = a * C], [naC = n * (a * C)], [X], [KX = K3 * X] *)
  replace (2 * T * n * (K3 * X)) with (2 * n * (T * (K3 * X))) in Hup by ring.
  replace ((2 * m3 + T) * (K3 * X)) with (2 * (m3 * K3 * X) + T * (K3 * X))
    in Hup, Hlo by ring.
  replace ((2 * T * n + 2 * T - 1) * (K3 * X))
    with (2 * n * (T * (K3 * X)) + 2 * (T * (K3 * X)) - K3 * X) in Hlo by ring.
  rewrite HTY in Hup, Hlo.
  replace (2 * (m3 * K3 - m * (100 * 2 ^ 46)) * X)
    with (2 * (m3 * K3 * X) - 200 * 2 ^ 46 * (m * X)) in Hmul1, Hmul2 by ring.
  replace (2 * n * (a * (C * 2 ^ 99))) with (2 ^ 100 * (n * (a * C))) in Hup, Hlo
    by ring.
  replace (a * (C * 2 ^ 99)) with (2 ^ 99 * (a * C)) in Hup, Hlo by ring.
  replace (- K3 * X) with (- (K3 * X)) in Hmul1 by ring.
  replace (c * C * 2 ^ 53) with (2 ^ 53 * (c * C)) in Hdiv by ring.
  replace (c * C * 2 ^ 54) with (2 ^ 54 * (c * C)) in * by ring.
  assert (HaC : 0 < a * C) by (apply Z.mul_pos_pos; lia).
  assert (Hgoal : 200 * (c * C) - a * C - C < 2 * (n * (a * C))
                  < 200 * (c * C) + a * C + C).
  { set (P1 := m3 * K3 * X) in *. set (P2 := m * X) in *.
    set (KX := K3 * X) in *. set (naC := n * (a * C)) in *.
    set (cC := c * C) in *. set (aC := a * C) in *.
    clearbody P1 P2 KX naC cC aC. clear - Hup Hlo Hmul1 Hmul2 Hdiv HK3X HmX HcC HX HC.
    lia. }
  assert (H1 : (200 * c - a - 1) * C < 2 * (n * a) * C)
    by (replace ((200 * c - a - 1) * C) with (200 * (c * C) - a * C - C) by ring;
        replace (2 * (n * a) * C) with (2 * (n * (a * C))) by ring; lia).
  assert (H2 : 2 * (n * a) * C < (200 * c + a + 1) * C)
    by (replace ((200 * c + a + 1) * C) with (200 * (c * C) + a * C + C) by ring;
        replace (2 * (n * a) * C) with (2 * (n * (a * C))) by ring; lia).
  apply Z.mul_lt_mono_pos_r in H1; [| exact HC].
  apply Z.mul_lt_mono_pos_r in H2; [| exact HC].
  lia.
Qed.

Lemma pow2_split (x y : Z) : 0 <= x -> 0 <= y -> 2 ^ (x + y) = 2 ^ x * 2 ^ y.
Proof. intros. now apply Z.pow_add_r. Qed.

(** [Math.round] after the two operations, on positive counts. *)
Lemma accuracy_positive (attempted correct : Z) :
  0 < attempted < 2 ^ 53 -> 0 < correct < 2 ^ 44 ->
  exists k : Z,
    Math_round
      (number_mul (number_div (number_of_Z correct) (number_of_Z attempted))
         (number_of_Z 100)) = number_of_Z k /\
    - attempted <= 2 * (k * attempted - 100 * correct) <= attempted.
Proof.
  intros Ha Hc.
  destruct (number_of_Z_exact attempted Ha) as (ma & -> & Hma & HmaA & Hda).
  destruct (number_of_Z_exact correct ltac:(lia)) as (mc & -> & Hmc & HmcC & Hdc).
  pose proof (Zdigits2_between correct 0 44 ltac:(lia) ltac:(lia)) as Hdc44.
  set (da := Zdigits2 attempted) in *. set (dc := Zdigits2 correct) in *.
  destruct (number_div_bounded mc ma (dc - 53) (da - 53))
    as (m & k & -> & Hm & Hk & Hdiv); [lia | lia | lia | lia |].
  assert (H100 : number_of_Z 100 = S754_finite false 7036874417766400 (-46))
    by reflexivity.
  rewrite H100.
  destruct (number_mul_bounded m 7036874417766400
              (dc - 53 - (da - 53) - 53 + k) (-46))
    as (m3 & k3 & -> & Hm3 & Hk3 & Hmul); [lia | lia | lia | lia |].
  pose proof (pow2_pos k ltac:(lia)) as HK.
  pose proof (pow2_pos k3 ltac:(lia)) as HK3.
  assert (Hk3' : k3 <= 53).
  { destruct (Z.le_gt_cases k3 53) as [H | H]; [exact H |].
    assert (Hk54 : k3 = 54) by lia. rewrite Hk54 in Hmul. exfalso.
    assert (Z.pos m * 7036874417766400 < 2 ^ 53 * 7036874417766400) by lia.
    assert (2 ^ 52 * 2 ^ 54 <= Z.pos m3 * 2 ^ 54) by lia.
    lia. }
  assert (HK3' : 2 ^ k3 <= 2 ^ 53) by (apply Z.pow_le_mono_r; lia).
  set (e3 := dc - 53 - (da - 53) - 53 + k + -46 + k3).
  assert (He3 : e3 < 0) by (unfold e3; lia).
  unfold Math_round. destruct (Z.leb_spec 0 e3) as [Hge | _]; [lia |].
  cbv zeta.
  set (n := (2 * Z.pos m3 + 2 ^ (- e3)) / (2 * 2 ^ (- e3))).
  exists n. split.
  - destruct (Z.eqb_spec n 0) as [-> | _]; reflexivity.
  - pose proof (pow2_pos (- e3) ltac:(lia)) as HT.
    pose proof (pow2_pos (53 - da) ltac:(lia)) as HA.
    pose proof (pow2_pos (53 - dc) ltac:(lia)) as HC.
    apply (accuracy_arithmetic attempted correct (Z.pos m) (Z.pos m3) n
             (2 ^ (53 - da)) (2 ^ (53 - dc)) (2 ^ k) (2 ^ k3) (2 ^ (- e3)));
      try lia.
    rewrite <- !pow2_split by lia. f_equal. unfold e3. lia.
Qed.

(** ** The accuracy figure *)

Lemma accuracy_spec_nearest (attempted correct k : Z) :
  0 < attempted ->
  - attempted <= 2 * (k * attempted - 100 * correct) <= attempted ->
  k = accuracy_spec attempted correct \/
  k = accuracy_spec attempted correct - 1 /\
  200 * correct = (2 * k + 1) * attempted.
Proof.
  intros Ha Hk. unfold accuracy_spec, round_half_up.
  destruct (Z.ltb_spec 0 attempted) as [_ | Hle]; [| lia].
  set (q := (2 * (100 * correct) + attempted) / (2 * attempted)).
  assert (Hq : 2 * attempted * q <= 2 * (100 * correct) + attempted
               < 2 * attempted * (q + 1)).
  { unfold q. split.
    - apply Z.mul_div_le. lia.
    - apply Z.mul_succ_div_gt. lia. }
  assert (Hcases : q = k \/ q = k + 1) by nia.
  destruct Hcases as [-> | ->]; [now left | right]. split; nia.
Qed.

(** What binary64 arithmetic delivers.  For an attempted count below
    2^53 and a correct count below 2^44, the accuracy figure is an
    integer; it is 0 when nothing was attempted; otherwise it lies
    within one half of [100 * correct / attempted], so it is the figure
    of the specification, [accuracy_spec], unless that ratio is exactly
    halfway between two integers, where it may be one less. *)
Theorem accuracy_is_a_nearest_integer (attempted correct : Z) :
  0 <= attempted < 2 ^ 53 ->
  0 <= correct < 2 ^ 44 ->
  (exists k : Z,
      accuracy (userWithStats attempted correct) = number_of_Z k /\
      (attempted = 0 -> k = 0) /\
      (0 < attempted ->
       - attempted <= 2 * (k * attempted - 100 * correct) <= attempted /\
       (k = accuracy_spec attempted correct \/
        k = accuracy_spec attempted correct - 1 /\
        200 * correct = (2 * k + 1) * attempted))) /\
  accuracy (userWithStats 0 correct) = number_of_Z 0 /\
  accuracy (userWithStats 50 35) = number_of_Z 70.
Proof.
  intros Ha Hc. split; [| split; [reflexivity | vm_compute; reflexivity]].
  unfold accuracy, userWithStats. cbn [User.stats Stats.totalAttempted Stats.totalCorrect].
  destruct (Z.eq_dec attempted 0) as [-> | Ha0].
  - exists 0. split; [reflexivity | split; [reflexivity | lia]].
  - assert (Hgt : number_gt (number_of_Z attempted) (number_of_Z 0) = true).
    { destruct (number_of_Z_exact attempted ltac:(lia)) as (ma & -> & _).
      reflexivity. }
    rewrite Hgt.
    destruct (Z.eq_dec correct 0) as [-> | Hc0].
    + exists 0. split; [| split; [lia |]].
      * destruct (number_of_Z_exact attempted ltac:(lia)) as (ma & -> & _).
        reflexivity.
      * intros _. split; [lia |]. apply accuracy_spec_nearest; lia.
    + destruct (accuracy_positive attempted correct ltac:(lia) ltac:(lia))
        as (k & Hk & Hnear).
      exists k. split; [exact Hk | split; [lia |]].
      intros _. split; [exact Hnear |]. apply accuracy_spec_nearest; lia.
Qed.

Lemma accuracy_is_a_nearest_integer_witness :
  0 <= 40 < 2 ^ 53 /\ 0 <= 23 < 2 ^ 44 /\
  exists k : Z,
    accuracy (userWithStats 40 23) = number_of_Z k /\
    - 40 <= 2 * (k * 40 - 100 * 23) <= 40.
Proof.
  split; [lia | split; [lia |]].
  destruct (accuracy_is_a_nearest_integer 40 23) as [(k & Hk & _ & Hnear) _];
    [lia | lia |].
  exists k. split; [exact Hk | apply Hnear; lia].
Defined.

(** C4.  The code misses the accuracy figure of the specification at
    23 correct answers out of 40: [100 * 23 / 40] is 57.5, which rounds
    to 58, but the code divides first, [23 / 40] is slightly below 0.575
    in binary64, [(23 / 40) * 100] is 57.49999999999999, and
    [Math.round] takes that to 57.  The two figures the specification
    names are met: 0 for nothing attempted and 70 for 35 out of 50. *)
Theorem C4_accuracy_misrounds_23_of_40 :
  accuracy (userWithStats 40 23) = number_of_Z 57 /\
  accuracy_spec 40 23 = 58 /\
  accuracy (userWithStats 40 23) <> number_of_Z (accuracy_spec 40 23) /\
  accuracy (userWithStats 0 0) = number_of_Z (accuracy_spec 0 0) /\
  accuracy (userWithStats 50 35) = number_of_Z (accuracy_spec 50 35) /\
  accuracy_spec 50 35 = 70.
Proof.
  split; [vm_compute; reflexivity | split; [reflexivity |]].
  split; [vm_compute; discriminate |].
  split; [reflexivity | split; [vm_compute; reflexivity | reflexivity]].
Qed.

Example accuracy_one_third : accuracy (userWithStats 3 1) = number_of_Z 33.
Proof. vm_compute. reflexivity. Qed.

Example accuracy_two_thirds : accuracy (userWithStats 3 2) = number_of_Z 67.
Proof. vm_compute. reflexivity. Qed.

Example accuracy_tie_rounded_up : accuracy (userWithStats 8 1) = number_of_Z 13.
Proof. vm_compute. reflexivity. Qed.

Example accuracy_tie_rounded_down_again :
  accuracy (userWithStats 200 29) = number_of_Z 14.
Proof. vm_compute. reflexivity. Qed.

(** * Further properties *)

(** ** Selecting the questions of a session *)

Lemma slice_from_start (A : Type) (l : list A) (n : Z) :
  slice l 0 n =
  firstn (if n <? 0
          then (List.length l - Z.to_nat (- n))%nat
          else Nat.min (Z.to_nat n) (List.length l)) l.
Proof.
  unfold slice. change (0 <? 0) with false. cbv iota.
  rewrite (Z.min_l 0) by lia. rewrite Z.sub_0_r. cbn [skipn Z.to_nat].
  change (skipn 0 l) with l.
  destruct (Z.ltb_spec n 0) as [Hneg | Hpos]; f_equal; lia.
Qed.

(** X1. Whatever integer [numQuestions] is, the session holds a prefix of
    the pool, never more than the pool has: the first [numQuestions]
    entries when that many exist, the whole pool when the count is
    larger, and for a negative count the pool without its last
    [-numQuestions] entries. *)
Theorem startQuiz_selects_a_prefix
  (pool : list Question.t) (config : Config.t) (now : Z) (st : State) :
  exists k : nat,
    currentQuiz (startQuiz pool config now st)
    = Some (Quiz.mk (firstn k pool) [] 0 now (Config.mode config)) /\
    List.length (firstn k pool) = k /\
    (k <= List.length pool)%nat /\
    (0 <= Config.numQuestions config ->
     k = Nat.min (Z.to_nat (Config.numQuestions config)) (List.length pool)) /\
    (Config.numQuestions config < 0 ->
     k = (List.length pool - Z.to_nat (- Config.numQuestions config))%nat).
Proof.
  unfold startQuiz. cbn [currentQuiz setPage setCurrentQuiz].
  rewrite slice_from_start.
  destruct (Z.ltb_spec (Config.numQuestions config) 0) as [Hneg | Hpos].
  - exists (List.length pool - Z.to_nat (- Config.numQuestions config))%nat.
    split; [reflexivity |]. split; [apply firstn_length_le; lia |].
    split; [lia |]. split; [lia | reflexivity].
  - exists (Nat.min (Z.to_nat (Config.numQuestions config)) (List.length pool)).
    split; [reflexivity |]. split; [apply firstn_length_le; lia |].
    split; [lia |]. split; [reflexivity | lia].
Qed.

(** ** What the quiz flow leaves alone *)

Lemma dispatch_total (ev : Event) (st : State) :
  exists st', dispatch ev st = Some st'.
Proof.
  unfold dispatch. destruct (onScreen st) eqn:Hon; [| now exists st].
  apply onScreen_true in Hon. destruct Hon as (_ & _ & Hq).
  destruct (currentQuestion st) as [q |] eqn:Hcq; [| congruence].
  destruct ev as [index |].
  - unfold handleAnswer. rewrite Hcq.
    destruct (showFeedback st); [now eexists |].
    destruct (index =? Question.correctAnswerIndex q); now eexists.
  - destruct (showFeedback st); [| now eexists].
    unfold handleNext. unfold currentQuestion in Hcq.
    destruct (currentQuiz st) as [quiz |]; [| discriminate].
    destruct (_ <? _); now eexists.
Qed.

Lemma quiz_frame_refl (st : State) : quiz_frame st st.
Proof.
  unfold quiz_frame. repeat split. now destruct (currentQuiz st).
Qed.

Lemma quiz_frame_trans (st1 st2 st3 : State) :
  quiz_frame st1 st2 -> quiz_frame st2 st3 -> quiz_frame st1 st3.
Proof.
  unfold quiz_frame.
  intros (H1 & H2 & H3 & H4 & H5 & H6 & H7 & Hq)
         (G1 & G2 & G3 & G4 & G5 & G6 & G7 & Gq).
  repeat split; try congruence.
  destruct (currentQuiz st1), (currentQuiz st2), (currentQuiz st3);
    try contradiction; try exact I.
  destruct Hq as (? & ? & ? & ?), Gq as (? & ? & ? & ?).
  repeat split; congruence.
Qed.

Lemma dispatch_frame (ev : Event) (st st' : State) :
  dispatch ev st = Some st' -> quiz_frame st st'.
Proof.
  unfold dispatch. destruct (onScreen st).
  - destruct ev as [index |].
    + unfold handleAnswer. destruct (showFeedback st).
      * intros [= <-]. apply quiz_frame_refl.
      * destruct (currentQuestion st) as [q |]; [| discriminate].
        destruct (index =? Question.correctAnswerIndex q); intros [= <-];
          unfold quiz_frame; cbn; repeat split;
          now destruct (currentQuiz st).
    + destruct (showFeedback st).
      * unfold handleNext. destruct (currentQuiz st) as [quiz |] eqn:Hq;
          [| discriminate].
        destruct (_ <? _); intros [= <-]; unfold quiz_frame; cbn; rewrite ?Hq;
          repeat split.
      * intros [= <-]. apply quiz_frame_refl.
  - intros [= <-]. apply quiz_frame_refl.
Qed.

Lemma run_frame (evs : list Event) (st st' : State) :
  run evs st = Some st' -> quiz_frame st st'.
Proof.
  revert st. induction evs as [| ev evs IH]; intros st Hrun; cbn [run] in Hrun.
  - injection Hrun as <-. apply quiz_frame_refl.
  - destruct (dispatch ev st) as [st1 |] eqn:Hd; [| discriminate].
    apply (quiz_frame_trans st st1 st').
    + now apply (dispatch_frame ev).
    + now apply IH.
Qed.

(** X2. No sequence of clicks on the quiz view records anything: the
    answers list of the stored quiz stays as it was (empty for a session
    opened by [startQuiz]), its questions, start time and mode are kept,
    and the user with the statistics and history, the question
    repository and the user table are untouched.  Only the position, the
    page, the two hooks of the view and the notifications change. *)
Theorem quiz_clicks_record_nothing (evs : list Event) (st st' : State) :
  run evs st = Some st' ->
  quiz_frame st st'.
Proof. exact (run_frame evs st st'). Qed.

Lemma quiz_clicks_record_nothing_witness :
  let s0 := startSession initialQuestions (Config.mk 3 practice) 0 demoState in
  exists s : State,
    run (answerAll [0; 3; 0]) s0 = Some s /\ quiz_frame s0 s.
Proof.
  intros s0.
  destruct (run (answerAll [0; 3; 0]) s0) as [s |] eqn:Hrun;
    [| vm_compute in Hrun; discriminate Hrun].
  exists s. split; [reflexivity |].
  exact (quiz_clicks_record_nothing (answerAll [0; 3; 0]) s0 s Hrun).
Defined.

(** ** A complete run *)

(** Answering from position [length done] to the end. *)
Lemma answerAll_from (rest : list Question.t) :
  forall (done : list Question.t) (answers : list Z) (st : State) (quiz : Quiz.t),
    rest <> [] ->
    List.length answers = List.length rest ->
    user st <> None -> page st = taking_quiz -> showFeedback st = false ->
    currentQuiz st = Some quiz ->
    Quiz.questions quiz = done ++ rest ->
    Quiz.currentIndex quiz = Z.of_nat (List.length done) ->
    exists st',
      run (answerAll answers) st = Some st' /\
      page st' = dashboard /\
      effects st' = effects st
                    ++ map (fun qa => feedbackToast (fst qa) (snd qa))
                         (combine rest answers)
                    ++ [confetti] /\
      sessionIndex st' = Z.of_nat (List.length (done ++ rest)) - 1.
Proof.
  induction rest as [| q rest IH]; intros done answers st quiz Hne Hlen Hu Hp Hf Hq Hqs Hi;
    [congruence |].
  destruct answers as [| a answers]; [discriminate Hlen |].
  cbn [answerAll run].
  assert (Hcq : currentQuestion st = Some q).
  { unfold currentQuestion, array_get. rewrite Hq, Hqs, Hi.
    destruct (Z.ltb_spec (Z.of_nat (List.length done)) 0); [lia |].
    rewrite Nat2Z.id, nth_error_app2 by lia. now rewrite Nat.sub_diag. }
  assert (Hon : onScreen st = true)
    by (apply onScreen_true; repeat split; congruence).
  unfold dispatch at 1. rewrite Hon.
  rewrite (handleAnswer_awaiting a st q Hf Hcq). fold (feedbackToast q a).
  set (st1 := perform (feedbackToast q a)
                (setShowFeedback true (setSelectedOption (Some a) st))).
  assert (Hcq1 : currentQuestion st1 = Some q) by exact Hcq.
  assert (Hon1 : onScreen st1 = true).
  { apply onScreen_true. split; [exact Hu | split; [exact Hp | congruence]]. }
  unfold dispatch at 1. rewrite Hon1.
  change (showFeedback st1) with true. cbv iota.
  unfold handleNext. change (currentQuiz st1) with (currentQuiz st).
  rewrite Hq, Hqs, Hi, length_app. cbn [List.length].
  destruct rest as [| q' rest].
  - match goal with |- context [?x <? ?y] =>
      destruct (Z.ltb_spec x y) as [Hlt | _] end; [cbn in Hlt; lia |].
    destruct answers; [| discriminate Hlen].
    cbn [answerAll run combine map]. eexists. split; [reflexivity |].
    split; [reflexivity |]. split.
    + cbn. now rewrite <- app_assoc.
    + unfold sessionIndex.
      change (currentQuiz (setPage dashboard (fireConfetti st1)))
        with (currentQuiz st).
      rewrite Hq, Hi. cbn [List.length]. lia.
  - match goal with |- context [?x <? ?y] =>
      destruct (Z.ltb_spec x y) as [_ | Hge] end; [| cbn in Hge; lia].
    set (quiz' := Quiz.set_currentIndex (Z.of_nat (List.length done) + 1) quiz).
    set (st2 := setShowFeedback false (setSelectedOption None
                  (setCurrentQuiz (Some quiz') st1))).
    destruct (IH (done ++ [q]) answers st2 quiz') as (st' & Hrun & Hp' & He' & Hi');
      try reflexivity; try assumption.
    + discriminate.
    + cbn in Hlen |- *. lia.
    + cbn. rewrite Hqs, <- app_assoc. reflexivity.
    + cbn. rewrite length_app. cbn. lia.
    + exists st'. split; [exact Hrun |]. split; [exact Hp' |]. split.
      * rewrite He'. cbn [combine map]. cbn [effects st2 setShowFeedback
          setSelectedOption setCurrentQuiz]. unfold st1. cbn [effects perform
          setShowFeedback setSelectedOption]. rewrite <- !app_assoc. reflexivity.
      * rewrite Hi', !length_app. cbn [List.length]. lia.
Qed.

(** X3. Working through a non-empty session, one option per question and
    [Next] after each, emits exactly one notification per question, in
    order ("Correct!" where the option is the question's correct index,
    "Incorrect!" elsewhere), then fires the confetti once and ends on the
    dashboard with the index on the last question. *)
Theorem complete_run_notifies_each_answer
  (pool : list Question.t) (config : Config.t) (now : Z) (st0 : State)
  (answers : list Z) :
  user st0 <> None ->
  slice pool 0 (Config.numQuestions config) <> [] ->
  List.length answers = List.length (slice pool 0 (Config.numQuestions config)) ->
  exists s : State,
    run (answerAll answers) (startSession pool config now st0) = Some s /\
    page s = dashboard /\
    effects s = effects st0
                ++ map (fun qa => feedbackToast (fst qa) (snd qa))
                     (combine (slice pool 0 (Config.numQuestions config)) answers)
                ++ [confetti] /\
    sessionIndex s = sessionLength s - 1.
Proof.
  intros Hu Hne Hlen.
  destruct (answerAll_from (slice pool 0 (Config.numQuestions config)) []
              answers (startSession pool config now st0)
              (Quiz.mk (slice pool 0 (Config.numQuestions config)) [] 0 now
                 (Config.mode config)))
    as (s & Hrun & Hp & He & Hi); try reflexivity; try assumption.
  exists s. split; [exact Hrun |]. split; [exact Hp |]. split; [exact He |].
  rewrite Hi. cbn [List.app].
  pose proof (run_frame _ _ _ Hrun) as Hframe.
  unfold quiz_frame in Hframe.
  destruct Hframe as (_ & _ & _ & _ & _ & _ & _ & Hq).
  unfold sessionLength. cbn in Hq.
  destruct (currentQuiz s) as [quiz' |]; [| contradiction].
  destruct Hq as (-> & _). reflexivity.
Qed.

Lemma complete_run_notifies_each_answer_witness :
  user demoState <> None /\
  slice initialQuestions 0 3 <> [] /\
  exists s : State,
    run (answerAll [0; 3; 0])
      (startSession initialQuestions (Config.mk 3 practice) 0 demoState) = Some s /\
    page s = dashboard /\
    effects s = effects demoState
                ++ [toast_success "Correct!"; toast_error "Incorrect!";
                    toast_success "Correct!"]
                ++ [confetti].
Proof.
  split; [discriminate | split; [discriminate |]].
  destruct (complete_run_notifies_each_answer initialQuestions
              (Config.mk 3 practice) 0 demoState [0; 3; 0])
    as (s & Hrun & Hp & He & _); [discriminate | discriminate | reflexivity |].
  exists s. split; [exact Hrun | split; [exact Hp | exact He]].
Defined.

(** ** The question repository *)

Lemma filter_by_id_app (id : Z) (l1 l2 : list QuestionEntry) :
  filter_by_id id (l1 ++ l2) =
  match filter_by_id id l1, filter_by_id id l2 with
  | Some k1, Some k2 => Some (k1 ++ k2)
  | _, _ => None
  end.
Proof.
  induction l1 as [| e l1 IH]; cbn [List.app filter_by_id].
  - destruct (filter_by_id id l2); reflexivity.
  - destruct (id_differs id e) as [keep |]; [| reflexivity].
    rewrite IH. destruct (filter_by_id id l1), (filter_by_id id l2);
      try reflexivity. now destruct keep.
Qed.

Lemma filter_by_id_unused (id : Z) (l : list QuestionEntry) :
  idUnused id l -> filter_by_id id l = Some l.
Proof.
  induction 1 as [| e l He _ IH]; cbn [filter_by_id]; [reflexivity |].
  now rewrite He, IH.
Qed.

(** *** Numbers read by [JSON.parse] are never [NaN] *)

Lemma shr_1_nonneg (mrs : shr_record) :
  0 <= shr_m mrs -> 0 <= shr_m (shr_1 mrs).
Proof.
  destruct mrs as [m r s]. cbn [shr_m shr_1].
  destruct m as [| [p | p |] | p]; cbn [shr_m]; lia.
Qed.

Lemma iter_shr_1_nonneg (p : positive) :
  forall mrs : shr_record,
    0 <= shr_m mrs -> 0 <= shr_m (iter_pos shr_1 p mrs).
Proof.
  induction p as [p IH | p IH |]; intros mrs Hm; cbn [iter_pos].
  - now apply IH, IH, shr_1_nonneg.
  - now apply IH, IH.
  - now apply shr_1_nonneg.
Qed.

Lemma shr_fexp_nonneg (m e : Z) (l : location) :
  0 <= m -> 0 <= shr_m (fst (shr_fexp prec emax m e l)).
Proof.
  intros Hm. unfold shr_fexp, shr.
  assert (H0 : 0 <= shr_m (shr_record_of_loc m l))
    by (destruct l as [| []]; exact Hm).
  destruct (fexp prec emax (Zdigits2 m + e) - e) as [| p | p]; cbn [fst];
    [exact H0 | now apply iter_shr_1_nonneg | exact H0].
Qed.

Lemma round_nearest_even_nonneg (m : Z) (l : location) :
  0 <= m -> 0 <= round_nearest_even m l.
Proof.
  intros Hm. destruct l as [| []]; cbn [round_nearest_even]; try lia.
  destruct (Z.even m); lia.
Qed.

Lemma binary_round_aux_not_nan (sx : bool) (mx ex : Z) (lx : location) :
  0 <= mx -> binary_round_aux prec emax sx mx ex lx <> S754_nan.
Proof.
  intros Hm. unfold binary_round_aux.
  pose proof (shr_fexp_nonneg mx ex lx Hm) as H1.
  destruct (shr_fexp prec emax mx ex lx) as [mrs' e']. cbn [fst] in H1.
  pose proof (shr_fexp_nonneg _ e' loc_Exact
                (round_nearest_even_nonneg _ (loc_of_shr_record mrs') H1)) as H2.
  destruct (shr_fexp prec emax _ e' loc_Exact) as [mrs'' e'']. cbn [fst] in H2.
  destruct (shr_m mrs'') as [| m | m]; [discriminate | | lia].
  destruct (e'' <=? emax - prec); discriminate.
Qed.

Lemma number_of_Z_not_nan (n : Z) : number_of_Z n <> S754_nan.
Proof.
  unfold number_of_Z, binary_normalize.
  destruct n as [| m | m]; [discriminate | |]; unfold binary_round;
    destruct (shl_align _ _ _) as [mz ez]; now apply binary_round_aux_not_nan.
Qed.



(** *** [q.id] and [===] *)

Example decode_units_utf8 :
  decode_units (bytes [195; 169]%N) = [233]%N /\
  decode_units "\u00e9" = [233]%N /\
  decode_units (bytes [226; 130; 172]%N) = [8364]%N /\
  decode_units (bytes [240; 159; 152; 128]%N) = [55357; 56832]%N /\
  decode_units "\ud83d\ude00" = [55357; 56832]%N /\
  decode_units "a\nb" = [97; 10; 98]%N.
Proof. repeat split; vm_compute; reflexivity. Qed.

Lemma rowId_none (row : nat) (e : QuestionEntry) :
  rowId row e = None <-> e = Imported JNull.
Proof.
  split.
  - destruct e as [q | [| b | l | s | items | members]]; cbn; try discriminate;
      [reflexivity |].
    destruct (member_id members) as [[| | | | |] |]; discriminate.
  - now intros ->.
Qed.



Lemma id_differs_rowId (row : nat) (id : Z) (e : QuestionEntry) :
  id_differs id e
  = match rowId row e with
    | Some v => Some (negb (strict_equal v (id_integer id)))
    | None => None
    end.
Proof.
  destruct e as [q | [| b | l | s | items | members]]; cbn; try reflexivity.
  destruct (member_id members) as [[| | | | |] |]; reflexivity.
Qed.

Lemma filter_rows_integer (id : Z) (l : list QuestionEntry) :
  forall row : nat, filter_rows row (id_integer id) l = filter_by_id id l.
Proof.
  induction l as [| e l IH]; intros row; cbn [filter_rows filter_by_id];
    [reflexivity |].
  rewrite (id_differs_rowId row id e), IH.
  destruct (rowId row e) as [v |]; [| reflexivity].
  destruct (filter_by_id id l); [| reflexivity].
  now destruct (strict_equal v (id_integer id)).
Qed.

Lemma deleteQuestion_integer (id : Z) (st : State) :
  deleteQuestion (id_integer id) st
  = match filter_by_id id (questions st) with
    | Some kept =>
        rendered (perform (toast_error "Question deleted!")
                    (setQuestions (fun _ => kept) st))
    | None => unmounted (effects st ++ [toast_error "Question deleted!"])
    end.
Proof. unfold deleteQuestion. now rewrite filter_rows_integer. Qed.




Example deleteButton_on_each_kind_of_row :
  questionsAfter (deleteButton 0 mixedState) = Some (dropRows [0; 1]%nat mixedRows) /\
  questionsAfter (deleteButton 1 mixedState) = Some (dropRows [0; 1]%nat mixedRows) /\
  questionsAfter (deleteButton 2 mixedState) = Some (dropRows [2]%nat mixedRows) /\
  questionsAfter (deleteButton 3 mixedState) = Some (dropRows [3]%nat mixedRows) /\
  questionsAfter (deleteButton 4 mixedState) = Some (dropRows [4; 8]%nat mixedRows) /\
  questionsAfter (deleteButton 5 mixedState) = Some (dropRows [5]%nat mixedRows) /\
  questionsAfter (deleteButton 6 mixedState) = Some (dropRows [6]%nat mixedRows) /\
  questionsAfter (deleteButton 7 mixedState) = Some (dropRows [7]%nat mixedRows) /\
  questionsAfter (deleteButton 8 mixedState) = Some (dropRows [4; 8]%nat mixedRows) /\
  questionsAfter (deleteButton 9 mixedState) = Some mixedRows /\
  deleteQuestion id_undefined
    (setQuestions (fun prev => prev ++ [Imported JNull]) mixedState)
  = unmounted (effects mixedState ++ [toast_error "Question deleted!"]).
Proof. repeat split; vm_compute; reflexivity. Qed.


(** X6. Adding a question and then deleting the id it was given restores
    the repository, provided no entry carried that id before (and the
    repository holds no imported [null]). *)
Theorem delete_after_add_restores (question : Question.t) (now : Z) (st : State) :
  idUnused now (questions st) ->
  exists st' : State,
    deleteQuestion (id_integer now) (addQuestion question now st) = rendered st' /\
    questions st' = questions st /\
    effects st' = effects st ++ [toast_success "Question added successfully!";
                                 toast_error "Question deleted!"].
Proof.
  intros Hun. rewrite deleteQuestion_integer. unfold addQuestion.
  cbn [questions perform setQuestions].
  rewrite filter_by_id_app, (filter_by_id_unused now _ Hun).
  cbn [filter_by_id id_differs withId Question.id]. rewrite Z.eqb_refl.
  cbn [negb]. eexists. split; [reflexivity |]. cbn.
  split; [apply app_nil_r | now rewrite <- app_assoc].
Qed.

Lemma delete_after_add_restores_witness :
  idUnused 1700000000000 (questions initialState) /\
  exists st' : State,
    deleteQuestion (id_integer 1700000000000)
      (addQuestion sampleQuestion 1700000000000
         initialState) = rendered st' /\
    questions st' = questions initialState.
Proof.
  assert (Hun : idUnused 1700000000000 (questions initialState))
    by (repeat constructor).
  split; [exact Hun |].
  destruct (delete_after_add_restores sampleQuestion
              1700000000000 initialState Hun) as (st' & Hd & Hq & _).
  exists st'. split; [exact Hd | exact Hq].
Defined.

(** X7. The id of a new question is the clock reading, so two questions
    added at the same reading share their id: one deletion of that id
    removes both. *)
Theorem questions_added_at_once_are_deleted_together
  (q1 q2 : Question.t) (now : Z) (st : State) :
  idUnused now (questions st) ->
  typedQuestions (questions (addQuestion q2 now (addQuestion q1 now st)))
  = typedQuestions (questions st) ++ [withId now q1; withId now q2] /\
  exists st' : State,
    deleteQuestion (id_integer now) (addQuestion q2 now (addQuestion q1 now st))
    = rendered st' /\
    questions st' = questions st.
Proof.
  intros Hun. rewrite deleteQuestion_integer. unfold addQuestion.
  cbn [questions perform setQuestions]. split.
  - unfold typedQuestions. rewrite !flat_map_app. cbn. now rewrite <- app_assoc.
  - rewrite !filter_by_id_app, (filter_by_id_unused now _ Hun).
    cbn [filter_by_id id_differs withId Question.id]. rewrite Z.eqb_refl.
    cbn [negb]. eexists. split; [reflexivity |]. cbn. now rewrite !app_nil_r.
Qed.

Lemma questions_added_at_once_are_deleted_together_witness :
  idUnused 1700000000000 (questions initialState) /\
  exists st' : State,
    deleteQuestion (id_integer 1700000000000)
      (addQuestion (withId 7 sampleQuestion) 1700000000000
         (addQuestion sampleQuestion 1700000000000
            initialState)) = rendered st' /\
    questions st' = questions initialState.
Proof.
  assert (Hun : idUnused 1700000000000 (questions initialState))
    by (repeat constructor).
  split; [exact Hun |].
  exact (proj2 (questions_added_at_once_are_deleted_together
                  sampleQuestion
                  (withId 7 sampleQuestion)
                  1700000000000 initialState Hun)).
Defined.

(** X8. Imports only ever append: after any series of imports the
    repository is what it was, followed by the items of each text that
    parsed to an array, in the order of the imports; texts that did not
    contribute nothing; each import emits exactly one notification, and
    user, page and stored quiz are left alone. *)
Theorem imports_append_in_order (jsonStrings : list string) (st : State) :
  questions (importAll jsonStrings st)
  = questions st ++ flat_map importedItems jsonStrings /\
  List.length (effects (importAll jsonStrings st))
  = (List.length (effects st) + List.length jsonStrings)%nat /\
  user (importAll jsonStrings st) = user st /\
  page (importAll jsonStrings st) = page st /\
  currentQuiz (importAll jsonStrings st) = currentQuiz st.
Proof.
  unfold importAll. revert st.
  induction jsonStrings as [| j js IH]; intros st; cbn [fold_left flat_map].
  - rewrite app_nil_r. repeat split. cbn. lia.
  - destruct (IH (handleJsonImport j st)) as (Hq & He & Hu & Hp & Hc).
    rewrite Hq, He, Hu, Hp, Hc.
    assert (Hone : questions (handleJsonImport j st)
                   = questions st ++ importedItems j /\
                   List.length (effects (handleJsonImport j st))
                   = S (List.length (effects st)) /\
                   user (handleJsonImport j st) = user st /\
                   page (handleJsonImport j st) = page st /\
                   currentQuiz (handleJsonImport j st) = currentQuiz st).
    { unfold handleJsonImport, importedItems.
      destruct (JSON_parse j) as [[| | | | items |] |];
        cbn; rewrite ?app_nil_r, ?length_app; cbn; repeat split; lia. }
    destruct Hone as (-> & -> & -> & -> & ->).
    rewrite <- app_assoc. repeat split. cbn. lia.
Qed.

(** ** The user table *)

Lemma update_map_id (userId : Z) (status : SubscriptionStatus)
  (date : option string) (A : Type) (f : Account.t -> A) (l : list Account.t) :
  (forall u, f (withSubscription status date u) = f u) ->
  map f (map (fun u => if Account.id u =? userId
                       then withSubscription status date u else u) l)
  = map f l.
Proof.
  intros Hf. rewrite map_map. apply map_ext. intros u.
  destruct (Account.id u =? userId); [apply Hf | reflexivity].
Qed.

(** X9. [updateUserSubscription], called with a safe integer as id (at
    most 2^53 in absolute value, which JavaScript prints digit by digit),
    rewrites the status and end date of every account with the given id
    and nothing else: the table keeps its length and order, every account
    keeps its id, name, email and role, accounts with another id are kept
    as they are, and the logged-in user is not touched.  It always
    reports success. *)
Theorem updateUserSubscription_frame
  (userId : Z) (status : SubscriptionStatus) (date : option string) (st : State) :
  Z.abs userId <= 2 ^ 53 ->
  let st' := updateUserSubscription userId status date st in
  map Account.id (allUsers st') = map Account.id (allUsers st) /\
  map Account.name (allUsers st') = map Account.name (allUsers st) /\
  map Account.email (allUsers st') = map Account.email (allUsers st) /\
  map Account.role (allUsers st') = map Account.role (allUsers st) /\
  (forall u, In u (allUsers st') -> Account.id u = userId ->
             Account.subscriptionStatus u = status /\
             Account.subscriptionEndDate u = date) /\
  (forall u, Account.id u <> userId ->
             (In u (allUsers st') <-> In u (allUsers st))) /\
  user st' = user st /\
  effects st' = effects st
                ++ [toast_success ("Updated subscription for user " ++ decimalZ userId)].
Proof.
  intros _ st'. subst st'. unfold updateUserSubscription.
  cbn [allUsers user effects perform setAllUsers].
  do 4 (split; [apply update_map_id; reflexivity |]).
  split; [| split; [| split; reflexivity]].
  - intros u Hin Hid. apply in_map_iff in Hin. destruct Hin as (v & Hv & _).
    destruct (Z.eqb_spec (Account.id v) userId) as [_ | Hne].
    + subst u. split; reflexivity.
    + subst u. contradiction.
  - intros u Hid. split.
    + intros Hin. apply in_map_iff in Hin. destruct Hin as (v & Hv & Hin).
      destruct (Z.eqb_spec (Account.id v) userId) as [Heq | Hne].
      * subst u. cbn in Hid. contradiction.
      * now subst u.
    + intros Hin. apply in_map_iff. exists u. split; [| exact Hin].
      destruct (Z.eqb_spec (Account.id u) userId); [contradiction | reflexivity].
Qed.

Lemma updateUserSubscription_frame_witness :
  Z.abs 102 <= 2 ^ 53 /\
  map Account.id
    (allUsers (updateUserSubscription 102 ACTIVE None (adminOn admin_users)))
  = [101; 102; 103] /\
  effects (updateUserSubscription 102 ACTIVE None (adminOn admin_users))
  = effects (adminOn admin_users)
    ++ [toast_success "Updated subscription for user 102"].
Proof.
  assert (Hid : Z.abs 102 <= 2 ^ 53) by (cbn; lia).
  split; [exact Hid |].
  destruct (updateUserSubscription_frame 102 ACTIVE None (adminOn admin_users) Hid)
    as (Hids & _ & _ & _ & _ & _ & _ & Heff).
  split; [exact Hids | exact Heff].
Defined.

(** X10. For a safe integer that no account carries as id,
    [updateUserSubscription] leaves the table exactly as it was, and
    still reports success. *)
Theorem updateUserSubscription_unknown_id
  (userId : Z) (status : SubscriptionStatus) (date : option string) (st : State) :
  Z.abs userId <= 2 ^ 53 ->
  ~ In userId (map Account.id (allUsers st)) ->
  allUsers (updateUserSubscription userId status date st) = allUsers st /\
  effects (updateUserSubscription userId status date st)
  = effects st
    ++ [toast_success ("Updated subscription for user " ++ decimalZ userId)].
Proof.
  intros _ Hnot. split; [| reflexivity].
  unfold updateUserSubscription. cbn [allUsers perform setAllUsers].
  rewrite <- (map_id (allUsers st)) at 2. apply map_ext_in. intros u Hu.
  destruct (Z.eqb_spec (Account.id u) userId) as [Heq | _]; [| reflexivity].
  exfalso. apply Hnot. rewrite <- Heq. now apply in_map.
Qed.

Lemma updateUserSubscription_unknown_id_witness :
  Z.abs 999 <= 2 ^ 53 /\
  ~ In 999 (map Account.id (allUsers (adminOn admin_users))) /\
  allUsers (updateUserSubscription 999 EXPIRED None (adminOn admin_users))
  = initialUsers /\
  effects (updateUserSubscription 999 EXPIRED None (adminOn admin_users))
  = effects (adminOn admin_users)
    ++ [toast_success "Updated subscription for user 999"].
Proof.
  assert (Hid : Z.abs 999 <= 2 ^ 53) by (cbn; lia).
  assert (Hnot : ~ In 999 (map Account.id (allUsers (adminOn admin_users))))
    by (cbn; intuition discriminate).
  split; [exact Hid | split; [exact Hnot |]].
  exact (updateUserSubscription_unknown_id 999 EXPIRED None
           (adminOn admin_users) Hid Hnot).
Defined.

(** X11. Updates of the user table compose as writes do: of two updates
    for the same id the later one decides, and updates for different ids
    can be exchanged. *)
Theorem updateUserSubscription_composes
  (i j : Z) (s1 s2 : SubscriptionStatus) (d1 d2 : option string) (st : State) :
  allUsers (updateUserSubscription i s2 d2 (updateUserSubscription i s1 d1 st))
  = allUsers (updateUserSubscription i s2 d2 st) /\
  (i <> j ->
   allUsers (updateUserSubscription i s1 d1 (updateUserSubscription j s2 d2 st))
   = allUsers (updateUserSubscription j s2 d2 (updateUserSubscription i s1 d1 st))).
Proof.
  unfold updateUserSubscription. cbn [allUsers perform setAllUsers]. split.
  - rewrite map_map. apply map_ext. intros u.
    destruct (Z.eqb_spec (Account.id u) i) as [Heq | Hne].
    + cbn [withSubscription Account.id]. rewrite Heq, Z.eqb_refl. reflexivity.
    + destruct (Z.eqb_spec (Account.id u) i); [contradiction | reflexivity].
  - intros Hij. rewrite !map_map. apply map_ext. intros u.
    destruct (Z.eqb_spec (Account.id u) j) as [Hj | Hj];
      destruct (Z.eqb_spec (Account.id u) i) as [Hi | Hi];
      cbn [withSubscription Account.id];
      try (exfalso; congruence);
      repeat match goal with
             | |- context [?x =? ?y] => destruct (Z.eqb_spec x y)
             end; try reflexivity; try contradiction; congruence.
Qed.

Lemma updateUserSubscription_composes_witness :
  101 <> 102 /\
  allUsers (updateUserSubscription 101 ACTIVE (Some "2026-01-01"%string)
              (updateUserSubscription 102 EXPIRED None initialState))
  = allUsers (updateUserSubscription 102 EXPIRED None
                (updateUserSubscription 101 ACTIVE (Some "2026-01-01"%string) initialState)).
Proof.
  split; [discriminate |].
  apply (updateUserSubscription_composes 101 102 ACTIVE EXPIRED
           (Some "2026-01-01"%string) None initialState).
  discriminate.
Defined.

(** ** The theme *)

Lemma toggleTheme_theme (b : Browser) :
  theme (appState (toggleTheme b))
  = (if String.eqb (theme (appState b)) "light" then "dark" else "light")%string /\
  storedTheme (toggleTheme b) = Some (theme (appState (toggleTheme b))) /\
  darkClass (toggleTheme b) = String.eqb (theme (appState (toggleTheme b))) "dark" /\
  List.length (effects (appState (toggleTheme b)))
  = S (List.length (effects (appState b))).
Proof.
  unfold toggleTheme. cbn [appState storedTheme darkClass theme effects perform setTheme].
  repeat split. rewrite length_app. cbn. lia.
Qed.

(** X12. After any positive number of clicks on the theme button the
    theme is "light" or "dark", the saved preference is that theme and
    the document carries the [dark] class exactly for "dark"; each click
    emits one notification.  Starting from "light" an odd number of
    clicks gives "dark" and an even number "light"; any other starting
    theme behaves like "dark", so that a theme that is neither is never
    returned to. *)
Theorem toggleThemes_state (n : nat) (b : Browser) :
  (0 < n)%nat ->
  let b' := toggleThemes n b in
  theme (appState b')
  = (if Bool.eqb (Nat.odd n) (String.eqb (theme (appState b)) "light")
     then "dark" else "light")%string /\
  storedTheme b' = Some (theme (appState b')) /\
  darkClass b' = String.eqb (theme (appState b')) "dark" /\
  List.length (effects (appState b'))
  = (List.length (effects (appState b)) + n)%nat.
Proof.
  intros Hn. cbv zeta. destruct n as [| n]; [lia |]. clear Hn.
  induction n as [| n IH].
  - cbn [toggleThemes]. destruct (toggleTheme_theme b) as (Ht & Hs & Hd & He).
    rewrite Hs, Hd, He, Ht. change (Nat.odd 1) with true.
    destruct (String.eqb (theme (appState b)) "light"); repeat split; lia.
  - destruct IH as (Ht & Hs & Hd & He).
    change (toggleThemes (S (S n)) b) with (toggleTheme (toggleThemes (S n) b)).
    destruct (toggleTheme_theme (toggleThemes (S n) b)) as (Ht' & Hs' & Hd' & He').
    rewrite Hs', Hd', He', Ht', Ht, He.
    rewrite (Nat.odd_succ (S n)), <- Nat.negb_odd.
    destruct (Nat.odd (S n)), (String.eqb (theme (appState b)) "light");
      cbn; repeat split; lia.
Qed.

Lemma toggleThemes_state_witness :
  (0 < 3)%nat /\
  theme (appState (toggleThemes 3 (mkBrowser initialState None false))) = "dark"%string /\
  storedTheme (toggleThemes 3 (mkBrowser initialState None false)) = Some "dark"%string.
Proof.
  split; [lia |].
  destruct (toggleThemes_state 3 (mkBrowser initialState None false))
    as (Ht & Hs & _); [lia |].
  split; [exact Ht |]. rewrite Hs, Ht. reflexivity.
Defined.

Lemma loadPage_saved (saved : string) (servedDark : bool) :
  saved <> EmptyString ->
  theme (appState (loadPage (Some saved) servedDark)) = saved /\
  darkClass (loadPage (Some saved) servedDark) = String.eqb saved "dark" /\
  storedTheme (loadPage (Some saved) servedDark) = Some saved /\
  isClient (appState (loadPage (Some saved) servedDark)) = true.
Proof.
  intros Hne. unfold loadPage, themeEffect, clientEffect, onApp.
  cbn [appState storedTheme darkClass isClient initialState setIsClient].
  destruct (String.eqb_spec saved EmptyString) as [Heq | _]; [contradiction |].
  repeat split.
Qed.

(** X13. The theme survives a reload: after a click on the theme button,
    loading the page again (whatever class the served document carries)
    restores the theme and the [dark] class the click left, from the
    saved preference.  A first visit, with nothing saved, shows "light"
    and leaves the class of the served document alone, and so does an
    empty saved value. *)
Theorem theme_survives_reload (b : Browser) (servedDark : bool) :
  let b1 := toggleTheme b in
  let b2 := loadPage (storedTheme b1) servedDark in
  theme (appState b2) = theme (appState b1) /\
  darkClass b2 = darkClass b1 /\
  storedTheme b2 = storedTheme b1 /\
  isClient (appState b2) = true /\
  theme (appState (loadPage None servedDark)) = "light"%string /\
  darkClass (loadPage None servedDark) = servedDark /\
  theme (appState (loadPage (Some EmptyString) servedDark)) = "light"%string /\
  darkClass (loadPage (Some EmptyString) servedDark) = servedDark.
Proof.
  cbv zeta. destruct (toggleTheme_theme b) as (Ht & Hs & Hd & _).
  rewrite Hs, Hd.
  assert (Hne : theme (appState (toggleTheme b)) <> EmptyString).
  { rewrite Ht. destruct (String.eqb (theme (appState b)) "light"); discriminate. }
  destruct (loadPage_saved _ servedDark Hne) as (H1 & H2 & H3 & H4).
  repeat split; assumption || reflexivity.
Qed.

(** ** Rendering *)

Lemma renderPage_page (st : State) :
  same_but_page st (fst (renderPage st)) /\
  (page (fst (renderPage st)) = page st \/
   page (fst (renderPage st)) = quiz_setup \/
   page (fst (renderPage st)) = dashboard).
Proof.
  unfold renderPage.
  destruct (user st); [| split; [repeat split | now left]].
  destruct (page st) eqn:Hp; try destruct (currentQuiz st);
    cbn [fst]; (split; [repeat split | ]); rewrite ?Hp; cbn [page setPage]; tauto.
Qed.

(** X14. Rendering settles after one redirect: [renderPage] changes
    nothing but the page, and the state it returns renders to a view
    without a further change; a rendering that returned a view changed
    nothing at all.  So the redirects of [renderPage] never loop. *)
Theorem renderPage_settles (st : State) :
  let st1 := fst (renderPage st) in
  same_but_page st st1 /\
  renderPage st1 = (st1, snd (renderPage st1)) /\
  snd (renderPage st1) <> null /\
  (snd (renderPage st) <> null -> st1 = st).
Proof.
  cbv zeta. split; [apply renderPage_page |].
  unfold renderPage.
  destruct (user st) as [u |] eqn:Hu.
  - destruct (page st) eqn:Hp; try destruct (currentQuiz st) eqn:Hq;
      cbn [fst snd user page currentQuiz setPage]; rewrite ?Hu, ?Hp, ?Hq;
      cbn [fst snd]; repeat split; try discriminate; try reflexivity;
      intros H; now contradiction H.
  - cbn [fst snd]. rewrite Hu. repeat split; discriminate.
Qed.

(** ** The interface as a whole *)

Lemma dispatch_page (ev : Event) (st st' : State) :
  dispatch ev st = Some st' -> page st' = page st \/ page st' = dashboard.
Proof.
  unfold dispatch. destruct (onScreen st); [| intros [= <-]; now left].
  destruct ev as [index |].
  - unfold handleAnswer. destruct (showFeedback st); [intros [= <-]; now left |].
    destruct (currentQuestion st) as [q |]; [| discriminate].
    destruct (index =? Question.correctAnswerIndex q); intros [= <-]; now left.
  - destruct (showFeedback st); [| intros [= <-]; now left].
    unfold handleNext. destruct (currentQuiz st); [| discriminate].
    destruct (_ <? _); intros [= <-]; [now left | now right].
Qed.

Lemma noAdminAccess_render (st : State) :
  noAdminAccess st -> noAdminAccess (fst (renderPage st)).
Proof.
  intros (Hrole & Hp1 & Hp2 & Hp3).
  destruct (renderPage_page st) as [(Hu & _) Hpage].
  unfold noAdminAccess. rewrite Hu. split; [exact Hrole |].
  destruct Hpage as [-> | [-> | ->]]; repeat split; try assumption; discriminate.
Qed.

Lemma sidebar_of_user (item : Page) :
  existsb (Page_eqb item) (sidebarItems USER) = true ->
  item <> admin_questions /\ item <> admin_users /\ item <> admin_motivation.
Proof. destruct item; cbn; intros H; try discriminate H; repeat split; discriminate. Qed.

(** One click without an admin login keeps admin access away and leaves
    the repository and the user table alone. *)
Lemma handle_without_admin (ev : UIEvent) (b : Browser) :
  (forall email, loginEmail ev = Some email -> ~ contains_admin email) ->
  noAdminAccess (appState b) ->
  exists b',
    handle ev b = Some b' /\ noAdminAccess (appState b') /\
    questions (appState b') = questions (appState b) /\
    allUsers (appState b') = allUsers (appState b).
Proof.
  intros Hev Hinv. pose proof Hinv as (Hrole & Hp1 & Hp2 & Hp3).
  unfold handle. destruct (isClient (appState b)); cbn [negb];
    [| now exists b].
  destruct (user (appState b)) as [u |] eqn:Hu.
  - specialize (Hrole u eq_refl).
    destruct ev as [email now | | item | | now | ev' | jsonString | id
                   | userId status date].
    + now exists b.
    + eexists. split; [reflexivity |]. split; [| split; reflexivity].
      unfold noAdminAccess. cbn. repeat split; discriminate.
    + rewrite Hrole.
      destruct (existsb (Page_eqb item) (sidebarItems USER)) eqn:Hitem;
        [| now exists b].
      apply sidebar_of_user in Hitem. destruct Hitem as (H1 & H2 & H3).
      eexists. split; [reflexivity |]. split; [| split; reflexivity].
      unfold noAdminAccess. cbn. rewrite Hu. repeat split; try assumption.
      intros u' [= <-]. exact Hrole.
    + eexists. split; [reflexivity |]. split; [| split; reflexivity].
      unfold noAdminAccess. cbn. rewrite Hu. repeat split; try assumption.
      intros u' [= <-]. exact Hrole.
    + destruct (page (appState b)) eqn:Hp; try now exists b.
      eexists. split; [reflexivity |]. split; [| split; reflexivity].
      unfold noAdminAccess. cbn. rewrite Hu. repeat split; try discriminate.
      intros u' [= <-]. exact Hrole.
    + destruct (dispatch_total ev' (appState b)) as [st' Hd]. rewrite Hd.
      pose proof (dispatch_frame _ _ _ Hd) as (Hu' & Hall & Hqs & _).
      eexists. split; [reflexivity |]. cbn [appState].
      split; [| split; assumption].
      unfold noAdminAccess. rewrite Hu', Hu.
      split; [intros u' [= <-]; exact Hrole |].
      destruct (dispatch_page _ _ _ Hd) as [-> | ->];
        repeat split; try assumption; discriminate.
    + destruct (page (appState b)) eqn:Hp; try now exists b.
    + destruct (page (appState b)) eqn:Hp; try now exists b.
    + destruct (page (appState b)) eqn:Hp; try now exists b.
  - destruct ev as [email now | | item | | now | ev' | jsonString | id
                   | userId status date]; try now exists b.
    eexists. split; [reflexivity |]. split; [| split; reflexivity].
    unfold noAdminAccess, onApp, handleLogin. cbn.
    split; [| repeat split; discriminate].
    intros u' [= <-]. cbn.
    destruct (includes (toLowerCase email) "admin") eqn:Hinc; [| reflexivity].
    exfalso. apply (Hev email eq_refl). now apply includes_admin.
Qed.

Lemma click_without_admin (ev : UIEvent) (b : Browser) :
  (forall email, loginEmail ev = Some email -> ~ contains_admin email) ->
  noAdminAccess (appState b) ->
  exists b',
    click ev b = Some b' /\ noAdminAccess (appState b') /\
    questions (appState b') = questions (appState b) /\
    allUsers (appState b') = allUsers (appState b).
Proof.
  intros Hev Hinv.
  destruct (handle_without_admin ev b Hev Hinv) as (b1 & Hh & Hinv1 & Hq & Ha).
  unfold click. rewrite Hh. eexists. split; [reflexivity |].
  unfold onApp. cbn [appState].
  split; [now apply noAdminAccess_render, noAdminAccess_render |].
  destruct (renderPage_page (appState b1)) as [(_ & Ha1 & Hq1 & _) _].
  destruct (renderPage_page (fst (renderPage (appState b1))))
    as [(_ & Ha2 & Hq2 & _) _].
  split; congruence.
Qed.

(** X15. Hiding the admin entries of the sidebar is an effective
    barrier: from a state without admin access, in no sequence of clicks
    in which nobody logs in with an "admin" email does a handler throw,
    an admin view show or a user get the ADMIN role, and the question
    repository and the user table stay exactly as they were. *)
Theorem no_admin_view_without_admin_login (evs : list UIEvent) (b : Browser) :
  withoutAdminLogin evs ->
  noAdminAccess (appState b) ->
  exists b' : Browser,
    clicks evs b = Some b' /\
    noAdminAccess (appState b') /\
    isAdminView (snd (renderPage (appState b'))) = false /\
    questions (appState b') = questions (appState b) /\
    allUsers (appState b') = allUsers (appState b).
Proof.
  revert b. induction evs as [| ev evs IH]; intros b Hevs Hinv.
  - exists b. split; [reflexivity |]. split; [exact Hinv |].
    split; [| split; reflexivity].
    destruct Hinv as (_ & Hp1 & Hp2 & _). unfold renderPage.
    destruct (user (appState b)); [| reflexivity].
    destruct (page (appState b)); try destruct (currentQuiz (appState b));
      try reflexivity; congruence.
  - destruct (click_without_admin ev b) as (b1 & Hc & Hinv1 & Hq1 & Ha1);
      [intros email He; apply (Hevs ev email); [now left | exact He] | exact Hinv |].
    destruct (IH b1) as (b' & Hcs & Hinv' & Hview & Hq & Ha);
      [intros ev' email Hin He; apply (Hevs ev' email); [now right | exact He]
      | exact Hinv1 |].
    exists b'. cbn [clicks]. rewrite Hc.
    split; [exact Hcs |]. split; [exact Hinv' |]. split; [exact Hview |].
    split; congruence.
Qed.

Lemma no_admin_view_without_admin_login_witness :
  let evs := [loginClick "student@example.com" 0; navClick admin_questions;
              importClick "[1, 2]"; navClick leaderboard] in
  let b := loadPage None false in
  withoutAdminLogin evs /\ noAdminAccess (appState b) /\
  exists b' : Browser,
    clicks evs b = Some b' /\
    questions (appState b') = map Typed initialQuestions /\
    isAdminView (snd (renderPage (appState b'))) = false.
Proof.
  intros evs b.
  assert (Hevs : withoutAdminLogin evs).
  { intros ev email Hin He. rewrite <- includes_admin.
    destruct Hin as [<- | [<- | [<- | [<- | []]]]]; try discriminate He.
    injection He as <-. vm_compute. discriminate. }
  assert (Hinv : noAdminAccess (appState b)).
  { unfold noAdminAccess. repeat split; try discriminate. }
  split; [exact Hevs | split; [exact Hinv |]].
  destruct (no_admin_view_without_admin_login evs b Hevs Hinv)
    as (b' & Hc & _ & Hview & Hq & _).
  exists b'. split; [exact Hc | split; [exact Hq | exact Hview]].
Defined.

(** ** The accuracy figure of any user *)

Lemma accuracy_nearest (u : User.t) :
  let attempted := Stats.totalAttempted (User.stats u) in
  let correct := Stats.totalCorrect (User.stats u) in
  0 < attempted < 2 ^ 53 -> 0 <= correct < 2 ^ 44 ->
  exists k : Z,
    accuracy u = number_of_Z k /\
    - attempted <= 2 * (k * attempted - 100 * correct) <= attempted.
Proof.
  intros attempted correct Ha Hc. unfold accuracy.
  fold attempted correct.
  destruct (number_of_Z_exact attempted Ha) as (ma & Hma & _).
  assert (Hgt : number_gt (number_of_Z attempted) (number_of_Z 0) = true)
    by (rewrite Hma; reflexivity).
  rewrite Hgt.
  destruct (Z.eq_dec correct 0) as [Hc0 | Hc0].
  - exists 0. rewrite Hc0, Hma. split; [reflexivity | lia].
  - apply accuracy_positive; lia.
Qed.

(** X16. The accuracy figure is a whole percentage: for a user with at
    most as many correct answers as attempted ones (counts below 2^44
    and 2^53), the dashboard shows an integer between 0 and 100,
    whatever binary64 division and multiplication do in between. *)
Theorem accuracy_is_a_percentage (u : User.t) :
  let attempted := Stats.totalAttempted (User.stats u) in
  let correct := Stats.totalCorrect (User.stats u) in
  0 <= correct <= attempted -> attempted < 2 ^ 53 -> correct < 2 ^ 44 ->
  exists k : Z, accuracy u = number_of_Z k /\ 0 <= k <= 100.
Proof.
  intros attempted correct Hca Ha Hc.
  destruct (Z.eq_dec attempted 0) as [Ha0 | Ha0].
  - exists 0. split; [| lia]. unfold accuracy. fold attempted. rewrite Ha0.
    reflexivity.
  - destruct (accuracy_nearest u) as (k & Hk & Hnear);
      fold attempted correct; [lia | lia |].
    fold attempted correct in Hnear.
    exists k. split; [exact Hk |].
    assert (H0 : -1 < k).
    { apply (Z.mul_lt_mono_pos_r attempted); [lia |].
      assert (0 <= 100 * correct) by lia. lia. }
    assert (H100 : k < 101).
    { apply (Z.mul_lt_mono_pos_r attempted); [lia |].
      assert (100 * correct <= 100 * attempted) by lia. lia. }
    lia.
Qed.

Lemma accuracy_is_a_percentage_witness :
  let u := User.mk 7 "Ada" "ada@example.com" USER ACTIVE None
             (Stats.mk 7 3 2) [] in
  exists k : Z, accuracy u = number_of_Z k /\ 0 <= k <= 100.
Proof.
  intros u. apply (accuracy_is_a_percentage u); cbn; lia.
Defined.

(** X17. No rounding error when the percentage is a whole number: if
    [100 * correct / attempted] is the integer [p], the dashboard shows
    exactly [p], although [correct / attempted] itself is in general
    not representable in binary64 (as for 35 out of 50). *)
Theorem accuracy_exact_when_divisible (u : User.t) (p : Z) :
  let attempted := Stats.totalAttempted (User.stats u) in
  let correct := Stats.totalCorrect (User.stats u) in
  0 < attempted < 2 ^ 53 -> 0 <= correct < 2 ^ 44 ->
  100 * correct = p * attempted ->
  accuracy u = number_of_Z p.
Proof.
  intros attempted correct Ha Hc Hp.
  destruct (accuracy_nearest u) as (k & Hk & Hnear);
    fold attempted correct; [lia | lia |].
  fold attempted correct in Hnear. rewrite Hk. f_equal.
  rewrite Hp in Hnear.
  replace (k * attempted - p * attempted) with ((k - p) * attempted) in Hnear
    by ring.
  assert (H1 : k - p < 1).
  { apply (Z.mul_lt_mono_pos_r attempted); lia. }
  assert (H2 : -1 < k - p).
  { apply (Z.mul_lt_mono_pos_r attempted); lia. }
  lia.
Qed.

Lemma accuracy_exact_when_divisible_witness :
  let u := User.mk 1 "Alex Doe" "alex@example.com" USER FREE None
             (Stats.mk 75 9 0) [] in
  accuracy u = number_of_Z 12.
Proof.
  intros u. apply (accuracy_exact_when_divisible u 12); cbn; lia.
Defined.

(** X18. The accuracy figure is monotone in the number of correct
    answers: of two users with the same number of attempted questions,
    the one with more correct answers is never shown a smaller figure,
    in spite of the two roundings of the floating-point computation. *)
Theorem accuracy_monotone_in_correct (u1 u2 : User.t) :
  Stats.totalAttempted (User.stats u1) = Stats.totalAttempted (User.stats u2) ->
  0 < Stats.totalAttempted (User.stats u1) < 2 ^ 53 ->
  0 <= Stats.totalCorrect (User.stats u1) ->
  Stats.totalCorrect (User.stats u1) <= Stats.totalCorrect (User.stats u2) ->
  Stats.totalCorrect (User.stats u2) < 2 ^ 44 ->
  exists k1 k2 : Z,
    accuracy u1 = number_of_Z k1 /\ accuracy u2 = number_of_Z k2 /\ k1 <= k2.
Proof.
  intros Hsame Ha Hc1 Hle Hc2.
  destruct (accuracy_nearest u1) as (k1 & Hk1 & Hn1); [lia | lia |].
  destruct (Z.eq_dec (Stats.totalCorrect (User.stats u1))
                     (Stats.totalCorrect (User.stats u2))) as [Heq | Hneq].
  - exists k1, k1. split; [exact Hk1 | split; [| lia]].
    rewrite <- Hk1. unfold accuracy. now rewrite Hsame, Heq.
  - destruct (accuracy_nearest u2) as (k2 & Hk2 & Hn2); [lia | lia |].
    exists k1, k2. split; [exact Hk1 | split; [exact Hk2 |]].
    rewrite <- Hsame in Hn2.
    set (a := Stats.totalAttempted (User.stats u1)) in *.
    set (c1 := Stats.totalCorrect (User.stats u1)) in *.
    set (c2 := Stats.totalCorrect (User.stats u2)) in *.
    assert (H1 : -1 < k2 - k1).
    { apply (Z.mul_lt_mono_pos_r a); [lia |].
      replace ((k2 - k1) * a) with (k2 * a - k1 * a) by ring. lia. }
    lia.
Qed.

Lemma accuracy_monotone_in_correct_witness :
  let u1 := User.mk 1 "Alex Doe" "alex@example.com" USER FREE None
              (Stats.mk 40 22 0) [] in
  let u2 := User.mk 2 "Sam Lee" "sam@example.com" USER FREE None
              (Stats.mk 40 23 5) [] in
  exists k1 k2 : Z,
    accuracy u1 = number_of_Z k1 /\ accuracy u2 = number_of_Z k2 /\ k1 <= k2.
Proof.
  intros u1 u2. apply (accuracy_monotone_in_correct u1 u2); cbn; lia.
Defined.
